(** * Categorical chart engine: axis domains, plot offset, tooltip resolution
      and cross-chart synchronisation

    A shallow embedding of the layout and interaction logic of
    [src/chart/generateCategoricalChart.tsx] together with the helpers of
    [util/ReactUtils] ([validateWidthHeight]) and [util/CartesianUtils]
    ([ScaleHelper]). A second part embeds further code of the same files:
    the remaining handlers of the chart instance, the children helpers of
    [util/ReactUtils] ([toArray], [findAllByType], [withoutType],
    [renderByOrder]) and the rectangles, labeled scales and angles of
    [util/CartesianUtils].

    Conventions of the embedding.
    - A JavaScript number is a rational ([Q]); [NaN] is a separate
      primitive value where a value of unknown type is stored, and the one
      place where the code can produce [Infinity] (the pointer scale) keeps
      it apart explicitly. The arithmetic of the chart engine is taken
      exactly; the arithmetic of the rectangles, scales and angles of
      [util/CartesianUtils], whose properties depend on it, rounds every
      sum, difference and quotient to the nearest double ([fl]).
    - Array indices that the code computes are integers ([Z]); reading an
      array out of range yields [None], as JavaScript yields [undefined].
      The active tooltip index is the one index that a function supplied by
      the user can set (the resolver of [syncMethod]); it is a number of any
      kind ([TooltipIndex]).
    - An object used as a dictionary (an axis map) is a [gmap] over its
      property keys. The names that every object inherits ([constructor],
      [toString], ...) are no entries of a [gmap]; a statement on the
      presence of an entry is made for keys that are none of them
      ([ownKey]).
    - A thrown exception is the [Thrown] outcome of the function.
    - Functions of this repository that live outside the embedded files
      (the helpers of [util/ChartUtils], [util/DataUtils], ...) are the
      fields of the class [ChartUtils]; every definition that calls one of
      them is parametric in an instance. *)

From Stdlib Require Import ZArith QArith Qminmax Qround Qabs Qpower Lqa Lia Bool
  DecimalString Sorted.
From stdpp Require Import gmap strings list.

Open Scope Q_scope.

(** ** Primitive values *)

Inductive prim : Type :=
| PUndefined
| PNull
| PNaN
| PNum (q : Q)
| PStr (s : string).

(** [isNil] of lodash. *)
Definition isNil (p : prim) : bool :=
  match p with PUndefined | PNull => true | _ => false end.

(** Strict equality [===] on primitives; [NaN] equals nothing. *)
Definition strict_eq (a b : prim) : bool :=
  match a, b with
  | PUndefined, PUndefined => true
  | PNull, PNull => true
  | PNum x, PNum y => Qeq_bool x y
  | PStr s, PStr t => bool_decide (s = t)
  | _, _ => false
  end.

(** Truthiness of a primitive. *)
Definition truthy (p : prim) : bool :=
  match p with
  | PUndefined | PNull | PNaN => false
  | PNum q => negb (Qeq_bool q 0)
  | PStr s => negb (bool_decide (s = ""))
  end.

(** Modelled from the spec: [isNumber] of [util/DataUtils], which is not
    among the embedded files; a value is numeric when it is of number type
    and is not [NaN]. *)
Definition isNumber (p : prim) : bool :=
  match p with PNum _ => true | _ => false end.

(** A data record: either a plain object with primitive fields or a bare
    primitive (a data array is typed [any[]]). *)
Inductive entry : Type :=
| Row (fields : list (string * prim))
| Bare (p : prim).

Definition entry_truthy (e : entry) : bool :=
  match e with Row _ => true | Bare p => truthy p end.

(** ** Arrays *)

(** [a[i]] for an integer index. *)
Definition js_get {A} (l : list A) (i : Z) : option A :=
  if (i <? 0)%Z then None else l !! Z.to_nat i.

(** A number held as the active tooltip index.  The chart itself computes
    integers; the resolver a chart is given as its [syncMethod] is typed
    [Function] and its result is stored as it comes, so that the index may
    be any number: an integer, another finite number or [NaN].  [undefined]
    is the absent value of the field that holds the index. *)
Inductive TooltipIndex :=
| IInt (i : Z)
| INumber (q : Q)
| INaN.

Coercion IInt : Z >-> TooltipIndex.
Bind Scope Z_scope with TooltipIndex.

(** [x < n], [x <= n] and [x >= n] for a whole number [n]; every comparison
    with [NaN] is false. *)
Definition index_ltb (x : TooltipIndex) (n : Z) : bool :=
  match x with
  | IInt i => (i <? n)%Z
  | INumber q => negb (Qle_bool (inject_Z n) q)
  | INaN => false
  end.

Definition index_leb (x : TooltipIndex) (n : Z) : bool :=
  match x with
  | IInt i => (i <=? n)%Z
  | INumber q => Qle_bool q (inject_Z n)
  | INaN => false
  end.

Definition index_geb (x : TooltipIndex) (n : Z) : bool :=
  match x with
  | IInt i => (n <=? i)%Z
  | INumber q => Qle_bool (inject_Z n) q
  | INaN => false
  end.

(** The array position a number names, if any: the property key of a number
    is its decimal text, which is an array index only for a whole number. *)
Definition arrayIndex (x : TooltipIndex) : option Z :=
  match x with
  | IInt i => Some i
  | INumber q => if Qeq_bool q (inject_Z (Qfloor q)) then Some (Qfloor q) else None
  | INaN => None
  end.

(** [a[x]] for any number [x]. *)
Definition js_at {A} (l : list A) (x : TooltipIndex) : option A :=
  arrayIndex x ≫= js_get l.

(** The number an optional index stands for where it is compared or used as
    a property key: [undefined] compares as [NaN] does, and names no array
    position either. *)
Definition toIndex (x : option TooltipIndex) : TooltipIndex := default INaN x.

(** [Array.prototype.indexOf] with strict equality; [-1] when absent. *)
Fixpoint indexOf_from (l : list prim) (x : prim) (i : Z) : Z :=
  match l with
  | [] => (-1)%Z
  | y :: t => if strict_eq y x then i else indexOf_from t x (i + 1)%Z
  end.

Definition indexOf (l : list prim) (x : prim) : Z := indexOf_from l x 0.

(** [range(0, n)] of lodash. *)
Definition range0 (n : nat) : list prim :=
  map (fun i => PNum (inject_Z (Z.of_nat i))) (seq 0 n).

(** [Array.prototype.slice(from, to)], negative arguments counting from the
    end. *)
Definition slice_bound (n i : Z) : Z :=
  if (i <? 0)%Z then Z.max (n + i) 0 else Z.min i n.

Definition js_slice {A} (l : list A) (from to : Z) : list A :=
  let n := Z.of_nat (length l) in
  let s := slice_bound n from in
  let e := slice_bound n to in
  take (Z.to_nat (e - s)) (drop (Z.to_nat s) l).

(** [a ?? b], and the merge of an optional key over a stored one. *)
Definition coalesce {A} (a b : option A) : option A :=
  match a with Some _ => a | None => b end.

(** ** Outcomes *)

Inductive outcome (A : Type) : Type :=
| Returned (a : A)
| Thrown (msg : string).

Arguments Returned {A} a.
Arguments Thrown {A} msg.

#[global] Instance outcome_ret : MRet outcome := fun A a => Returned a.

#[global] Instance outcome_bind : MBind outcome := fun A B k o =>
  match o with Returned a => k a | Thrown m => Thrown m end.

(** ** ScaleHelper (util/CartesianUtils) *)

Module ScaleHelper.

(** The part of a d3 scale the helper reads. *)
Record t := create { range : list Q; bandwidth : option Q }.

Definition rangeMin (s : t) : option Q := range s !! 0%nat.
Definition rangeMax (s : t) : option Q := range s !! 1%nat.

(** [isInRange]: [first] and [last] are [undefined] on an empty range, and
    every comparison with [undefined] is false. *)
Definition isInRange (s : t) (value : Q) : bool :=
  match head (range s), last (range s) with
  | Some first, Some last =>
      if Qle_bool first last
      then Qle_bool first value && Qle_bool value last
      else Qle_bool last value && Qle_bool value first
  | _, _ => false
  end.

End ScaleHelper.

(** ** Chart vocabulary *)

Inductive LayoutType := Horizontal | Vertical | Centric | Radial.
Inductive AxisType := XAxis | YAxis | ZAxis | AngleAxis | RadiusAxis.
Inductive AxisDataType := TNumber | TCategory.
Inductive StackOffsetType :=
  SOExpand | SONone | SOWiggle | SOSilhouette | SOSign | SOPositive.

Inductive XOrientation := OTop | OBottom.
Inductive YOrientation := OLeft | ORight.

(** An axis id is a string or a number. *)
Inductive AxisId := IdNum (n : Z) | IdStr (s : string).

#[global] Instance AxisId_eq_dec : EqDecision AxisId.
Proof. solve_decision. Defined.

#[global] Instance AxisType_eq_dec : EqDecision AxisType.
Proof. solve_decision. Defined.

#[global] Instance LayoutType_eq_dec : EqDecision LayoutType.
Proof. solve_decision. Defined.

(** The property key under which an axis id indexes an axis map: the number
    [0] and the string ["0"] name the same property. *)
Definition axisKey (id : AxisId) : string :=
  match id with
  | IdNum n => NilZero.string_of_int (Z.to_int n)
  | IdStr s => s
  end.

(** The key of an id that may be [undefined]. *)
Definition axisKeyOpt (id : option AxisId) : string :=
  match id with Some i => axisKey i | None => "undefined" end.

(** A data key: a field name, a numeric field index or an accessor. *)
Inductive DataKey :=
| KeyName (s : string)
| KeyIndex (n : Z)
| KeyFn (f : entry -> prim).

(** [if (dataKey)]: the empty name and the index [0] are falsy. *)
Definition key_truthy (k : option DataKey) : option DataKey :=
  match k with
  | Some (KeyName s) => if bool_decide (s = "") then None else k
  | Some (KeyIndex n) => if (n =? 0)%Z then None else k
  | _ => k
  end.

Inductive ScaleSpec := ScaleName (s : string) | ScaleFn.

(** [scale !== 'auto']. *)
Definition scale_not_auto (s : ScaleSpec) : bool :=
  match s with ScaleName n => negb (bool_decide (n = "auto")) | ScaleFn => true end.

(** The props of an axis element, defaults of its component merged in
    ([childProps]); [O] is the orientation type of its dimension. A domain
    is a list of bounds or categories; one given as a function is outside the
    model. *)
Record AxisProps (O : Type) := {
  ax_id : AxisId;
  ax_type : AxisDataType;
  ax_dataKey : option DataKey;
  ax_allowDataOverflow : bool;
  ax_allowDuplicatedCategory : bool;
  ax_scale : ScaleSpec;
  ax_ticks : option (list prim);
  ax_includeHidden : bool;
  ax_domain : option (list prim);
  ax_orientation : O;
  ax_mirror : bool;
  ax_hide : bool;
  ax_width : Q;
  ax_height : Q
}.

Arguments ax_id {O}.
Arguments ax_type {O}.
Arguments ax_dataKey {O}.
Arguments ax_allowDataOverflow {O}.
Arguments ax_allowDuplicatedCategory {O}.
Arguments ax_scale {O}.
Arguments ax_ticks {O}.
Arguments ax_includeHidden {O}.
Arguments ax_domain {O}.
Arguments ax_orientation {O}.
Arguments ax_mirror {O}.
Arguments ax_hide {O}.
Arguments ax_width {O}.
Arguments ax_height {O}.

(** One entry of an axis map. *)
Record AxisRec (O : Type) := {
  ar_props : AxisProps O;
  ar_axisType : AxisType;
  ar_domain : list prim;
  ar_categoricalDomain : option (list prim);
  ar_duplicateDomain : option (list prim);
  ar_originalDomain : option (list prim);
  ar_isCategorical : bool;
  ar_layout : LayoutType
}.

Arguments ar_props {O}.
Arguments ar_axisType {O}.
Arguments ar_domain {O}.
Arguments ar_categoricalDomain {O}.
Arguments ar_duplicateDomain {O}.
Arguments ar_originalDomain {O}.
Arguments ar_isCategorical {O}.
Arguments ar_layout {O}.

(** A plotted series. [item_axisId] reads the axis id of a dimension from
    the item's own props or else from the defaults of its component. *)
Record GraphicalItem := {
  item_name : string;
  item_key : option string;
  item_data : option (list entry);
  item_dataKey : option DataKey;
  item_axisId : AxisType -> option AxisId;
  item_hide : bool;
  item_getComposedData : bool
}.

Record TickItem := {
  tick_value : prim;
  tick_coordinate : Q;
  tick_index : Z
}.

(** A pointer position in the plot: [{x, y}] in a cartesian layout, the
    sector with [radius] and [angle] in a polar one. A missing field is
    [undefined]. *)
Record RangeObj := {
  r_x : option Q;
  r_y : option Q;
  r_angle : option Q;
  r_radius : option Q;
  r_cx : option Q;
  r_cy : option Q
}.

(** Where the cursor is drawn. A component is [None] when the code computes
    it from an [undefined] operand. *)
Record ChartCoordinate := {
  cc_x : option Q;
  cc_y : option Q;
  cc_angle : option Q;
  cc_radius : option Q
}.

Definition originCoordinate : ChartCoordinate :=
  {| cc_x := Some 0; cc_y := Some 0; cc_angle := None; cc_radius := None |}.

(** ** Plot offset *)

Record Margin := {
  margin_top : option Q;
  margin_right : option Q;
  margin_bottom : option Q;
  margin_left : option Q
}.

(** [m.side || 0]. *)
Definition or0 (o : option Q) : Q := default 0 o.

(** The four consumed margins, before the plot size is known. *)
Record Edges := {
  e_top : Q;
  e_right : Q;
  e_bottom : Q;
  e_left : Q
}.

Record ChartOffset := {
  o_brushBottom : Q;
  o_top : Q;
  o_right : Q;
  o_bottom : Q;
  o_left : Q;
  o_width : Q;
  o_height : Q
}.

Record DOMRect := { box_width : Q; box_height : Q }.

(** ** Stack groups *)

(** Members of one stack and, per category index, their accumulated
    [base, top] extents. *)
Record StackGroup := {
  sg_items : list GraphicalItem;
  sg_stackedData : list (list (Q * Q))
}.

(** The stacks of one numeric axis. *)
Record AxisStack := {
  hasStack : bool;
  stackGroups : gmap string StackGroup
}.

(** ** Tooltip state *)

(** One line of the tooltip payload. *)
Record TooltipItem := {
  ti_series : GraphicalItem;
  ti_value : prim;
  ti_payload : entry
}.

(** What the tooltip functions read of the tooltip axis. *)
Record TooltipAxis := {
  ta_axisType : AxisType;
  ta_dataKey : option DataKey;
  ta_allowDuplicatedCategory : bool
}.

Definition tooltipAxisOf {O} (r : AxisRec O) : TooltipAxis :=
  {| ta_axisType := ar_axisType r;
     ta_dataKey := ax_dataKey (ar_props r);
     ta_allowDuplicatedCategory := ax_allowDuplicatedCategory (ar_props r) |}.

(** A partial state, as passed to [setState] and broadcast to peers. [None]
    is an absent key; the label and the payload can be present and
    [undefined] or [null]. *)
Record Patch := {
  p_chartX : option Q;
  p_chartY : option Q;
  p_dataStartIndex : option Z;
  p_dataEndIndex : option Z;
  p_activeTooltipIndex : option TooltipIndex;
  p_isTooltipActive : option bool;
  p_activeLabel : option prim;
  p_activePayload : option (option (list TooltipItem));
  p_activeCoordinate : option ChartCoordinate
}.

Definition emptyPatch : Patch :=
  {| p_chartX := None; p_chartY := None;
     p_dataStartIndex := None; p_dataEndIndex := None;
     p_activeTooltipIndex := None; p_isTooltipActive := None;
     p_activeLabel := None; p_activePayload := None;
     p_activeCoordinate := None |}.

(** What one pass of the axis pipeline stores in the state; the keys are
    written together and by nothing else. *)
Record Derived := {
  d_graphicalItems : list GraphicalItem;
  d_formattedGraphicalItems : list (GraphicalItem * string);
  d_offset : ChartOffset;
  d_stackGroups : gmap string AxisStack;
  d_tooltipTicks : option (list TickItem);
  d_orderedTooltipTicks : list TickItem;
  d_tooltipAxis : option TooltipAxis;
  d_tooltipAxisBandSize : Q;
  d_xAxisMap : option (gmap string (AxisRec XOrientation));
  d_yAxisMap : option (gmap string (AxisRec YOrientation));
  d_zAxisMap : option (gmap string (AxisRec unit));
  d_angleAxisMap : option (gmap string (AxisRec unit));
  d_radiusAxisMap : option (gmap string (AxisRec unit))
}.

Record CategoricalChartState := {
  chartX : option Q;
  chartY : option Q;
  dataStartIndex : option Z;
  dataEndIndex : option Z;
  activeTooltipIndex : option TooltipIndex;
  isTooltipActive : option bool;
  activeLabel : prim;
  activePayload : option (list TooltipItem);
  activeCoordinate : option ChartCoordinate;
  updateId : option Z;
  legendBBox : option DOMRect;
  derived : option Derived
}.

Definition offset (st : CategoricalChartState) : option ChartOffset :=
  d_offset <$> derived st.
Definition graphicalItems (st : CategoricalChartState) : option (list GraphicalItem) :=
  d_graphicalItems <$> derived st.
Definition tooltipTicks (st : CategoricalChartState) : option (list TickItem) :=
  derived st ≫= d_tooltipTicks.
Definition orderedTooltipTicks (st : CategoricalChartState) : option (list TickItem) :=
  d_orderedTooltipTicks <$> derived st.
Definition tooltipAxis (st : CategoricalChartState) : option TooltipAxis :=
  derived st ≫= d_tooltipAxis.

(** [setState(patch)]: the keys of the patch replace those of the state. *)
Definition setState (st : CategoricalChartState) (p : Patch) : CategoricalChartState :=
  {| chartX := coalesce (p_chartX p) (chartX st);
     chartY := coalesce (p_chartY p) (chartY st);
     dataStartIndex := coalesce (p_dataStartIndex p) (dataStartIndex st);
     dataEndIndex := coalesce (p_dataEndIndex p) (dataEndIndex st);
     activeTooltipIndex := coalesce (p_activeTooltipIndex p) (activeTooltipIndex st);
     isTooltipActive := coalesce (p_isTooltipActive p) (isTooltipActive st);
     activeLabel := default (activeLabel st) (p_activeLabel p);
     activePayload := default (activePayload st) (p_activePayload p);
     activeCoordinate := coalesce (p_activeCoordinate p) (activeCoordinate st);
     updateId := updateId st;
     legendBBox := legendBBox st;
     derived := derived st |}.

(** ** Chart props *)

(** [syncMethod]: ['index'], ['value'] or a resolver called with the
    receiver's tooltip ticks and the data of the event.  What the resolver
    returns is of no declared type; the numbers and [undefined] (the absent
    result) are modelled. *)
Inductive SyncMethod :=
| SyncIndex
| SyncValue
| SyncFn (f : option (list TickItem) -> Patch -> option TooltipIndex).

Record BrushProps := {
  br_startIndex : option Z;
  br_endIndex : option Z;
  br_height : option Q
}.

Record TooltipProps := {
  tt_shared : option bool;
  tt_defaultIndex : option Z
}.

(** The chart props; [children] is held by element type, as
    [findAllByType] and [findChildByType] read it. *)
Record CategoricalChartProps := {
  syncId : prim;
  syncMethod : SyncMethod;
  p_width : prim;
  p_height : prim;
  data : option (list entry);
  layout : LayoutType;
  stackOffset : StackOffsetType;
  margin : option Margin;
  reverseStackOrder : bool;
  defaultShowTooltip : bool;
  xAxes : list (AxisProps XOrientation);
  yAxes : list (AxisProps YOrientation);
  zAxes : list (AxisProps unit);
  angleAxes : list (AxisProps unit);
  radiusAxes : list (AxisProps unit);
  items : list GraphicalItem;
  brush : option BrushProps;
  legend : bool;
  tooltip : option TooltipProps
}.

(** ** Helpers defined outside the embedded files *)

Class ChartUtils := {
  (* util/ChartUtils *)
  isCategoricalAxis : LayoutType -> AxisType -> bool;
  getDomainOfDataByKey : list entry -> option DataKey -> AxisDataType -> list prim;
  parseDomainOfCategoryAxis :
    forall O, option (list prim) -> list prim -> AxisProps O -> list prim;
  parseSpecifiedDomain : option (list prim) -> option (list prim) -> bool -> list prim;
  parseErrorBarsOfAxis :
    list entry -> list GraphicalItem -> DataKey -> AxisType -> LayoutType ->
    option (list prim);
  getDomainOfStackGroups : gmap string StackGroup -> option Z -> option Z -> list prim;
  getDomainOfItemsWithSameAxis :
    list entry -> list GraphicalItem -> AxisDataType -> LayoutType -> bool -> list prim;
  getStackGroupsByAxisId :
    option (list entry) -> list GraphicalItem -> AxisType -> AxisType ->
    StackOffsetType -> bool -> gmap string AxisStack;
  getTicksOfAxis : forall O, option (AxisRec O) -> option (list TickItem);
  getBandSizeOfAxis : forall O, option (AxisRec O) -> option (list TickItem) -> Q;
  calculateActiveTickIndex :
    option Q -> option (list TickItem) -> option (list TickItem) -> option TooltipAxis -> Z;
  getTooltipItem : GraphicalItem -> entry -> TooltipItem;
  appendOffsetOfLegend :
    Edges -> list GraphicalItem -> CategoricalChartProps -> DOMRect -> Edges;
  (* util/DataUtils *)
  getAnyElementOfObject :
    forall O, option (gmap string (AxisRec O)) -> option (AxisRec O);
  hasDuplicate : list prim -> bool;
  findEntryInArray : list entry -> DataKey -> prim -> option entry;
  (* util/isDomainSpecifiedByUser *)
  isDomainSpecifiedByUser : option (list prim) -> bool -> AxisDataType -> bool;
  (* util/DetectReferenceElementsDomain *)
  detectReferenceElementsDomain :
    CategoricalChartProps -> list prim -> option AxisId -> AxisType ->
    option (list prim) -> list prim;
  (* util/PolarUtils: the sector test on the angle axis of the chart *)
  inRangeOfSector : Q -> Q -> option (AxisRec unit) -> option RangeObj;
  polarToCartesian : option Q -> option Q -> option Q -> option Q -> option Q * option Q;
  (* cartesian/Brush *)
  Brush_defaultProps_height : Q
}.

(** ** Options of [generateCategoricalChart] *)

Inductive TooltipEventType := EvAxis | EvItem.

#[global] Instance TooltipEventType_eq_dec : EqDecision TooltipEventType.
Proof. solve_decision. Defined.

Record CategoricalChartOptions := {
  axisComponents : list AxisType;
  XAxis_defaultProps : AxisProps XOrientation;
  YAxis_defaultProps : AxisProps YOrientation;
  ZAxis_defaultProps : AxisProps unit;
  AngleAxis_defaultProps : AxisProps unit;
  RadiusAxis_defaultProps : AxisProps unit;
  formatAxisMap :
    forall O, CategoricalChartProps -> gmap string (AxisRec O) -> ChartOffset ->
              AxisType -> gmap string (AxisRec O);
  defaultTooltipEventType : TooltipEventType;
  validateTooltipEventTypes : list TooltipEventType
}.

(** ** The engine *)

Section Engine.

Context {U : ChartUtils}.

Definition calculateTooltipPos (rangeObj : RangeObj) (layout : LayoutType) : option Q :=
  match layout with
  | Horizontal => r_x rangeObj
  | Vertical => r_y rangeObj
  | Centric => r_angle rangeObj
  | Radial => r_radius rangeObj
  end.

Definition getActiveCoordinate (layout : LayoutType) (tooltipTicks : list TickItem)
    (activeIndex : Z) (rangeObj : RangeObj) : ChartCoordinate :=
  match find (fun tick => (tick_index tick =? activeIndex)%Z) tooltipTicks with
  | Some entry =>
      match layout with
      | Horizontal =>
          {| cc_x := Some (tick_coordinate entry); cc_y := r_y rangeObj;
             cc_angle := None; cc_radius := None |}
      | Vertical =>
          {| cc_x := r_x rangeObj; cc_y := Some (tick_coordinate entry);
             cc_angle := None; cc_radius := None |}
      | Centric =>
          let angle := Some (tick_coordinate entry) in
          let radius := r_radius rangeObj in
          let xy := polarToCartesian (r_cx rangeObj) (r_cy rangeObj) radius angle in
          {| cc_x := xy.1; cc_y := xy.2; cc_angle := angle; cc_radius := radius |}
      | Radial =>
          let radius := Some (tick_coordinate entry) in
          let angle := r_angle rangeObj in
          let xy := polarToCartesian (r_cx rangeObj) (r_cy rangeObj) radius angle in
          {| cc_x := xy.1; cc_y := xy.2; cc_angle := angle; cc_radius := radius |}
      end
  | None => originCoordinate
  end.

Definition nonempty {A} (l : list A) : bool :=
  match l with [] => false | _ => true end.

Definition getDisplayedData (data : option (list entry))
    (graphicalItems : option (list GraphicalItem))
    (dataStartIndex dataEndIndex : option Z) : list entry :=
  let itemsData :=
    fold_left
      (fun result child =>
         match item_data child with
         | Some itemData => if nonempty itemData then result ++ itemData else result
         | None => result
         end)
      (default [] graphicalItems) [] in
  if nonempty itemsData then itemsData
  else
    match data, dataStartIndex, dataEndIndex with
    | Some d, Some s, Some e =>
        if nonempty d then js_slice d s (e + 1)%Z else []
    | _, _, _ => []
    end.

Definition getDefaultDomainByAxisType (axisType : AxisDataType) : option (list prim) :=
  match axisType with
  | TNumber => Some [PNum 0; PStr "auto"]
  | TCategory => None
  end.

(** [!payload]. *)
Definition no_payload (payload : option entry) : bool :=
  match payload with Some e => negb (entry_truthy e) | None => true end.

Definition getTooltipContent (st : CategoricalChartState)
    (chartData : option (list entry)) (activeIndex : TooltipIndex) (activeLabel : prim)
  : outcome (option (list TooltipItem)) :=
  let displayedData :=
    getDisplayedData chartData (graphicalItems st) (dataStartIndex st) (dataEndIndex st) in
  match graphicalItems st with
  | None => Returned None
  | Some gis =>
      if index_ltb activeIndex 0 || negb (nonempty gis)
         || index_geb activeIndex (Z.of_nat (length displayedData))
      then Returned None
      else
        match tooltipAxis st with
        | None => Thrown "TypeError: tooltipAxis is undefined"
        | Some axis =>
            Returned (Some (fold_left
              (fun result child =>
                 let data0 := coalesce (item_data child) chartData in
                 let data :=
                   match data0, dataStartIndex st, dataEndIndex st with
                   | Some d, Some s, Some e =>
                       if negb (s + e =? 0)%Z && index_leb activeIndex (e - s)
                       then Some (js_slice d s (e + 1)%Z) else data0
                   | _, _, _ => data0
                   end in
                 let payload :=
                   match key_truthy (ta_dataKey axis), ta_allowDuplicatedCategory axis with
                   | Some dataKey, false =>
                       let entries := default displayedData data in
                       findEntryInArray entries dataKey activeLabel
                   | _, _ =>
                       match data ≫= (fun d => js_at d activeIndex) with
                       | Some e =>
                           if entry_truthy e then Some e
                           else js_at displayedData activeIndex
                       | None => js_at displayedData activeIndex
                       end
                   end in
                 if no_payload payload then result
                 else
                   match payload with
                   | Some e => result ++ [getTooltipItem child e]
                   | None => result
                   end)
              gis []))
        end
  end.

Record TooltipData := {
  td_activeTooltipIndex : Z;
  td_activeLabel : prim;
  td_activePayload : option (list TooltipItem);
  td_activeCoordinate : ChartCoordinate
}.

Definition getTooltipData (st : CategoricalChartState) (chartData : option (list entry))
    (layout : LayoutType) (rangeObj : option RangeObj) : outcome (option TooltipData) :=
  let rangeData :=
    default {| r_x := chartX st; r_y := chartY st; r_angle := None;
               r_radius := None; r_cx := None; r_cy := None |} rangeObj in
  let pos := calculateTooltipPos rangeData layout in
  let activeIndex :=
    calculateActiveTickIndex pos (orderedTooltipTicks st) (tooltipTicks st) (tooltipAxis st) in
  match tooltipTicks st, orderedTooltipTicks st with
  | Some tTicks, Some ticks =>
      if (0 <=? activeIndex)%Z then
        let activeLabel := default PUndefined (tick_value <$> js_get tTicks activeIndex) in
        activePayload ← getTooltipContent st chartData (IInt activeIndex) activeLabel;
        let activeCoordinate := getActiveCoordinate layout ticks activeIndex rangeData in
        Returned (Some {| td_activeTooltipIndex := activeIndex;
                          td_activeLabel := activeLabel;
                          td_activePayload := activePayload;
                          td_activeCoordinate := activeCoordinate |})
      else Returned None
  | _, _ => Returned None
  end.

(** *** Axis domains *)

(** Remove duplicated categories (the reducer of lines 404-408). *)
Definition uniqueEntries (l : list prim) : list prim :=
  fold_left
    (fun finalDomain entry =>
       if (0 <=? indexOf finalDomain entry)%Z then finalDomain
       else finalDomain ++ [entry])
    l [].

(** The same, also dropping the empty string, [null] and [undefined]
    (lines 413-417). *)
Definition uniqueDefinedEntries (l : list prim) : list prim :=
  fold_left
    (fun finalDomain entry =>
       if (0 <=? indexOf finalDomain entry)%Z || strict_eq entry (PStr "") || isNil entry
       then finalDomain
       else finalDomain ++ [entry])
    l [].

Definition definedEntries (l : list prim) : list prim :=
  List.filter (fun entry => negb (strict_eq entry (PStr "")) && negb (isNil entry)) l.

Definition itemsOfAxis (axisType : AxisType) (axisId : option AxisId)
    (graphicalItems : list GraphicalItem) : list GraphicalItem :=
  List.filter (fun item => bool_decide (item_axisId item axisType = axisId)) graphicalItems.

Definition shownItemsOfAxis (axisType : AxisType) (axisId : option AxisId)
    (includeHidden : bool) (graphicalItems : list GraphicalItem) : list GraphicalItem :=
  List.filter
    (fun item => bool_decide (item_axisId item axisType = axisId)
                 && (includeHidden || negb (item_hide item)))
    graphicalItems.

(** [stackGroups && stackGroups[axisId] && stackGroups[axisId].hasStack]. *)
Definition stackOfAxis (stackGroups : option (gmap string AxisStack)) (key : string)
  : option AxisStack :=
  match stackGroups ≫= (fun m => m !! key) with
  | Some s => if hasStack s then Some s else None
  | None => None
  end.

Definition is_number (t : AxisDataType) : bool :=
  match t with TNumber => true | TCategory => false end.

(** The axis record built for one axis element: the body of the reducer of
    [getAxisMapByAxes] past the test for an id already seen. *)
Definition axisOfElement {O} (props : CategoricalChartProps) (axisType : AxisType)
    (stacks : option (gmap string AxisStack)) (dataStartIndex dataEndIndex : option Z)
    (graphicalItems : list GraphicalItem) (childProps : AxisProps O) : AxisRec O :=
  let isCategorical := isCategoricalAxis (layout props) axisType in
  let type := ax_type childProps in
  let dataKey := ax_dataKey childProps in
  let allowDataOverflow := ax_allowDataOverflow childProps in
  let allowDuplicatedCategory := ax_allowDuplicatedCategory childProps in
  let axisId := ax_id childProps in
  let displayedData :=
    getDisplayedData (data props)
      (Some (itemsOfAxis axisType (Some axisId) graphicalItems))
      dataStartIndex dataEndIndex in
  let len := length displayedData in
  let specified := isDomainSpecifiedByUser (ax_domain childProps) allowDataOverflow type in
  let needsCategorical :=
    isCategorical && (is_number type || scale_not_auto (ax_scale childProps)) in
  let domain0 :=
    if specified
    then Some (parseSpecifiedDomain (ax_domain childProps) None allowDataOverflow)
    else None in
  let categoricalDomain0 :=
    if specified && needsCategorical
    then Some (getDomainOfDataByKey displayedData dataKey TCategory)
    else None in
  let defaultDomain := getDefaultDomainByAxisType type in
  let computed :=
    let childDomain := coalesce (ax_domain childProps) defaultDomain in
    let '(domain1, duplicateDomain, categoricalDomain) :=
      match key_truthy dataKey with
      | Some key =>
          let extracted := getDomainOfDataByKey displayedData dataKey type in
          let '(domain, duplicateDomain) :=
            match type with
            | TCategory =>
                if isCategorical then
                  let duplicate := hasDuplicate extracted in
                  if allowDuplicatedCategory && duplicate
                  then (range0 len, Some extracted)
                  else if negb allowDuplicatedCategory
                  then (uniqueEntries
                          (parseDomainOfCategoryAxis O childDomain extracted childProps),
                        None)
                  else (extracted, None)
                else if negb allowDuplicatedCategory
                then (uniqueDefinedEntries
                        (parseDomainOfCategoryAxis O childDomain extracted childProps),
                      None)
                else (definedEntries extracted, None)
            | TNumber =>
                let errorBarsDomain :=
                  parseErrorBarsOfAxis displayedData
                    (shownItemsOfAxis axisType (Some axisId)
                       (ax_includeHidden childProps) graphicalItems)
                    key axisType (layout props) in
                (default extracted errorBarsDomain, None)
            end in
          (domain, duplicateDomain,
           if needsCategorical
           then Some (getDomainOfDataByKey displayedData dataKey TCategory)
           else categoricalDomain0)
      | None =>
          if isCategorical then (range0 len, None, categoricalDomain0)
          else
            match stackOfAxis stacks (axisKey axisId), type with
            | Some stack, TNumber =>
                (match stackOffset props with
                 | SOExpand => [PNum 0; PNum 1]
                 | _ => getDomainOfStackGroups (stackGroups stack)
                          dataStartIndex dataEndIndex
                 end, None, categoricalDomain0)
            | _, _ =>
                (getDomainOfItemsWithSameAxis displayedData
                   (shownItemsOfAxis axisType (Some axisId)
                      (ax_includeHidden childProps) graphicalItems)
                   type (layout props) true,
                 None, categoricalDomain0)
            end
      end in
    let domain2 :=
      match type with
      | TNumber =>
          let detected :=
            detectReferenceElementsDomain props domain1 (Some axisId) axisType
              (ax_ticks childProps) in
          match childDomain with
          | Some _ => parseSpecifiedDomain childDomain (Some detected) allowDataOverflow
          | None => detected
          end
      | TCategory =>
          match childDomain with
          | Some axisDomain =>
              if forallb (fun entry => (0 <=? indexOf axisDomain entry)%Z) domain1
              then axisDomain else domain1
          | None => domain1
          end
      end in
    (domain2, duplicateDomain, categoricalDomain) in
  let '(domain, duplicateDomain, categoricalDomain) :=
    match domain0 with
    | Some d => if nonempty d then (d, None, categoricalDomain0) else computed
    | None => computed
    end in
  {| ar_props := childProps;
     ar_axisType := axisType;
     ar_domain := domain;
     ar_categoricalDomain := categoricalDomain;
     ar_duplicateDomain := duplicateDomain;
     ar_originalDomain := coalesce (ax_domain childProps) defaultDomain;
     ar_isCategorical := isCategorical;
     ar_layout := layout props |}.

(** The first axis element of each id wins. *)
Definition getAxisMapByAxes {O} (props : CategoricalChartProps)
    (axes : list (AxisProps O)) (graphicalItems : list GraphicalItem)
    (axisType : AxisType) (stacks : option (gmap string AxisStack))
    (dataStartIndex dataEndIndex : option Z) : gmap string (AxisRec O) :=
  fold_left
    (fun (result : gmap string (AxisRec O)) child =>
       match result !! axisKey (ax_id child) with
       | Some _ => result
       | None =>
           <[axisKey (ax_id child) :=
               axisOfElement props axisType stacks dataStartIndex dataEndIndex
                 graphicalItems child]> result
       end)
    axes ∅.

(** The axes implied by the series when no axis element is declared. The
    reducer carries the map and the running [index] of the closure. *)
Definition getAxisMapByItems {O} (props : CategoricalChartProps)
    (graphicalItems : list GraphicalItem) (Axis_defaultProps : AxisProps O)
    (orient : nat -> O) (axisType : AxisType)
    (stacks : option (gmap string AxisStack))
    (dataStartIndex dataEndIndex : option Z) : gmap string (AxisRec O) :=
  let displayedData :=
    getDisplayedData (data props) (Some graphicalItems) dataStartIndex dataEndIndex in
  let len := length displayedData in
  let isCategorical := isCategoricalAxis (layout props) axisType in
  fst (fold_left
    (fun (acc : gmap string (AxisRec O) * nat) child =>
       let '(result, next) := acc in
       let axisId := item_axisId child axisType in
       let originalDomain := getDefaultDomainByAxisType TNumber in
       match result !! axisKeyOpt axisId with
       | Some _ => acc
       | None =>
           let domain :=
             if isCategorical then range0 len
             else
               match stackOfAxis stacks (axisKeyOpt axisId) with
               | Some stack =>
                   detectReferenceElementsDomain props
                     (getDomainOfStackGroups (stackGroups stack)
                        dataStartIndex dataEndIndex)
                     axisId axisType None
               | None =>
                   detectReferenceElementsDomain props
                     (parseSpecifiedDomain originalDomain
                        (Some (getDomainOfItemsWithSameAxis displayedData
                                 (shownItemsOfAxis axisType axisId false graphicalItems)
                                 TNumber (layout props) false))
                        (ax_allowDataOverflow Axis_defaultProps))
                     axisId axisType None
               end in
           let shown :=
             {| ax_id := ax_id Axis_defaultProps;
                ax_type := ax_type Axis_defaultProps;
                ax_dataKey := ax_dataKey Axis_defaultProps;
                ax_allowDataOverflow := ax_allowDataOverflow Axis_defaultProps;
                ax_allowDuplicatedCategory :=
                  ax_allowDuplicatedCategory Axis_defaultProps;
                ax_scale := ax_scale Axis_defaultProps;
                ax_ticks := ax_ticks Axis_defaultProps;
                ax_includeHidden := ax_includeHidden Axis_defaultProps;
                ax_domain := ax_domain Axis_defaultProps;
                ax_orientation := orient (next mod 2)%nat;
                ax_mirror := ax_mirror Axis_defaultProps;
                ax_hide := true;
                ax_width := ax_width Axis_defaultProps;
                ax_height := ax_height Axis_defaultProps |} in
           (<[axisKeyOpt axisId :=
                {| ar_props := shown;
                   ar_axisType := axisType;
                   ar_domain := domain;
                   ar_categoricalDomain := None;
                   ar_duplicateDomain := None;
                   ar_originalDomain := originalDomain;
                   ar_isCategorical := isCategorical;
                   ar_layout := layout props |}]> result,
            S next)
       end)
    graphicalItems (∅, 0%nat)).

Definition getAxisMap {O} (props : CategoricalChartProps) (axisType : AxisType)
    (axes : list (AxisProps O)) (Axis_defaultProps : AxisProps O) (orient : nat -> O)
    (graphicalItems : list GraphicalItem) (stacks : option (gmap string AxisStack))
    (dataStartIndex dataEndIndex : option Z) : gmap string (AxisRec O) :=
  if nonempty axes then
    getAxisMapByAxes props axes graphicalItems axisType stacks dataStartIndex dataEndIndex
  else if nonempty graphicalItems then
    getAxisMapByItems props graphicalItems Axis_defaultProps orient axisType stacks
      dataStartIndex dataEndIndex
  else ∅.

(** [ORIENT_MAP]. *)
Definition orient_x (i : nat) : XOrientation :=
  match i with O => OBottom | _ => OTop end.
Definition orient_y (i : nat) : YOrientation :=
  match i with O => OLeft | _ => ORight end.

(** [sortBy(ticks, o => o.coordinate)]: a stable sort. *)
Fixpoint insertTick (t : TickItem) (l : list TickItem) : list TickItem :=
  match l with
  | [] => [t]
  | u :: r =>
      if Qle_bool (tick_coordinate u) (tick_coordinate t)
      then u :: insertTick t r else t :: l
  end.

Definition sortByCoordinate (l : list TickItem) : list TickItem :=
  fold_left (fun acc t => insertTick t acc) l [].

(** [createDefaultState]. *)
Definition createDefaultState (props : CategoricalChartProps) : Patch :=
  let endIndex0 :=
    match data props with
    | Some d => if nonempty d then (Z.of_nat (length d) - 1)%Z else 0%Z
    | None => 0%Z
    end in
  let startIndex :=
    match brush props ≫= br_startIndex with
    | Some s => if (0 <=? s)%Z then s else 0%Z
    | None => 0%Z
    end in
  let endIndex :=
    match brush props ≫= br_endIndex with
    | Some e => if (0 <=? e)%Z then e else endIndex0
    | None => endIndex0
    end in
  {| p_chartX := Some 0;
     p_chartY := Some 0;
     p_dataStartIndex := Some startIndex;
     p_dataEndIndex := Some endIndex;
     p_activeTooltipIndex := Some (IInt (-1));
     p_isTooltipActive := Some (defaultShowTooltip props);
     p_activeLabel := None;
     p_activePayload := None;
     p_activeCoordinate := None |}.

Definition numericAxisName (layout : LayoutType) : AxisType :=
  match layout with
  | Horizontal => YAxis
  | Vertical => XAxis
  | Centric => RadiusAxis
  | Radial => AngleAxis
  end.

Definition cateAxisName (layout : LayoutType) : AxisType :=
  match layout with
  | Horizontal => XAxis
  | Vertical => YAxis
  | Centric => AngleAxis
  | Radial => RadiusAxis
  end.

(** [validateWidthHeight el] for an element that has props. The comparison
    [width <= 0] is evaluated after [isNumber width] only. *)
Definition validateWidthHeight (props : CategoricalChartProps) : bool :=
  let le0 p := match p with PNum q => Qle_bool q 0 | _ => false end in
  if negb (isNumber (p_width props)) || le0 (p_width props)
     || negb (isNumber (p_height props)) || le0 (p_height props)
  then false
  else true.

(** The number held by a prop that passed [validateWidthHeight]. *)
Definition numberOf (p : prim) : Q :=
  match p with PNum q => q | _ => 0 end.

(** [x || fallback] on an optional number. *)
Definition orElse (o : option Q) (fallback : Q) : Q :=
  match o with
  | Some q => if Qeq_bool q 0 then fallback else q
  | None => fallback
  end.

Definition calculateOffset (props : CategoricalChartProps)
    (graphicalItems : list GraphicalItem)
    (xAxisMap : gmap string (AxisRec XOrientation))
    (yAxisMap : gmap string (AxisRec YOrientation))
    (prevLegendBBox : option DOMRect) : ChartOffset :=
  let chartWidth := numberOf (p_width props) in
  let chartHeight := numberOf (p_height props) in
  let side (f : Margin -> option Q) := or0 (margin props ≫= f) in
  let offsetH :=
    fold_left
      (fun (result : Q * Q) (kv : string * AxisRec YOrientation) =>
         let entry := ar_props kv.2 in
         if negb (ax_mirror entry) && negb (ax_hide entry) then
           match ax_orientation entry with
           | OLeft => (result.1 + ax_width entry, result.2)
           | ORight => (result.1, result.2 + ax_width entry)
           end
         else result)
      (map_to_list yAxisMap) (side margin_left, side margin_right) in
  let offsetV :=
    fold_left
      (fun (result : Q * Q) (kv : string * AxisRec XOrientation) =>
         let entry := ar_props kv.2 in
         if negb (ax_mirror entry) && negb (ax_hide entry) then
           match ax_orientation entry with
           | OTop => (result.1 + ax_height entry, result.2)
           | OBottom => (result.1, result.2 + ax_height entry)
           end
         else result)
      (map_to_list xAxisMap) (side margin_top, side margin_bottom) in
  let offset0 :=
    {| e_top := offsetV.1; e_bottom := offsetV.2;
       e_left := offsetH.1; e_right := offsetH.2 |} in
  let brushBottom := e_bottom offset0 in
  let offset1 :=
    match brush props with
    | Some brushItem =>
        {| e_top := e_top offset0;
           e_right := e_right offset0;
           e_bottom := e_bottom offset0 + orElse (br_height brushItem) Brush_defaultProps_height;
           e_left := e_left offset0 |}
    | None => offset0
    end in
  let offset2 :=
    match legend props, prevLegendBBox with
    | true, Some box => appendOffsetOfLegend offset1 graphicalItems props box
    | _, _ => offset1
    end in
  let offsetWidth := chartWidth - e_left offset2 - e_right offset2 in
  let offsetHeight := chartHeight - e_top offset2 - e_bottom offset2 in
  {| o_brushBottom := brushBottom;
     o_top := e_top offset2;
     o_right := e_right offset2;
     o_bottom := e_bottom offset2;
     o_left := e_left offset2;
     o_width := Qmax offsetWidth 0;
     o_height := Qmax offsetHeight 0 |}.

Definition tooltipTicksGenerator {O} (axisMap : option (gmap string (AxisRec O)))
  : option (list TickItem) * list TickItem * option TooltipAxis * Q :=
  let axis := getAnyElementOfObject O axisMap in
  let tooltipTicks := getTicksOfAxis O axis in
  (tooltipTicks,
   sortByCoordinate (default [] tooltipTicks),
   tooltipAxisOf <$> axis,
   getBandSizeOfAxis O axis tooltipTicks).

(** One axis map of the pass: present when its axis type is one of the
    [axisComponents]; only the numeric axis of the layout sees the stacks. *)
Definition axisMapOf {O} (opts : CategoricalChartOptions)
    (props : CategoricalChartProps) (axisType : AxisType)
    (axes : list (AxisProps O)) (Axis_defaultProps : AxisProps O) (orient : nat -> O)
    (stacks : gmap string AxisStack) (dataStartIndex dataEndIndex : option Z)
  : option (gmap string (AxisRec O)) :=
  if bool_decide (axisType ∈ axisComponents opts) then
    Some (getAxisMap props axisType axes Axis_defaultProps orient (items props)
            (if bool_decide (axisType = numericAxisName (layout props))
             then Some stacks else None)
            dataStartIndex dataEndIndex)
  else None.

(** [axisMap && axisMap[id]]. *)
Definition declared {O} (axisMap : option (gmap string (AxisRec O)))
    (id : option AxisId) : bool :=
  match axisMap ≫= (fun m => m !! axisKeyOpt id) with
  | Some _ => true
  | None => false
  end.

(** [item.key || `item-${index}`]. *)
Definition formattedKey (item : GraphicalItem) (index : nat) : string :=
  match item_key item with
  | Some k => if bool_decide (k = "") then "item-" +:+ NilZero.string_of_uint (Nat.to_uint index) else k
  | None => "item-" +:+ NilZero.string_of_uint (Nat.to_uint index)
  end.

(** [getFormatItems]: the configuration check that every axis id of an item
    names a declared axis ([invariant]), and which items are formatted. The
    composed geometry of an item is left out. *)
Fixpoint getFormatItems (opts : CategoricalChartOptions)
    (xAxisMap : option (gmap string (AxisRec XOrientation)))
    (yAxisMap : option (gmap string (AxisRec YOrientation)))
    (zAxisMap angleAxisMap radiusAxisMap : option (gmap string (AxisRec unit)))
    (index : nat) (graphicalItems : list GraphicalItem)
  : outcome (list (GraphicalItem * string)) :=
  match graphicalItems with
  | [] => Returned []
  | item :: rest =>
      let found (axisType : AxisType) : bool :=
        match axisType with
        | XAxis => declared xAxisMap (item_axisId item XAxis)
        | YAxis => declared yAxisMap (item_axisId item YAxis)
        | ZAxis => declared zAxisMap (item_axisId item ZAxis)
        | AngleAxis => declared angleAxisMap (item_axisId item AngleAxis)
        | RadiusAxis => declared radiusAxisMap (item_axisId item RadiusAxis)
        end in
      if forallb (fun axisType => found axisType || bool_decide (axisType = ZAxis))
           (axisComponents opts)
      then
        formatted ← getFormatItems opts xAxisMap yAxisMap zAxisMap angleAxisMap
                      radiusAxisMap (S index) rest;
        Returned (if item_getComposedData item
                  then (item, formattedKey item index) :: formatted
                  else formatted)
      else Thrown "Invariant failed"
  end.

Definition updateStateOfAxisMapsOffsetAndStackGroups (opts : CategoricalChartOptions)
    (props : CategoricalChartProps) (dataStartIndex dataEndIndex : option Z)
    (prevState : option CategoricalChartState) : outcome (option Derived) :=
  if negb (validateWidthHeight props) then Returned None
  else
    let graphicalItems := items props in
    let stacks :=
      getStackGroupsByAxisId (data props) graphicalItems
        (numericAxisName (layout props)) (cateAxisName (layout props))
        (stackOffset props) (reverseStackOrder props) in
    let xAxisMap0 :=
      axisMapOf opts props XAxis (xAxes props) (XAxis_defaultProps opts) orient_x
        stacks dataStartIndex dataEndIndex in
    let yAxisMap0 :=
      axisMapOf opts props YAxis (yAxes props) (YAxis_defaultProps opts) orient_y
        stacks dataStartIndex dataEndIndex in
    let zAxisMap0 :=
      axisMapOf opts props ZAxis (zAxes props) (ZAxis_defaultProps opts) (fun _ => tt)
        stacks dataStartIndex dataEndIndex in
    let angleAxisMap0 :=
      axisMapOf opts props AngleAxis (angleAxes props) (AngleAxis_defaultProps opts)
        (fun _ => tt) stacks dataStartIndex dataEndIndex in
    let radiusAxisMap0 :=
      axisMapOf opts props RadiusAxis (radiusAxes props) (RadiusAxis_defaultProps opts)
        (fun _ => tt) stacks dataStartIndex dataEndIndex in
    let offset :=
      calculateOffset props graphicalItems (default ∅ xAxisMap0) (default ∅ yAxisMap0)
        (prevState ≫= legendBBox) in
    let xAxisMap := (fun m => formatAxisMap opts _ props m offset XAxis) <$> xAxisMap0 in
    let yAxisMap := (fun m => formatAxisMap opts _ props m offset YAxis) <$> yAxisMap0 in
    let zAxisMap := (fun m => formatAxisMap opts _ props m offset ZAxis) <$> zAxisMap0 in
    let angleAxisMap :=
      (fun m => formatAxisMap opts _ props m offset AngleAxis) <$> angleAxisMap0 in
    let radiusAxisMap :=
      (fun m => formatAxisMap opts _ props m offset RadiusAxis) <$> radiusAxisMap0 in
    let ticksObj :=
      match layout props with
      | Horizontal => tooltipTicksGenerator xAxisMap
      | Vertical => tooltipTicksGenerator yAxisMap
      | Centric => tooltipTicksGenerator angleAxisMap
      | Radial => tooltipTicksGenerator radiusAxisMap
      end in
    formattedGraphicalItems ←
      getFormatItems opts xAxisMap yAxisMap zAxisMap angleAxisMap radiusAxisMap
        0%nat graphicalItems;
    Returned (Some
      {| d_graphicalItems := graphicalItems;
         d_formattedGraphicalItems := formattedGraphicalItems;
         d_offset := offset;
         d_stackGroups := stacks;
         d_tooltipTicks := ticksObj.1.1.1;
         d_orderedTooltipTicks := ticksObj.1.1.2;
         d_tooltipAxis := ticksObj.1.2;
         d_tooltipAxisBandSize := ticksObj.2;
         d_xAxisMap := xAxisMap;
         d_yAxisMap := yAxisMap;
         d_zAxisMap := zAxisMap;
         d_angleAxisMap := angleAxisMap;
         d_radiusAxisMap := radiusAxisMap |}).

(** *** The chart instance *)

(** The mounted container: its page offset ([getOffset] of its bounding
    rectangle), the width of that rectangle and its layout width. *)
Record Container := {
  ct_left : Q;
  ct_top : Q;
  ct_rectWidth : Q;
  ct_offsetWidth : Q
}.

Record MousePointer := { pageX : Q; pageY : Q }.

Record Chart := {
  chart_props : CategoricalChartProps;
  chart_state : CategoricalChartState;
  eventEmitterSymbol : nat;
  container : option Container
}.

(** A message on the shared sync channel. *)
Record SyncMessage := {
  msg_syncId : prim;
  msg_data : Patch;
  msg_emitter : nat
}.

(** The ratio between rendered and layout pixels; it is never zero. *)
Inductive PointerScale := Finite (s : Q) | Infinite.

(** [boundingRect.width / element.offsetWidth || 1]: a zero or [NaN] ratio
    is replaced by [1], a division of a non-zero width by zero is infinite. *)
Definition pointerScale (c : Container) : PointerScale :=
  if Qeq_bool (ct_offsetWidth c) 0 then
    if Qeq_bool (ct_rectWidth c) 0 then Finite 1 else Infinite
  else
    let s := ct_rectWidth c / ct_offsetWidth c in
    if Qeq_bool s 0 then Finite 1 else Finite s.

(** [x / scale] for a non-zero scale. *)
Definition scaled (x : Q) (scale : PointerScale) : Q :=
  match scale with Finite s => x / s | Infinite => 0 end.

(** [Math.round]. *)
Definition round (x : Q) : Q := inject_Z (Qfloor (x + (1 # 2))).

Definition is_cartesian (l : LayoutType) : bool :=
  match l with Horizontal | Vertical => true | _ => false end.

Definition inRange (c : Chart) (x y : Q) (scale : PointerScale)
  : outcome (option RangeObj) :=
  let scaledX := scaled x scale in
  let scaledY := scaled y scale in
  if is_cartesian (layout (chart_props c)) then
    match offset (chart_state c) with
    | None => Thrown "TypeError: offset is undefined"
    | Some offset =>
        let isInRange :=
          Qle_bool (o_left offset) scaledX
          && Qle_bool scaledX (o_left offset + o_width offset)
          && Qle_bool (o_top offset) scaledY
          && Qle_bool scaledY (o_top offset + o_height offset) in
        Returned
          (if isInRange
           then Some {| r_x := Some scaledX; r_y := Some scaledY; r_angle := None;
                        r_radius := None; r_cx := None; r_cy := None |}
           else None)
    end
  else
    match derived (chart_state c) ≫= d_angleAxisMap,
          derived (chart_state c) ≫= d_radiusAxisMap with
    | Some angleAxisMap, Some _ =>
        let angleAxis := getAnyElementOfObject unit (Some angleAxisMap) in
        Returned (inRangeOfSector scaledX scaledY angleAxis)
    | _, _ => Returned None
    end.

Definition getTooltipEventType (opts : CategoricalChartOptions) (c : Chart)
  : TooltipEventType :=
  match (tooltip (chart_props c) ≫= tt_shared : option bool) with
  | Some shared =>
      let eventType := if shared then EvAxis else EvItem in
      if bool_decide (eventType ∈ validateTooltipEventTypes opts)
      then eventType else defaultTooltipEventType opts
  | None => defaultTooltipEventType opts
  end.

Definition patchOfTooltipData (chartX chartY : Q) (t : option TooltipData) : Patch :=
  {| p_chartX := Some chartX;
     p_chartY := Some chartY;
     p_dataStartIndex := None;
     p_dataEndIndex := None;
     p_activeTooltipIndex := (fun d => IInt (td_activeTooltipIndex d)) <$> t;
     p_isTooltipActive := None;
     p_activeLabel := td_activeLabel <$> t;
     p_activePayload := td_activePayload <$> t;
     p_activeCoordinate := td_activeCoordinate <$> t |}.

(** [getMouseInfo]; the inverted axis values [xValue] and [yValue] of the
    item-triggered tooltip are not part of the patch. *)
Definition getMouseInfo (opts : CategoricalChartOptions) (c : Chart)
    (event : MousePointer) : outcome (option Patch) :=
  match container c with
  | None => Returned None
  | Some element =>
      let chartX := round (pageX event - ct_left element) in
      let chartY := round (pageY event - ct_top element) in
      let scale := pointerScale element in
      rangeObj ← inRange c chartX chartY scale;
      match rangeObj with
      | None => Returned None
      | Some r =>
          let st := chart_state c in
          let tooltipEventType := getTooltipEventType opts c in
          toolTipData ←
            getTooltipData st (data (chart_props c)) (layout (chart_props c)) (Some r);
          match tooltipEventType, derived st ≫= d_xAxisMap, derived st ≫= d_yAxisMap with
          | EvItem, Some xAxisMap, Some yAxisMap =>
              match getAnyElementOfObject _ (Some xAxisMap),
                    getAnyElementOfObject _ (Some yAxisMap) with
              | Some _, Some _ => Returned (Some (patchOfTooltipData chartX chartY toolTipData))
              | _, _ => Thrown "TypeError: axis is null"
              end
          | _, _, _ =>
              match toolTipData with
              | Some t => Returned (Some (patchOfTooltipData chartX chartY (Some t)))
              | None => Returned None
              end
          end
      end
  end.

(** [triggerSyncEvent]: the messages put on the channel. *)
Definition triggerSyncEvent (c : Chart) (data : Patch) : list SyncMessage :=
  match syncId (chart_props c) with
  | PUndefined => []
  | id => [{| msg_syncId := id; msg_data := data; msg_emitter := eventEmitterSymbol c |}]
  end.

Definition withActive (p : Patch) (active : bool) : Patch :=
  {| p_chartX := p_chartX p;
     p_chartY := p_chartY p;
     p_dataStartIndex := p_dataStartIndex p;
     p_dataEndIndex := p_dataEndIndex p;
     p_activeTooltipIndex := p_activeTooltipIndex p;
     p_isTooltipActive := Some active;
     p_activeLabel := p_activeLabel p;
     p_activePayload := p_activePayload p;
     p_activeCoordinate := p_activeCoordinate p |}.

(** [triggeredAfterMouseMove]: the next state of the chart and what it
    broadcasts. *)
Definition triggeredAfterMouseMove (opts : CategoricalChartOptions) (c : Chart)
    (e : MousePointer) : outcome (CategoricalChartState * list SyncMessage) :=
  mouse ← getMouseInfo opts c e;
  let nextState :=
    match mouse with
    | Some m => withActive m true
    | None => withActive emptyPatch false
    end in
  Returned (setState (chart_state c) nextState, triggerSyncEvent c nextState).

(** The loop of the ['value'] policy: the first tick whose value is the
    label, or [-1]. *)
Fixpoint findTickByValue (ticks : list TickItem) (label : prim) (i : Z) : Z :=
  match ticks with
  | [] => (-1)%Z
  | t :: rest =>
      if strict_eq (tick_value t) label then i else findTickByValue rest label (i + 1)%Z
  end.

Definition applySyncEvent (opts : CategoricalChartOptions) (c : Chart) (syncData : Patch)
  : outcome CategoricalChartState :=
  let props := chart_props c in
  let st := chart_state c in
  match p_dataStartIndex syncData, p_dataEndIndex syncData, p_activeTooltipIndex syncData with
  | None, None, Some index0 =>
      match offset st with
      | None => Returned st
      | Some offset =>
          match tooltipTicks st with
          | None => Thrown "TypeError: tooltipTicks is undefined"
          | Some ticks =>
              let activeTooltipIndex :=
                match syncMethod props with
                | SyncFn f => f (Some ticks) syncData
                | SyncValue =>
                    Some (IInt (findTickByValue ticks
                                  (default PUndefined (p_activeLabel syncData)) 0))
                | SyncIndex => Some index0
                end in
              let validateChartX :=
                (fun x => Qmin x (o_left offset + o_width offset)) <$> p_chartX syncData in
              let validateChartY :=
                (fun y => Qmin y (o_top offset + o_height offset)) <$> p_chartY syncData in
              let tick := js_at ticks (toIndex activeTooltipIndex) in
              let activeLabel := default PUndefined (tick_value <$> tick) in
              activePayload ←
                getTooltipContent st (data props) (toIndex activeTooltipIndex) PUndefined;
              let activeCoordinate :=
                match tick with
                | Some t =>
                    match layout props with
                    | Horizontal =>
                        {| cc_x := Some (tick_coordinate t); cc_y := validateChartY;
                           cc_angle := None; cc_radius := None |}
                    | _ =>
                        {| cc_x := validateChartX; cc_y := Some (tick_coordinate t);
                           cc_angle := None; cc_radius := None |}
                    end
                | None => originCoordinate
                end in
              let merged := setState st syncData in
              Returned
                {| chartX := chartX merged;
                   chartY := chartY merged;
                   dataStartIndex := dataStartIndex merged;
                   dataEndIndex := dataEndIndex merged;
                   activeTooltipIndex := activeTooltipIndex;
                   isTooltipActive := isTooltipActive merged;
                   activeLabel := activeLabel;
                   activePayload := activePayload;
                   activeCoordinate := Some activeCoordinate;
                   updateId := updateId merged;
                   legendBBox := legendBBox merged;
                   derived := derived merged |}
          end
      end
  | None, None, None => Returned (setState st syncData)
  | dataStartIndex, dataEndIndex, _ =>
      update ←
        updateStateOfAxisMapsOffsetAndStackGroups opts props dataStartIndex dataEndIndex
          (Some st);
      Returned
        {| chartX := chartX st;
           chartY := chartY st;
           dataStartIndex := dataStartIndex;
           dataEndIndex := dataEndIndex;
           activeTooltipIndex := activeTooltipIndex st;
           isTooltipActive := isTooltipActive st;
           activeLabel := activeLabel st;
           activePayload := activePayload st;
           activeCoordinate := activeCoordinate st;
           updateId := updateId st;
           legendBBox := legendBBox st;
           derived := coalesce update (derived st) |}
  end.

Definition isFunction (m : SyncMethod) : bool :=
  match m with SyncFn _ => true | _ => false end.

Definition handleReceiveSyncEvent (opts : CategoricalChartOptions) (c : Chart)
    (cId : prim) (syncData : Patch) (emitter : nat) : outcome CategoricalChartState :=
  if strict_eq (syncId (chart_props c)) cId then
    if (emitter =? eventEmitterSymbol c)%nat && negb (isFunction (syncMethod (chart_props c)))
    then Returned (chart_state c)
    else applySyncEvent opts c syncData
  else Returned (chart_state c).

End Engine.

(** ** A reference instance of the helpers

    The theorems below hold for every instance of [ChartUtils]. The
    instance [modelUtils] lets the engine run on concrete charts. *)

Module Model.

(** Modelled from the spec: the value of a record under a data-key accessor
    ([getValueByDataKey] of [util/ChartUtils]), a literal field or a derived
    key. *)
Definition valueByKey (key : option DataKey) (e : entry) : prim :=
  match key, e with
  | Some (KeyName s), Row fields =>
      default PUndefined (snd <$> find (fun kv => bool_decide (kv.1 = s)) fields)
  | Some (KeyFn f), _ => f e
  | _, _ => PUndefined
  end.

Definition numbersOf (l : list prim) : list Q :=
  omap (fun p => match p with PNum q => Some q | _ => None end) l.

(** The pair [min, max] of a list of numbers, empty when there is none. *)
Definition extent (l : list Q) : list prim :=
  match l with
  | [] => []
  | q :: r => [PNum (fold_left Qmin r q); PNum (fold_left Qmax r q)]
  end.

(** Modelled from the spec: [isCategoricalAxis] of [util/ChartUtils]; the
    categorical axis of a layout is x for horizontal, y for vertical, angle
    for centric and radius for radial. *)
Definition isCategoricalAxis (layout : LayoutType) (axisType : AxisType) : bool :=
  bool_decide (axisType = cateAxisName layout).

(** Modelled from the spec: [getDomainOfDataByKey] of [util/ChartUtils]; the
    data-key extraction over the displayed data, reduced to its numeric
    minimum and maximum for a continuous axis and kept literally for a
    category axis. *)
Definition getDomainOfDataByKey (displayed : list entry) (key : option DataKey)
    (type : AxisDataType) : list prim :=
  let values := map (valueByKey key) displayed in
  match type with
  | TNumber => extent (numbersOf values)
  | TCategory => values
  end.

(** Modelled from the spec: [hasDuplicate] of [util/DataUtils]; duplicates
    are actually present when two entries of the list are equal. *)
Fixpoint hasDuplicate (l : list prim) : bool :=
  match l with
  | [] => false
  | x :: t => existsb (strict_eq x) t || hasDuplicate t
  end.

(** Modelled from the spec: [parseDomainOfCategoryAxis] of [util/ChartUtils];
    a category domain given by the user stands for the extracted one. *)
Definition parseDomainOfCategoryAxis (O : Type) (specified : option (list prim))
    (calculated : list prim) (axis : AxisProps O) : list prim :=
  match specified with
  | Some (x :: l) => x :: l
  | _ => calculated
  end.

(** Modelled from the spec: [isDomainSpecifiedByUser]; the user supplied an
    explicit domain and the axis permits overflow, or is not numeric. *)
Definition isDomainSpecifiedByUser (domain : option (list prim))
    (allowDataOverflow : bool) (type : AxisDataType) : bool :=
  match domain with
  | Some _ => allowDataOverflow || negb (is_number type)
  | None => false
  end.

(** One bound of the merge of a user domain with the data domain. *)
Definition mergeBound (pick : Q -> Q -> Q) (allowDataOverflow : bool)
    (specified dataBound : option prim) : prim :=
  match specified, dataBound with
  | Some (PNum s), Some (PNum d) => PNum (if allowDataOverflow then s else pick s d)
  | Some (PNum s), _ => PNum s
  | _, Some d => d
  | _, None => PUndefined
  end.

(** Modelled from the spec: [parseSpecifiedDomain] of [util/ChartUtils]; a
    user domain adopted directly when there is no data domain, and otherwise
    merged bound by bound, a fixed bound widening to the data unless overflow
    is allowed and an automatic bound following the data. *)
Definition parseSpecifiedDomain (specified dataDomain : option (list prim))
    (allowDataOverflow : bool) : list prim :=
  match specified, dataDomain with
  | None, d => default [] d
  | Some s, None => s
  | Some s, Some d =>
      [mergeBound Qmin allowDataOverflow (s !! 0%nat) (d !! 0%nat);
       mergeBound Qmax allowDataOverflow (s !! 1%nat) (d !! 1%nat)]
  end.

(** Modelled from the spec: [parseErrorBarsOfAxis]; the chart model carries
    no error bars, so no extent is contributed. *)
Definition parseErrorBarsOfAxis (displayed : list entry) (its : list GraphicalItem)
    (key : DataKey) (axisType : AxisType) (layout : LayoutType) : option (list prim) :=
  None.

(** Modelled from the spec: [getDomainOfStackGroups]; the union of the
    accumulated [base, top] extents of the stacks. *)
Definition getDomainOfStackGroups (groups : gmap string StackGroup)
    (dataStartIndex dataEndIndex : option Z) : list prim :=
  extent
    (flat_map
       (fun kv => flat_map (fun series => flat_map (fun bt => [bt.1; bt.2]) series)
                    (sg_stackedData kv.2))
       (map_to_list groups)).

(** Modelled from the spec: [getDomainOfItemsWithSameAxis]; the numeric
    minimum and maximum across the data key of the given series. *)
Definition getDomainOfItemsWithSameAxis (displayed : list entry)
    (its : list GraphicalItem) (type : AxisDataType) (layout : LayoutType)
    (filterNil : bool) : list prim :=
  extent
    (flat_map (fun it => numbersOf (map (valueByKey (item_dataKey it)) displayed)) its).

(** Modelled from the spec: [getStackGroupsByAxisId]; the series of the
    chart model carry no stack id, so no stack is formed. *)
Definition getStackGroupsByAxisId (chartData : option (list entry))
    (its : list GraphicalItem) (numericAxis cateAxis : AxisType)
    (offsetType : StackOffsetType) (reverseStackOrder : bool) : gmap string AxisStack :=
  ∅.

(** Modelled from the spec: the label of a tick; an axis with a
    duplicate-domain has a sequential domain, and its ticks are labelled by
    the original value that the duplicate-domain holds at the domain
    value. *)
Definition tickLabel (duplicateDomain : option (list prim)) (v : prim) : prim :=
  match duplicateDomain with
  | Some original =>
      match v with
      | PNum q => default PUndefined (js_at original (INumber q))
      | _ => PUndefined
      end
  | None => v
  end.

(** Modelled from the spec: [getTicksOfAxis] of [util/ChartUtils]; one tick
    per value of the domain, in its order, with the label above; the ticks
    of a categorical axis that keeps a categorical snapshot of its data are
    the values of the snapshot.  The formatter of the example charts assigns
    an axis no pixel range, and the ticks are one unit of coordinate apart
    from 0. *)
Definition getTicksOfAxis (O : Type) (axis : option (AxisRec O)) : option (list TickItem) :=
  (fun a =>
     let place (label : prim -> prim) :=
       imap (fun i v => {| tick_value := label v;
                           tick_coordinate := inject_Z (Z.of_nat i);
                           tick_index := Z.of_nat i |}) in
     match ar_isCategorical a, ar_categoricalDomain a with
     | true, Some snapshot => place (fun v => v) snapshot
     | _, _ => place (tickLabel (ar_duplicateDomain a)) (ar_domain a)
     end) <$> axis.

(** Modelled from the spec: [getBandSizeOfAxis]; one unit per category. *)
Definition getBandSizeOfAxis (O : Type) (axis : option (AxisRec O))
    (ticks : option (list TickItem)) : Q := 1.

(** The tick nearest to a position, the earlier one on a tie. *)
Definition nearer (pos : Q) (best t : TickItem) : TickItem :=
  if Qle_bool (Qabs (tick_coordinate best - pos)) (Qabs (tick_coordinate t - pos))
  then best else t.

(** Modelled from the spec: [calculateActiveTickIndex]; the index of the
    nearest tick of the ordered tick set, [-1] when there is none. *)
Definition calculateActiveTickIndex (pos : option Q) (ticks unsorted : option (list TickItem))
    (axis : option TooltipAxis) : Z :=
  match pos, ticks with
  | Some p, Some (t :: rest) => tick_index (fold_left (nearer p) rest t)
  | _, _ => (-1)%Z
  end.

(** Modelled from the spec: [getTooltipItem]; the line [{series, value,
    payload}] of a series for a datum. *)
Definition getTooltipItem (child : GraphicalItem) (payload : entry) : TooltipItem :=
  {| ti_series := child;
     ti_value := valueByKey (item_dataKey child) payload;
     ti_payload := payload |}.

(** Modelled from the spec: [appendOffsetOfLegend]; the measured box of the
    legend extends the margin below the plot. *)
Definition appendOffsetOfLegend (offset : Edges) (its : list GraphicalItem)
    (props : CategoricalChartProps) (box : DOMRect) : Edges :=
  {| e_top := e_top offset;
     e_right := e_right offset;
     e_bottom := e_bottom offset + box_height box;
     e_left := e_left offset |}.

(** Modelled from the spec: [getAnyElementOfObject] of [util/DataUtils]; an
    element of the map, if it has one. *)
Definition getAnyElementOfObject (O : Type) (m : option (gmap string (AxisRec O)))
  : option (AxisRec O) :=
  m ≫= (fun m => snd <$> head (map_to_list m)).

(** Modelled from the spec: [findEntryInArray] of [util/DataUtils]; the
    first record whose key value is exactly the wanted one. *)
Definition findEntryInArray (entries : list entry) (key : DataKey) (wanted : prim)
  : option entry :=
  find (fun e => entry_truthy e && strict_eq (valueByKey (Some key) e) wanted) entries.

(** Modelled from the spec: [detectReferenceElementsDomain]; the chart model
    carries no reference annotation, so the domain is not extended. *)
Definition detectReferenceElementsDomain (props : CategoricalChartProps)
    (domain : list prim) (axisId : option AxisId) (axisType : AxisType)
    (ticks : option (list prim)) : list prim :=
  domain.

(** Modelled from the spec: [inRangeOfSector] of [util/PolarUtils]; the
    chart model has no polar geometry and places every point outside. *)
Definition inRangeOfSector (x y : Q) (angleAxis : option (AxisRec unit)) : option RangeObj :=
  None.

(** Modelled from the spec: [polarToCartesian] of [util/PolarUtils], without
    trigonometry: the centre of the sector. *)
Definition polarToCartesian (pcx pcy radius angle : option Q) : option Q * option Q :=
  (pcx, pcy).

Definition modelUtils : ChartUtils :=
  Build_ChartUtils
    isCategoricalAxis getDomainOfDataByKey parseDomainOfCategoryAxis
    parseSpecifiedDomain parseErrorBarsOfAxis getDomainOfStackGroups
    getDomainOfItemsWithSameAxis getStackGroupsByAxisId getTicksOfAxis
    getBandSizeOfAxis calculateActiveTickIndex getTooltipItem appendOffsetOfLegend
    getAnyElementOfObject hasDuplicate findEntryInArray isDomainSpecifiedByUser
    detectReferenceElementsDomain inRangeOfSector polarToCartesian 40.

(** The same helpers with the short-circuit kept to numeric axes that allow
    overflow, the reading of the comment above its call in
    [getAxisMapByAxes]. *)
Definition strictUtils : ChartUtils :=
  Build_ChartUtils
    isCategoricalAxis getDomainOfDataByKey parseDomainOfCategoryAxis
    parseSpecifiedDomain parseErrorBarsOfAxis getDomainOfStackGroups
    getDomainOfItemsWithSameAxis getStackGroupsByAxisId getTicksOfAxis
    getBandSizeOfAxis calculateActiveTickIndex getTooltipItem appendOffsetOfLegend
    getAnyElementOfObject hasDuplicate findEntryInArray
    (fun domain allowDataOverflow type =>
       isDomainSpecifiedByUser domain allowDataOverflow type
       && allowDataOverflow && is_number type)
    detectReferenceElementsDomain inRangeOfSector polarToCartesian 40.

End Model.

(** ** Notions used by the statements *)

(** A size that is not a number, or is a number not above zero. *)
Definition degenerate (p : prim) : Prop :=
  match p with PNum q => q <= 0 | _ => True end.

(** A point of the plot rectangle. *)
Definition insidePlot (o : ChartOffset) (x y : Q) : Prop :=
  o_left o <= x /\ x <= o_left o + o_width o /\
  o_top o <= y /\ y <= o_top o + o_height o.

(** Where a pointer event falls, in the pixels of the chart. *)
Definition pointerPosition (ct : Container) (e : MousePointer) : Q * Q :=
  (scaled (round (pageX e - ct_left ct)) (pointerScale ct),
   scaled (round (pageY e - ct_top ct)) (pointerScale ct)).

(** No two entries of the list are strictly equal. *)
Definition distinctEntries (l : list prim) : Prop :=
  forall (i j : nat) x y,
    (i < j)%nat -> l !! i = Some x -> l !! j = Some y -> strict_eq x y = false.

(** The first-occurrence-ordered unique values of a list: an entry stays
    when no earlier entry of the list equals it. *)
Fixpoint keepFirst (earlier l : list prim) : list prim :=
  match l with
  | [] => []
  | x :: t =>
      (if existsb (fun y => strict_eq y x) earlier then [] else [x])
        ++ keepFirst (earlier ++ [x]) t
  end.

Definition firstOccurrences (l : list prim) : list prim := keepFirst [] l.

(** The index a receiver stores for a peer tooltip event. *)
Definition syncedIndex (method : SyncMethod) (ticks : list TickItem) (syncData : Patch)
    (broadcast : TooltipIndex) : option TooltipIndex :=
  match method with
  | SyncFn f => f (Some ticks) syncData
  | SyncValue =>
      Some (IInt (findTickByValue ticks (default PUndefined (p_activeLabel syncData)) 0))
  | SyncIndex => Some broadcast
  end.

(** The coordinate a receiver stores for a peer tooltip event. *)
Definition syncedCoordinate (l : LayoutType) (o : ChartOffset) (ticks : list TickItem)
    (syncData : Patch) (index : TooltipIndex) : ChartCoordinate :=
  match js_at ticks index with
  | Some t =>
      match l with
      | Horizontal =>
          {| cc_x := Some (tick_coordinate t);
             cc_y := (fun y => Qmin y (o_top o + o_height o)) <$> p_chartY syncData;
             cc_angle := None; cc_radius := None |}
      | _ =>
          {| cc_x := (fun x => Qmin x (o_left o + o_width o)) <$> p_chartX syncData;
             cc_y := Some (tick_coordinate t);
             cc_angle := None; cc_radius := None |}
      end
  | None => originCoordinate
  end.

Section Readings.

Context {U : ChartUtils}.

(** The data of a series seen by the tooltip: its own data or else the data
    of the chart, cut to the window when the active index falls in it. *)
Definition seriesData (st : CategoricalChartState) (chartData : option (list entry))
    (activeIndex : Z) (child : GraphicalItem) : option (list entry) :=
  match coalesce (item_data child) chartData, dataStartIndex st, dataEndIndex st with
  | Some d, Some s, Some e =>
      if bool_decide ((s + e)%Z <> 0%Z /\ (activeIndex <= e - s)%Z)
      then Some (js_slice d s (e + 1)%Z) else Some d
  | d, _, _ => d
  end.

(** Exact category-key lookup of the active label. *)
Definition keyedDatum (displayedData : list entry) (data : option (list entry))
    (key : DataKey) (activeLabel : prim) : option entry :=
  findEntryInArray (default displayedData data) key activeLabel.

(** Positional indexing at the active index: in the data of the series, or
    else in the displayed data. *)
Definition positionalDatum (displayedData : list entry) (data : option (list entry))
    (activeIndex : Z) : option entry :=
  match data ≫= (fun d => js_get d activeIndex) with
  | Some e => if entry_truthy e then Some e else js_get displayedData activeIndex
  | None => js_get displayedData activeIndex
  end.

(** The datum of a series, if it has a usable one. *)
Definition datumOfSeries (st : CategoricalChartState) (axis : TooltipAxis)
    (chartData : option (list entry)) (displayedData : list entry)
    (activeIndex : Z) (activeLabel : prim) (child : GraphicalItem) : option entry :=
  let data := seriesData st chartData activeIndex child in
  let found :=
    match key_truthy (ta_dataKey axis) with
    | Some key =>
        if ta_allowDuplicatedCategory axis
        then positionalDatum displayedData data activeIndex
        else keyedDatum displayedData data key activeLabel
    | None => positionalDatum displayedData data activeIndex
    end in
  match found with
  | Some e => if entry_truthy e then Some e else None
  | None => None
  end.

(** The payload: one line for each series that has a datum, in the order of
    the series. *)
Definition payloadOfSeries (st : CategoricalChartState) (axis : TooltipAxis)
    (chartData : option (list entry)) (displayedData : list entry)
    (activeIndex : Z) (activeLabel : prim) (gis : list GraphicalItem)
  : list TooltipItem :=
  omap
    (fun child =>
       getTooltipItem child
         <$> datumOfSeries st axis chartData displayedData activeIndex activeLabel child)
    gis.

(** The pointer of an event is outside the plot of a mounted chart: off
    the plot rectangle in a cartesian layout, and in a polar layout off the
    sector of the angle axis (or there is no sector to be in). *)
Definition pointerOutside (c : Chart) (ct : Container) (e : MousePointer) : Prop :=
  let p := pointerPosition ct e in
  if is_cartesian (layout (chart_props c)) then
    exists o, offset (chart_state c) = Some o /\ ~ insidePlot o p.1 p.2
  else
    match derived (chart_state c) ≫= d_angleAxisMap,
          derived (chart_state c) ≫= d_radiusAxisMap with
    | Some angleAxisMap, Some _ =>
        inRangeOfSector p.1 p.2 (getAnyElementOfObject unit (Some angleAxisMap)) = None
    | _, _ => True
    end.

End Readings.

(** ** Example charts *)

Module Examples.

Definition axis {O} (o : O) (t : AxisDataType) (key : option DataKey)
    (domain : option (list prim)) (duplicates : bool) : AxisProps O :=
  {| ax_id := IdNum 0; ax_type := t; ax_dataKey := key;
     ax_allowDataOverflow := false; ax_allowDuplicatedCategory := duplicates;
     ax_scale := ScaleName "auto"; ax_ticks := None; ax_includeHidden := false;
     ax_domain := domain; ax_orientation := o; ax_mirror := false; ax_hide := false;
     ax_width := 60; ax_height := 30 |}.

Definition options : CategoricalChartOptions :=
  {| axisComponents := [XAxis; YAxis];
     XAxis_defaultProps := axis OBottom TCategory None None true;
     YAxis_defaultProps := axis OLeft TNumber None None true;
     ZAxis_defaultProps := axis tt TNumber None None true;
     AngleAxis_defaultProps := axis tt TCategory None None true;
     RadiusAxis_defaultProps := axis tt TNumber None None true;
     formatAxisMap := fun O _ m _ _ => m;
     defaultTooltipEventType := EvAxis;
     validateTooltipEventTypes := [EvAxis] |}.

Definition row (name : string) (v : Q) : entry :=
  Row [("name", PStr name); ("v", PNum v)].

(** The category values ["a", "b", "a"]. *)
Definition rows : list entry := [row "a" 2; row "b" 3; row "a" 1].

Definition series : GraphicalItem :=
  {| item_name := "Bar"; item_key := None; item_data := None;
     item_dataKey := Some (KeyName "v");
     item_axisId := fun _ => Some (IdNum 0);
     item_hide := false; item_getComposedData := true |}.

Definition chartProps (w h : prim) (method : SyncMethod) (l : LayoutType)
    (xs : list (AxisProps XOrientation)) (ys : list (AxisProps YOrientation))
  : CategoricalChartProps :=
  {| syncId := PStr "linked"; syncMethod := method;
     p_width := w; p_height := h; data := Some rows; layout := l;
     stackOffset := SOExpand;
     margin := Some {| margin_top := Some 5; margin_right := Some 5;
                       margin_bottom := Some 5; margin_left := Some 5 |};
     reverseStackOrder := false; defaultShowTooltip := false;
     xAxes := xs; yAxes := ys; zAxes := []; angleAxes := []; radiusAxes := [];
     items := [series]; brush := None; legend := false; tooltip := None |}.

Definition nameKey : option DataKey := Some (KeyName "name").

(** A 400 by 300 chart with categories along x. *)
Definition horizontalProps (method : SyncMethod) : CategoricalChartProps :=
  chartProps (PNum 400) (PNum 300) method Horizontal
    [axis OBottom TCategory nameKey None true] [axis OLeft TNumber None None true].

(** The same chart with categories along y. *)
Definition verticalProps (method : SyncMethod) : CategoricalChartProps :=
  chartProps (PNum 400) (PNum 300) method Vertical
    [axis OBottom TNumber None None true] [axis OLeft TCategory nameKey None true].

Definition blankState : CategoricalChartState :=
  {| chartX := None; chartY := None; dataStartIndex := None; dataEndIndex := None;
     activeTooltipIndex := None; isTooltipActive := None; activeLabel := PUndefined;
     activePayload := None; activeCoordinate := None; updateId := None;
     legendBBox := None; derived := None |}.

(** The state of a chart after its first pass ([getDerivedStateFromProps]
    on an empty state). *)
Definition mountedState (props : CategoricalChartProps) : CategoricalChartState :=
  let initial := createDefaultState props in
  let st := setState blankState initial in
  {| chartX := chartX st; chartY := chartY st;
     dataStartIndex := dataStartIndex st; dataEndIndex := dataEndIndex st;
     activeTooltipIndex := activeTooltipIndex st;
     isTooltipActive := isTooltipActive st;
     activeLabel := activeLabel st; activePayload := activePayload st;
     activeCoordinate := activeCoordinate st;
     updateId := Some 0%Z; legendBBox := None;
     derived :=
       match updateStateOfAxisMapsOffsetAndStackGroups (U := Model.modelUtils) options
               props (p_dataStartIndex initial) (p_dataEndIndex initial) None with
       | Returned d => d
       | Thrown _ => None
       end |}.

Definition mounted (props : CategoricalChartProps) : Chart :=
  {| chart_props := props;
     chart_state := mountedState props;
     eventEmitterSymbol := 1;
     container := Some {| ct_left := 10; ct_top := 20;
                          ct_rectWidth := 400; ct_offsetWidth := 400 |} |}.

(** Two series that bring their own data, of one and of two records. *)
Definition shortSeries : GraphicalItem :=
  {| item_name := "Line"; item_key := Some "short";
     item_data := Some [row "a" 2];
     item_dataKey := Some (KeyName "v");
     item_axisId := fun _ => Some (IdNum 0);
     item_hide := false; item_getComposedData := true |}.

Definition longSeries : GraphicalItem :=
  {| item_name := "Line"; item_key := Some "long";
     item_data := Some [row "b" 3; row "c" 1];
     item_dataKey := Some (KeyName "v");
     item_axisId := fun _ => Some (IdNum 0);
     item_hide := false; item_getComposedData := true |}.

(** A chart without data of its own that plots them along x. *)
Definition ownDataProps : CategoricalChartProps :=
  {| syncId := PUndefined; syncMethod := SyncIndex;
     p_width := PNum 400; p_height := PNum 300; data := None; layout := Horizontal;
     stackOffset := SONone; margin := None;
     reverseStackOrder := false; defaultShowTooltip := false;
     xAxes := [axis OBottom TCategory nameKey None true];
     yAxes := [axis OLeft TNumber None None true];
     zAxes := []; angleAxes := []; radiusAxes := [];
     items := [shortSeries; longSeries]; brush := None; legend := false;
     tooltip := None |}.

(** A hover broadcast by a peer. *)
Definition hover (index : Z) (x y : Q) : Patch :=
  {| p_chartX := Some x; p_chartY := Some y;
     p_dataStartIndex := None; p_dataEndIndex := None;
     p_activeTooltipIndex := Some (IInt index); p_isTooltipActive := Some true;
     p_activeLabel := Some (PStr "b"); p_activePayload := Some None;
     p_activeCoordinate := None |}.

(** A category axis along x with a domain given by the user. *)
Definition userAxis : AxisProps XOrientation :=
  axis OBottom TCategory nameKey (Some [PNum 0; PNum 1; PNum 2; PNum 3]) true.

(** The stacks of the numeric axis [0]. *)
Definition stackOfSeries : AxisStack :=
  {| hasStack := true;
     stackGroups :=
       {[ "total" := {| sg_items := [series];
                        sg_stackedData := [[(0, 1); (0, 1); (0, 1)]] |} ]} |}.

Definition stacked : option (gmap string AxisStack) :=
  Some {[ "0" := stackOfSeries ]}.

End Examples.

(** * Further code of the same files *)

(** ** More handlers of the chart instance *)

Section Handlers.

Context {U : ChartUtils}.

(** [handleMouseEnter] and [handleClick] share one body: they act on a
    resolved pointer only. The callbacks [onMouseEnter] and [onClick] of the
    props receive the next state and are not part of the result. *)
Definition handleMouseEnter (opts : CategoricalChartOptions) (c : Chart)
    (e : MousePointer) : outcome (CategoricalChartState * list SyncMessage) :=
  mouse ← getMouseInfo opts c e;
  match mouse with
  | Some m =>
      let nextState := withActive m true in
      Returned (setState (chart_state c) nextState, triggerSyncEvent c nextState)
  | None => Returned (chart_state c, [])
  end.

Definition handleClick (opts : CategoricalChartOptions) (c : Chart)
    (e : MousePointer) : outcome (CategoricalChartState * list SyncMessage) :=
  mouse ← getMouseInfo opts c e;
  match mouse with
  | Some m =>
      let nextState := withActive m true in
      Returned (setState (chart_state c) nextState, triggerSyncEvent c nextState)
  | None => Returned (chart_state c, [])
  end.

(** [handleMouseLeave], without the cancellation of the throttled move. *)
Definition handleMouseLeave (c : Chart) : CategoricalChartState * list SyncMessage :=
  let nextState := withActive emptyPatch false in
  (setState (chart_state c) nextState, triggerSyncEvent c nextState).

(** The patch [{dataStartIndex, dataEndIndex}]. *)
Definition windowPatch (startIndex endIndex : Z) : Patch :=
  {| p_chartX := None; p_chartY := None;
     p_dataStartIndex := Some startIndex; p_dataEndIndex := Some endIndex;
     p_activeTooltipIndex := None; p_isTooltipActive := None;
     p_activeLabel := None; p_activePayload := None;
     p_activeCoordinate := None |}.

Definition handleBrushChange (opts : CategoricalChartOptions) (c : Chart)
    (startIndex endIndex : Z) : outcome (CategoricalChartState * list SyncMessage) :=
  let st := chart_state c in
  if negb (bool_decide (Some startIndex = dataStartIndex st))
     || negb (bool_decide (Some endIndex = dataEndIndex st))
  then
    update ←
      updateStateOfAxisMapsOffsetAndStackGroups opts (chart_props c)
        (Some startIndex) (Some endIndex) (Some st);
    Returned
      ({| chartX := chartX st;
          chartY := chartY st;
          dataStartIndex := Some startIndex;
          dataEndIndex := Some endIndex;
          activeTooltipIndex := activeTooltipIndex st;
          isTooltipActive := isTooltipActive st;
          activeLabel := activeLabel st;
          activePayload := activePayload st;
          activeCoordinate := activeCoordinate st;
          updateId := updateId st;
          legendBBox := legendBBox st;
          derived := coalesce update (derived st) |},
       triggerSyncEvent c (windowPatch startIndex endIndex))
  else Returned (st, []).

(** [handleLegendBBoxUpdate]: a measured box re-runs the pipeline with it. *)
Definition handleLegendBBoxUpdate (opts : CategoricalChartOptions) (c : Chart)
    (box : option DOMRect) : outcome CategoricalChartState :=
  let st := chart_state c in
  match box with
  | None => Returned st
  | Some b =>
      let withBox :=
        {| chartX := chartX st; chartY := chartY st;
           dataStartIndex := dataStartIndex st; dataEndIndex := dataEndIndex st;
           activeTooltipIndex := activeTooltipIndex st;
           isTooltipActive := isTooltipActive st;
           activeLabel := activeLabel st; activePayload := activePayload st;
           activeCoordinate := activeCoordinate st;
           updateId := updateId st; legendBBox := Some b; derived := derived st |} in
      update ←
        updateStateOfAxisMapsOffsetAndStackGroups opts (chart_props c)
          (dataStartIndex st) (dataEndIndex st) (Some withBox);
      Returned
        {| chartX := chartX st; chartY := chartY st;
           dataStartIndex := dataStartIndex st; dataEndIndex := dataEndIndex st;
           activeTooltipIndex := activeTooltipIndex st;
           isTooltipActive := isTooltipActive st;
           activeLabel := activeLabel st; activePayload := activePayload st;
           activeCoordinate := activeCoordinate st;
           updateId := updateId st; legendBBox := Some b;
           derived := coalesce update (derived st) |}
  end.

(** One point of a scatter series, as its formatted geometry holds it. *)
Record ScatterPoint := {
  sp_tooltipPosition : Q * Q;
  sp_tooltipPayload : list TooltipItem
}.

(** [displayDefaultTooltip] for an integer [defaultIndex]. The formatted
    items of the state carry no geometry here, so the points of a formatted
    scatter series are given by [pointsOf]. A coordinate computed from a
    height that is no number is [None]. *)
Definition displayDefaultTooltip (pointsOf : GraphicalItem -> list ScatterPoint)
    (c : Chart) : outcome CategoricalChartState :=
  let props := chart_props c in
  let st := chart_state c in
  match tooltip props with
  | None => Returned st
  | Some tooltipElem =>
      match tt_defaultIndex tooltipElem with
      | None => Returned st
      | Some defaultIndex =>
          if (defaultIndex <? 0)%Z then Returned st
          else
            match tooltipTicks st with
            | None => Thrown "TypeError: tooltipTicks is undefined"
            | Some ticks =>
                if (Z.of_nat (length ticks) - 1 <? defaultIndex)%Z then Returned st
                else
                  let activeLabel :=
                    default PUndefined (tick_value <$> js_get ticks defaultIndex) in
                  activePayload0 ←
                    getTooltipContent st (data props) (IInt defaultIndex) activeLabel;
                  match js_get ticks defaultIndex, offset st, derived st with
                  | Some tick, Some o, Some d =>
                      let independentAxisCoord := tick_coordinate tick in
                      let dependentAxisCoord :=
                        match p_height props with
                        | PNum height => Some ((o_top o + height) / 2)
                        | _ => None
                        end in
                      let activeCoordinate0 :=
                        match layout props with
                        | Horizontal => (Some independentAxisCoord, dependentAxisCoord)
                        | _ => (dependentAxisCoord, Some independentAxisCoord)
                        end in
                      let finish (xy : option Q * option Q)
                          (payload : option (list TooltipItem)) :=
                        Returned
                          {| chartX := chartX st; chartY := chartY st;
                             dataStartIndex := dataStartIndex st;
                             dataEndIndex := dataEndIndex st;
                             activeTooltipIndex := Some (IInt defaultIndex);
                             isTooltipActive := Some true;
                             activeLabel := activeLabel;
                             activePayload := payload;
                             activeCoordinate :=
                               Some {| cc_x := xy.1; cc_y := xy.2;
                                       cc_angle := None; cc_radius := None |};
                             updateId := updateId st;
                             legendBBox := legendBBox st;
                             derived := derived st |} in
                      match find (fun f => bool_decide (item_name f.1 = "Scatter"))
                                 (d_formattedGraphicalItems d) with
                      | Some scatterPlotElement =>
                          match js_get (pointsOf scatterPlotElement.1) defaultIndex with
                          | Some point =>
                              finish (Some (sp_tooltipPosition point).1,
                                      Some (sp_tooltipPosition point).2)
                                (Some (sp_tooltipPayload point))
                          | None => Thrown "TypeError: point is undefined"
                          end
                      | None => finish activeCoordinate0 activePayload0
                      end
                  | _, _, _ => Thrown "TypeError: reading an undefined value"
                  end
            end
      end
  end.

End Handlers.

(** ** Children of an element (util/ReactUtils) *)

Module ReactUtils.

(** The type of an element: a host tag, or a component with its optional
    [displayName] and [name]. *)
Inductive ElementType :=
| Host (tag : string)
| Component (displayName name : option string).

(** A child: nothing ([null], [undefined], a boolean), a text, an element,
    a fragment, or a nested array of children. *)
#[warnings="-register-all"]
Inductive Node :=
| NNil
| NText (s : string)
| NElement (type : ElementType) (key : option string)
| NFragment (children : list Node)
| NArray (children : list Node).

(** A string counts when it is not empty. *)
Definition nonEmpty (s : option string) : option string :=
  match s with
  | Some x => if bool_decide (x = "") then None else Some x
  | None => None
  end.

(** [getDisplayName] of a component or of a tag. *)
Definition getDisplayName (t : ElementType) : string :=
  match t with
  | Host tag => tag
  | Component displayName name =>
      default "Component" (coalesce (nonEmpty displayName) (nonEmpty name))
  end.

(** [toArray]: [Children.forEach] walks nested arrays, the function itself
    the children of a fragment; nothing is dropped except nil children. *)
Fixpoint toArray_node (n : Node) : list Node :=
  match n with
  | NNil => []
  | NFragment children => flat_map toArray_node children
  | NArray children => flat_map toArray_node children
  | _ => [n]
  end.

Definition toArray (children : list Node) : list Node :=
  flat_map toArray_node children.

(** [get(child, 'type.displayName') || get(child, 'type.name')]: the name
    as it is, even empty, when there is no display name. *)
Definition childType (n : Node) : option string :=
  match n with
  | NElement (Component displayName name) _ =>
      match nonEmpty displayName with
      | Some d => Some d
      | None => name
      end
  | _ => None
  end.

Definition matchesType (types : list string) (n : Node) : bool :=
  match childType n with
  | Some t => bool_decide (t ∈ types)
  | None => false
  end.

Definition findAllByType (children : list Node) (type : list ElementType) : list Node :=
  let types := map getDisplayName type in
  List.filter (matchesType types) (toArray children).

Definition findChildByType (children : list Node) (type : list ElementType)
  : option Node :=
  head (findAllByType children type).

(** [withoutType] looks at [displayName] only. *)
Definition withoutType (children : list Node) (types : list string) : list Node :=
  List.filter
    (fun n =>
       match n with
       | NElement (Component displayName _) _ =>
           match nonEmpty displayName with
           | Some d => negb (bool_decide (d ∈ types))
           | None => true
           end
       | _ => true
       end)
    (toArray children).

(** [SVG_TAGS]. *)
Definition SVG_TAGS : list string :=
  ["a"; "altGlyph"; "altGlyphDef"; "altGlyphItem"; "animate"; "animateColor";
   "animateMotion"; "animateTransform"; "circle"; "clipPath"; "color-profile";
   "cursor"; "defs"; "desc"; "ellipse"; "feBlend"; "feColormatrix";
   "feComponentTransfer"; "feComposite"; "feConvolveMatrix"; "feDiffuseLighting";
   "feDisplacementMap"; "feDistantLight"; "feFlood"; "feFuncA"; "feFuncB"; "feFuncG";
   "feFuncR"; "feGaussianBlur"; "feImage"; "feMerge"; "feMergeNode"; "feMorphology";
   "feOffset"; "fePointLight"; "feSpecularLighting"; "feSpotLight"; "feTile";
   "feTurbulence"; "filter"; "font"; "font-face"; "font-face-format";
   "font-face-name"; "font-face-url"; "foreignObject"; "g"; "glyph"; "glyphRef";
   "hkern"; "image"; "line"; "lineGradient"; "marker"; "mask"; "metadata";
   "missing-glyph"; "mpath"; "path"; "pattern"; "polygon"; "polyline";
   "radialGradient"; "rect"; "script"; "set"; "stop"; "style"; "svg"; "switch";
   "symbol"; "text"; "textPath"; "title"; "tref"; "tspan"; "use"; "view"; "vkern"].

Definition isSvgElement (n : Node) : bool :=
  match n with
  | NElement (Host tag) _ => bool_decide (tag ∈ SVG_TAGS)
  | _ => false
  end.

(** An entry of a render map. *)
Record Renderer := { hasHandler : bool; once : bool }.

(** What [renderByOrder] puts in its result: a child passed through, or the
    result of the handler of a display name on a child at an index. *)
Inductive Rendered :=
| AsIs (child : Node)
| Handled (displayName : string) (child : Node) (index : nat).

(** The display name under which a truthy child that is no svg element is
    looked up: that of its type, and the empty name for a text. *)
Definition renderName (child : Node) : option string :=
  match child with
  | NElement type _ => Some (getDisplayName type)
  | NText s => if bool_decide (s = "") then None else Some ""
  | _ => None
  end.

(** The properties every plain object inherits; reading one of them from
    the empty [record] yields a truthy value. *)
Definition Object_prototype_keys : list string :=
  ["constructor"; "__proto__"; "hasOwnProperty"; "isPrototypeOf";
   "propertyIsEnumerable"; "toLocaleString"; "toString"; "valueOf";
   "__defineGetter__"; "__defineSetter__"; "__lookupGetter__"; "__lookupSetter__"].

(** [record[displayName]], truthy or not. *)
Definition recorded (record : gset string) (displayName : string) : bool :=
  bool_decide (displayName ∈ record) || bool_decide (displayName ∈ Object_prototype_keys).

(** The loop of [renderByOrder]; [record] holds the names already
    rendered, and [renderMap] the own entries of the render map. *)
Fixpoint renderFrom (renderMap : gmap string Renderer) (record : gset string)
    (index : nat) (children : list Node) : list Rendered :=
  match children with
  | [] => []
  | child :: rest =>
      if isSvgElement child then
        AsIs child :: renderFrom renderMap record (S index) rest
      else
        match renderName child with
        | Some displayName =>
            match renderMap !! displayName with
            | Some r =>
                if hasHandler r
                   && (negb (once r) || negb (recorded record displayName))
                then Handled displayName child index
                       :: renderFrom renderMap ({[displayName]} ∪ record) (S index) rest
                else renderFrom renderMap record (S index) rest
            | None => renderFrom renderMap record (S index) rest
            end
        | None => renderFrom renderMap record (S index) rest
        end
  end.

Definition renderByOrder (children : list Node) (renderMap : gmap string Renderer)
  : list Rendered :=
  renderFrom renderMap ∅ 0 (toArray children).

End ReactUtils.

(** ** Rectangles, scales and angles (util/CartesianUtils) *)

(** ** Doubles *)

(** The numbers of the program are binary64 doubles, and a sum, a difference
    or a quotient is the double nearest to the exact result.  The arithmetic
    of the chart engine above is taken exactly; for the rectangles, scales
    and angles below, whose properties depend on it, the rounding is written
    out.  Comparisons, [Math.min], [Math.abs] and the remainder [%] are
    exact. *)

(** The exponent [e] with [2^e <= |x| < 2^(e+1)], for [x] other than 0. *)
Definition magnitude (x : Q) : Z :=
  let d := (Z.log2 (Z.abs (Qnum x)) - Z.log2 (Zpos (Qden x)))%Z in
  if Qle_bool (2 ^ d) (Qabs x) then d else (d - 1)%Z.

(** The nearest integer, the even one of two that are equally near. *)
Definition roundHalfEven (x : Q) : Z :=
  let f := Qfloor x in
  match Qcompare (x - inject_Z f) (1 # 2) with
  | Lt => f
  | Gt => (f + 1)%Z
  | Eq => if Z.even f then f else (f + 1)%Z
  end.

(** The exponent of the last place of the doubles around [x]: 53 significant
    bits, and multiples of [2^-1074] below the normal range. *)
Definition exponent (x : Q) : Z := Z.max (magnitude x - 52) (-1074).

(** The double nearest to [x], for a result within the range of the finite
    doubles. *)
Definition fl (x : Q) : Q :=
  inject_Z (roundHalfEven (x / 2 ^ exponent x)) * 2 ^ exponent x.

Module CartesianUtils.

Record Rect := { rect_x : Q; rect_y : Q; rect_width : Q; rect_height : Q }.

Definition rectWithPoints (p1 p2 : Q * Q) : Rect :=
  {| rect_x := Qmin p1.1 p2.1;
     rect_y := Qmin p1.2 p2.2;
     rect_width := Qabs (fl (p2.1 - p1.1));
     rect_height := Qabs (fl (p2.2 - p1.2)) |}.

Definition rectWithCoords (x1 y1 x2 y2 : Q) : Rect :=
  rectWithPoints (x1, y1) (x2, y2).

(** A scale with numbers in its range and the function it applies; [None]
    is [undefined], what an ordinal scale answers outside its domain. *)
Record Scale := {
  helper : ScaleHelper.t;
  scale : prim -> option Q
}.

Inductive Position := AtStart | AtMiddle | AtEnd | Elsewhere.

(** The number a scale returned, as a value. *)
Definition scaledValue (r : option Q) : prim :=
  match r with Some v => PNum v | None => PUndefined end.

(** [this.scale(value) + offset]; [undefined] plus a number is [NaN]. *)
Definition shifted (r : option Q) (offset : Q) : prim :=
  match r with Some v => PNum (fl (v + offset)) | None => PNaN end.

(** [ScaleHelper.apply]; a missing or empty [position] is [None], and
    [Elsewhere] any other string. *)
Definition apply (s : Scale) (value : prim) (bandAware : bool)
    (position : option Position) : prim :=
  match value with
  | PUndefined => PUndefined
  | _ =>
      match position with
      | Some AtStart => scaledValue (scale s value)
      | Some AtMiddle =>
          let offset :=
            match ScaleHelper.bandwidth (helper s) with
            | Some b => fl (b / 2)
            | None => 0
            end in
          shifted (scale s value) offset
      | Some AtEnd =>
          let offset :=
            match ScaleHelper.bandwidth (helper s) with Some b => b | None => 0 end in
          shifted (scale s value) offset
      | Some Elsewhere => scaledValue (scale s value)
      | None =>
          if bandAware then
            let offset :=
              match ScaleHelper.bandwidth (helper s) with
              | Some b => fl (b / 2)
              | None => 0
              end in
            shifted (scale s value) offset
          else scaledValue (scale s value)
      end
  end.

(** [createLabeledScales(options).isInRange]: [every] stops at the first
    coordinate out of range, and a label without a scale throws when it is
    reached. *)
Fixpoint labeledIsInRange (scales : gmap string ScaleHelper.t)
    (coord : list (string * Q)) : outcome bool :=
  match coord with
  | [] => Returned true
  | (label, value) :: rest =>
      match scales !! label with
      | None => Thrown "TypeError: scale is undefined"
      | Some s =>
          if ScaleHelper.isInRange s value then labeledIsInRange scales rest
          else Returned false
      end
  end.

(** [a % n] on numbers: the remainder has the sign of [a], and is exact. *)
Definition truncate (x : Q) : Z :=
  if Qle_bool 0 x then Qfloor x else Qceiling x.

Definition js_rem (a n : Q) : Q := a - n * inject_Z (truncate (a / n)).

Definition normalizeAngle (angle : Q) : Q :=
  js_rem (fl (js_rem angle 180 + 180)) 180.

End CartesianUtils.

(** ** More example charts *)

Module MoreExamples.

(** An axis like [Examples.axis], with an id of its own. *)
Definition axisWithId {O} (id : AxisId) (o : O) (t : AxisDataType)
    (key : option DataKey) (domain : option (list prim)) : AxisProps O :=
  {| ax_id := id; ax_type := t; ax_dataKey := key;
     ax_allowDataOverflow := false; ax_allowDuplicatedCategory := true;
     ax_scale := ScaleName "auto"; ax_ticks := None; ax_includeHidden := false;
     ax_domain := domain; ax_orientation := o; ax_mirror := false; ax_hide := false;
     ax_width := 60; ax_height := 30 |}.

(** A chart with other series, brush, tooltip and sync id. *)
Definition chartWith (props : CategoricalChartProps) (its : list GraphicalItem)
    (b : option BrushProps) (t : option TooltipProps) (id : prim)
  : CategoricalChartProps :=
  {| syncId := id; syncMethod := syncMethod props;
     p_width := p_width props; p_height := p_height props;
     data := data props; layout := layout props;
     stackOffset := stackOffset props; margin := margin props;
     reverseStackOrder := reverseStackOrder props;
     defaultShowTooltip := defaultShowTooltip props;
     xAxes := xAxes props; yAxes := yAxes props; zAxes := zAxes props;
     angleAxes := angleAxes props; radiusAxes := radiusAxes props;
     items := its; brush := b; legend := legend props; tooltip := t |}.

(** A series that names the x axis [1]. *)
Definition straySeries : GraphicalItem :=
  {| item_name := "Line"; item_key := None; item_data := None;
     item_dataKey := Some (KeyName "v");
     item_axisId := fun t => match t with XAxis => Some (IdNum 1) | _ => Some (IdNum 0) end;
     item_hide := false; item_getComposedData := true |}.

(** The horizontal example chart with that series besides its own. *)
Definition strayProps : CategoricalChartProps :=
  chartWith (Examples.horizontalProps SyncIndex) [Examples.series; straySeries]
    None None (PStr "linked").

(** A second mounted chart on the channel, with an emitter of its own. *)
Definition peer (props : CategoricalChartProps) : Chart :=
  {| chart_props := props;
     chart_state := Examples.mountedState props;
     eventEmitterSymbol := 2;
     container := None |}.

(** The horizontal example chart with a tooltip that opens at index 1. *)
Definition tooltipProps : CategoricalChartProps :=
  chartWith (Examples.horizontalProps SyncIndex) [Examples.series] None
    (Some {| tt_shared := None; tt_defaultIndex := Some 1%Z |}) (PStr "linked").

(** The horizontal example chart on another channel. *)
Definition otherChannelProps : CategoricalChartProps :=
  chartWith (Examples.horizontalProps SyncIndex) [Examples.series] None None
    (PStr "other").

(** A chart synchronised by value whose categories are not repeated. *)
Definition byValueProps : CategoricalChartProps :=
  Examples.chartProps (PNum 400) (PNum 300) SyncValue Horizontal
    [Examples.axis OBottom TCategory Examples.nameKey None false]
    [Examples.axis OLeft TNumber None None true].

End MoreExamples.

(** ** Notions used by the statements on the further code *)

(** A property key that a plain object does not inherit: reading any other
    key from an object literal yields a value even when the object has no
    such entry, which a dictionary does not model. *)
Definition ownKey (k : string) : bool :=
  negb (bool_decide (k ∈ ReactUtils.Object_prototype_keys)).

(** The keys named by the axis elements of one dimension. *)
Definition axisElementKeys (props : CategoricalChartProps) (t : AxisType) : list string :=
  match t with
  | XAxis => map (fun a => axisKey (ax_id a)) (xAxes props)
  | YAxis => map (fun a => axisKey (ax_id a)) (yAxes props)
  | ZAxis => map (fun a => axisKey (ax_id a)) (zAxes props)
  | AngleAxis => map (fun a => axisKey (ax_id a)) (angleAxes props)
  | RadiusAxis => map (fun a => axisKey (ax_id a)) (radiusAxes props)
  end.

(** [axisMap && axisMap[id]] for the axis id that a series names in one
    dimension, as [getFormatItems] tests it. *)
Definition axisFound
    (xAxisMap : option (gmap string (AxisRec XOrientation)))
    (yAxisMap : option (gmap string (AxisRec YOrientation)))
    (zAxisMap angleAxisMap radiusAxisMap : option (gmap string (AxisRec unit)))
    (item : GraphicalItem) (axisType : AxisType) : bool :=
  match axisType with
  | XAxis => declared xAxisMap (item_axisId item XAxis)
  | YAxis => declared yAxisMap (item_axisId item YAxis)
  | ZAxis => declared zAxisMap (item_axisId item ZAxis)
  | AngleAxis => declared angleAxisMap (item_axisId item AngleAxis)
  | RadiusAxis => declared radiusAxisMap (item_axisId item RadiusAxis)
  end.

(** A chart like [Examples.chartProps] without axis elements. *)
Definition bareProps : CategoricalChartProps :=
  Examples.chartProps (PNum 400) (PNum 300) SyncIndex Horizontal [] [].

(** An entry that is neither the empty string, [null] nor [undefined]. *)
Definition definedEntry (entry : prim) : bool :=
  negb (strict_eq entry (PStr "")) && negb (isNil entry).

(** * Properties *)

(** ** Comparisons of rationals as booleans *)

Lemma Qle_bool_true (x y : Q) : Qle_bool x y = true <-> x <= y.
Proof. apply Qle_bool_iff. Qed.

Lemma Qle_bool_false (x y : Q) : Qle_bool x y = false <-> y < x.
Proof.
  split; intros H.
  - apply Qnot_le_lt. intros Hle. apply Qle_bool_iff in Hle. congruence.
  - destruct (Qle_bool x y) eqn:E; [|reflexivity].
    apply Qle_bool_iff in E. lra.
Qed.

Lemma Qmin_le_iff (a b v : Q) : Qmin a b <= v <-> a <= v \/ b <= v.
Proof. destruct (Q.min_spec a b) as [[? E]|[? E]]; rewrite E; split; intros; lra. Qed.

Lemma Qmax_ge_iff (a b v : Q) : v <= Qmax a b <-> v <= a \/ v <= b.
Proof. destruct (Q.max_spec a b) as [[? E]|[? E]]; rewrite E; split; intros; lra. Qed.

Lemma Qmax_0_nonneg (x : Q) : 0 <= Qmax x 0.
Proof. apply Q.le_max_r. Qed.

(** ** ScaleHelper *)

(** C10. For a scale whose range starts at [a] and ends at [b], in either
    order, [isInRange v] holds exactly when [v] lies between the smaller and
    the larger endpoint; reversing the range does not change the answer. *)
Theorem isInRange_between (s : ScaleHelper.t) (a b v : Q) :
  head (ScaleHelper.range s) = Some a ->
  last (ScaleHelper.range s) = Some b ->
  (ScaleHelper.isInRange s v = true <-> Qmin a b <= v /\ v <= Qmax a b) /\
  ScaleHelper.isInRange
    (ScaleHelper.create (reverse (ScaleHelper.range s)) (ScaleHelper.bandwidth s)) v
  = ScaleHelper.isInRange s v.
Proof.
  intros Hh Hl. unfold ScaleHelper.isInRange. cbn [ScaleHelper.range].
  rewrite head_reverse, last_reverse, Hh, Hl.
  split.
  - destruct (Qle_bool a b) eqn:E;
      rewrite andb_true_iff, !Qle_bool_true, Qmin_le_iff, Qmax_ge_iff.
    + apply Qle_bool_true in E. split; intros; lra.
    + apply Qle_bool_false in E. split; intros; lra.
  - apply eq_true_iff_eq.
    destruct (Qle_bool a b) eqn:E, (Qle_bool b a) eqn:E';
      rewrite ?Qle_bool_true, ?Qle_bool_false in E, E';
      rewrite !andb_true_iff, !Qle_bool_true; split; intros; lra.
Qed.

Lemma isInRange_between_witness :
  let s := ScaleHelper.create [300; 150; 20] None in
  (ScaleHelper.isInRange s 100 = true <-> Qmin 300 20 <= 100 /\ 100 <= Qmax 300 20) /\
  ScaleHelper.isInRange (ScaleHelper.create (reverse (ScaleHelper.range s)) None) 100
  = ScaleHelper.isInRange s 100.
Proof. exact (isInRange_between (ScaleHelper.create [300; 150; 20] None) 300 20 100 eq_refl eq_refl). Defined.

Section Properties.

Context {U : ChartUtils}.

(** ** Plot offset *)

(** C6. Whatever the margins, the axes, the brush and the legend box, the
    width and the height of the offset returned by [calculateOffset] are the
    raw plot width and height clamped below at zero, and so never negative:
    margins that consume more than the chart leave an empty plot. *)
Theorem calculateOffset_clamped (props : CategoricalChartProps)
    (gis : list GraphicalItem) (xAxisMap : gmap string (AxisRec XOrientation))
    (yAxisMap : gmap string (AxisRec YOrientation)) (box : option DOMRect) :
  let r := calculateOffset props gis xAxisMap yAxisMap box in
  let rawWidth := numberOf (p_width props) - o_left r - o_right r in
  let rawHeight := numberOf (p_height props) - o_top r - o_bottom r in
  o_width r = Qmax rawWidth 0 /\ o_height r = Qmax rawHeight 0 /\
  0 <= o_width r /\ 0 <= o_height r /\
  (rawWidth <= 0 -> o_width r == 0) /\ (rawHeight <= 0 -> o_height r == 0).
Proof.
  cbn zeta. unfold calculateOffset. cbn [o_width o_height o_left o_right o_top o_bottom].
  repeat split; try reflexivity; try apply Qmax_0_nonneg.
  - intros H. apply Q.max_r. exact H.
  - intros H. apply Q.max_r. exact H.
Qed.

(** ** Degenerate geometry *)

(** C5. When the width or the height of the chart is not a number or is not
    above zero, the recompute pipeline returns [null]: no axis maps, no
    offset, no formatted items, and nothing is thrown. *)
Theorem degenerate_size_short_circuits (opts : CategoricalChartOptions)
    (props : CategoricalChartProps) (dataStartIndex dataEndIndex : option Z)
    (prevState : option CategoricalChartState) :
  degenerate (p_width props) \/ degenerate (p_height props) ->
  validateWidthHeight props = false /\
  updateStateOfAxisMapsOffsetAndStackGroups opts props dataStartIndex dataEndIndex prevState
  = Returned None.
Proof.
  intros H.
  assert (Hv : validateWidthHeight props = false).
  { unfold validateWidthHeight, degenerate in *.
    destruct (p_width props) as [| | |w|], (p_height props) as [| | |h|];
      cbn in *; try reflexivity;
      repeat match goal with
             | |- context [Qle_bool ?x 0] => destruct (Qle_bool x 0) eqn:?
             end; cbn; try reflexivity;
      rewrite ?Qle_bool_false in *; destruct H; try tauto; lra. }
  split; [exact Hv|].
  unfold updateStateOfAxisMapsOffsetAndStackGroups. rewrite Hv. reflexivity.
Qed.

(** ** Sync feedback *)

(** C7. A message that carries the chart's own emitter identity changes
    nothing when the sync method is not a custom resolver: the handler
    returns the state it found. *)
Theorem own_message_ignored (opts : CategoricalChartOptions) (c : Chart)
    (cId : prim) (syncData : Patch) :
  isFunction (syncMethod (chart_props c)) = false ->
  handleReceiveSyncEvent opts c cId syncData (eventEmitterSymbol c)
  = Returned (chart_state c).
Proof.
  intros H. unfold handleReceiveSyncEvent.
  rewrite Nat.eqb_refl, H. cbn. destruct (strict_eq _ _); reflexivity.
Qed.

(** ** Tooltip payload *)

Lemma fold_left_snoc_omap {A B} (f : A -> option B) (l : list A) (acc : list B) :
  fold_left (fun result x => match f x with Some y => result ++ [y] | None => result end)
    l acc
  = acc ++ omap f l.
Proof.
  revert acc. induction l as [|x l IH]; intros acc; cbn.
  - by rewrite app_nil_r.
  - rewrite IH. destruct (f x); cbn; [|done]. by rewrite <- app_assoc.
Qed.

Lemma fold_left_ext_in {A B} (f g : A -> B -> A) (l : list B) (a : A) :
  (forall acc x, f acc x = g acc x) -> fold_left f l a = fold_left g l a.
Proof. intros H. revert a. induction l as [|x l IH]; intros a; cbn; [done|]. by rewrite H, IH. Qed.

Lemma windowed_data_eq (st : CategoricalChartState) (chartData : option (list entry))
    (activeIndex : Z) (child : GraphicalItem) :
  match coalesce (item_data child) chartData, dataStartIndex st, dataEndIndex st with
  | Some d, Some s, Some e =>
      if negb (s + e =? 0)%Z && (activeIndex <=? e - s)%Z
      then Some (js_slice d s (e + 1)%Z) else coalesce (item_data child) chartData
  | _, _, _ => coalesce (item_data child) chartData
  end
  = seriesData st chartData activeIndex child.
Proof.
  unfold seriesData.
  destruct (coalesce (item_data child) chartData) as [d|],
           (dataStartIndex st) as [s|], (dataEndIndex st) as [e|]; try reflexivity.
  destruct (negb (s + e =? 0)%Z && (activeIndex <=? e - s)%Z) eqn:E.
  - rewrite bool_decide_eq_true_2; [done|].
    apply andb_true_iff in E as [E E']. apply negb_true_iff in E. lia.
  - rewrite bool_decide_eq_false_2; [done|].
    apply andb_false_iff in E as [E|E]; [apply negb_false_iff in E|]; lia.
Qed.

(** C9, as the code has it. For an active index within the displayed data,
    the payload has one line per plotted series that has a datum, in series
    order: the datum is found by exact lookup of the active label under the
    data key of the tooltip axis when that axis has a key and forbids
    duplicated categories, and otherwise by position at the active index, in
    the data of the series or, when that holds nothing usable there, in the
    displayed data; a series for which this yields no datum contributes no
    line, and nothing is thrown. *)
Theorem tooltip_payload_by_series (st : CategoricalChartState)
    (chartData : option (list entry)) (activeIndex : Z) (activeLabel : prim)
    (gis : list GraphicalItem) (axis : TooltipAxis) :
  graphicalItems st = Some gis ->
  gis <> [] ->
  tooltipAxis st = Some axis ->
  (0 <= activeIndex
   < Z.of_nat (length (getDisplayedData chartData (Some gis)
                         (dataStartIndex st) (dataEndIndex st))))%Z ->
  getTooltipContent st chartData activeIndex activeLabel
  = Returned (Some (payloadOfSeries st axis chartData
                      (getDisplayedData chartData (Some gis)
                         (dataStartIndex st) (dataEndIndex st))
                      activeIndex activeLabel gis)).
Proof.
  intros Hg Hne Hax Hi. unfold getTooltipContent. rewrite Hg, Hax.
  cbn [index_ltb index_geb index_leb].
  set (displayed := getDisplayedData chartData (Some gis) _ _) in *.
  assert (E1 : (activeIndex <? 0)%Z = false) by lia.
  assert (E2 : nonempty gis = true) by (destruct gis; [done|reflexivity]).
  assert (E3 : (Z.of_nat (length displayed) <=? activeIndex)%Z = false) by lia.
  rewrite E1, E2, E3. cbn [negb orb]. do 2 f_equal.
  unfold payloadOfSeries. rewrite <- (app_nil_l (omap _ gis)).
  rewrite <- fold_left_snoc_omap. apply fold_left_ext_in. intros acc child.
  rewrite windowed_data_eq.
  unfold datumOfSeries, keyedDatum, positionalDatum, js_at.
  cbn [arrayIndex mbind option_bind].
  generalize (seriesData st chartData activeIndex child). intros data.
  destruct (key_truthy (ta_dataKey axis)) as [key|],
           (ta_allowDuplicatedCategory axis); cbn zeta;
    match goal with
    | |- (if no_payload ?p then _ else _) = _ =>
        destruct p as [e|]; cbn; [destruct (entry_truthy e); reflexivity|reflexivity]
    end.
Qed.

(** ** Pointer outside the plot *)

(** C4. When the pointer of an event falls outside the plot rectangle of a
    cartesian chart, or outside the sector of a polar one, [getMouseInfo]
    returns [null] without throwing, and the state set after the move has an
    inactive tooltip. *)
Theorem pointer_outside_is_inactive (opts : CategoricalChartOptions) (c : Chart)
    (ct : Container) (e : MousePointer) :
  container c = Some ct ->
  pointerOutside c ct e ->
  getMouseInfo opts c e = Returned None /\
  exists st',
    triggeredAfterMouseMove opts c e
    = Returned (st', triggerSyncEvent c (withActive emptyPatch false)) /\
    isTooltipActive st' = Some false.
Proof.
  intros Hc Hout.
  assert (Hin : inRange c (round (pageX e - ct_left ct)) (round (pageY e - ct_top ct))
                  (pointerScale ct) = Returned None).
  { unfold pointerOutside, pointerPosition in Hout. unfold inRange. cbn [fst snd] in Hout.
    destruct (is_cartesian (layout (chart_props c))).
    - destruct Hout as (o & Ho & Hn). rewrite Ho.
      match goal with |- Returned (if ?b then _ else _) = _ => destruct b eqn:E end;
        [|reflexivity].
      exfalso. apply Hn. unfold insidePlot.
      rewrite !andb_true_iff, !Qle_bool_true in E. tauto.
    - destruct (derived (chart_state c) ≫= d_angleAxisMap) as [am|]; [|reflexivity].
      destruct (derived (chart_state c) ≫= d_radiusAxisMap); [|reflexivity].
      by rewrite Hout. }
  assert (Hm : getMouseInfo opts c e = Returned None).
  { unfold getMouseInfo. rewrite Hc. cbn zeta. rewrite Hin. reflexivity. }
  split; [exact Hm|].
  unfold triggeredAfterMouseMove. rewrite Hm. cbn.
  eexists. split; reflexivity.
Qed.

(** ** Strict equality and duplicate removal *)

Lemma strict_eq_sym (a b : prim) : strict_eq a b = strict_eq b a.
Proof.
  destruct a, b; cbn; try reflexivity.
  - apply eq_true_iff_eq. rewrite !Qeq_bool_iff. split; intros H; by symmetry.
  - apply bool_decide_ext. split; congruence.
Qed.

Lemma strict_eq_trans (a b c : prim) :
  strict_eq a b = true -> strict_eq b c = true -> strict_eq a c = true.
Proof.
  destruct a, b, c; cbn; try done.
  - rewrite !Qeq_bool_iff. intros H1 H2. by rewrite H1.
  - rewrite !bool_decide_eq_true. congruence.
Qed.

Lemma indexOf_from_found (l : list prim) (x : prim) (i : Z) :
  (0 <= i)%Z ->
  (0 <=? indexOf_from l x i)%Z = existsb (fun y => strict_eq y x) l.
Proof.
  revert i. induction l as [|y l IH]; intros i Hi; cbn; [done|].
  destruct (strict_eq y x); cbn; [lia|]. apply IH. lia.
Qed.

Lemma indexOf_found (l : list prim) (x : prim) :
  (0 <=? indexOf l x)%Z = existsb (fun y => strict_eq y x) l.
Proof. by apply indexOf_from_found. Qed.

Lemma existsb_strict_eq_trans (l : list prim) (x z : prim) :
  existsb (fun y => strict_eq y x) l = true -> strict_eq x z = true ->
  existsb (fun y => strict_eq y z) l = true.
Proof.
  rewrite !existsb_exists. intros (y & Hy & Hyx) Hxz.
  exists y. split; [done|]. by apply strict_eq_trans with x.
Qed.

Lemma uniqueEntries_from (l acc earlier : list prim) :
  (forall z, existsb (fun y => strict_eq y z) acc
             = existsb (fun y => strict_eq y z) earlier) ->
  fold_left
    (fun finalDomain entry =>
       if (0 <=? indexOf finalDomain entry)%Z then finalDomain
       else finalDomain ++ [entry])
    l acc
  = acc ++ keepFirst earlier l.
Proof.
  revert acc earlier. induction l as [|x l IH]; intros acc earlier Inv; cbn.
  - by rewrite app_nil_r.
  - rewrite indexOf_found, Inv.
    destruct (existsb (fun y => strict_eq y x) earlier) eqn:E; cbn.
    + apply IH. intros z. rewrite existsb_app, Inv. cbn. rewrite orb_false_r.
      destruct (strict_eq x z) eqn:Exz; [|by rewrite orb_false_r].
      rewrite orb_true_r. by apply existsb_strict_eq_trans with x.
    + rewrite (IH (acc ++ [x]) (earlier ++ [x])).
      * by rewrite <- app_assoc.
      * intros z. by rewrite !existsb_app, Inv.
Qed.

(** The reducer of the code computes the first occurrences. *)
Lemma uniqueEntries_firstOccurrences (l : list prim) :
  uniqueEntries l = firstOccurrences l.
Proof. unfold uniqueEntries, firstOccurrences. by rewrite (uniqueEntries_from l [] []). Qed.

Lemma distinctEntries_snoc (acc : list prim) (x : prim) :
  distinctEntries acc -> existsb (fun y => strict_eq y x) acc = false ->
  distinctEntries (acc ++ [x]).
Proof.
  intros Hd Hx i j a b Hij Ha Hb.
  destruct (decide (j < length acc)%nat) as [Hj|Hj].
  - rewrite lookup_app_l in Ha by lia. rewrite lookup_app_l in Hb by lia. eauto.
  - assert (j = length acc).
    { apply lookup_lt_Some in Hb. rewrite length_app in Hb. cbn in Hb. lia. }
    subst j. rewrite lookup_app_l in Ha by lia.
    rewrite lookup_app_r in Hb by lia. rewrite Nat.sub_diag in Hb. inversion Hb; subst.
    destruct (strict_eq a b) eqn:E; [|done].
    assert (existsb (fun y => strict_eq y b) acc = true); [|congruence].
    apply existsb_exists. exists a. split; [|done].
    apply list_elem_of_In, list_elem_of_lookup. eauto.
Qed.

Lemma uniqueEntries_distinct (l : list prim) : distinctEntries (uniqueEntries l).
Proof.
  unfold uniqueEntries.
  assert (G : forall acc, distinctEntries acc ->
    distinctEntries
      (fold_left
         (fun finalDomain entry =>
            if (0 <=? indexOf finalDomain entry)%Z then finalDomain
            else finalDomain ++ [entry]) l acc)).
  { induction l as [|x l IH]; intros acc Hacc; cbn; [done|].
    apply IH. rewrite indexOf_found.
    destruct (existsb (fun y => strict_eq y x) acc) eqn:E; [done|].
    by apply distinctEntries_snoc. }
  apply G. intros i j a b _ Ha. by rewrite lookup_nil in Ha.
Qed.

(** ** Axis domains *)

Lemma getAxisMapByAxes_lookup {O} (props : CategoricalChartProps)
    (axes : list (AxisProps O)) (gis : list GraphicalItem) (axisType : AxisType)
    (stacks : option (gmap string AxisStack)) (dataStartIndex dataEndIndex : option Z)
    (k : string) (r : AxisRec O) :
  getAxisMapByAxes props axes gis axisType stacks dataStartIndex dataEndIndex !! k = Some r ->
  exists a, a ∈ axes /\ k = axisKey (ax_id a) /\
            r = axisOfElement props axisType stacks dataStartIndex dataEndIndex gis a.
Proof.
  unfold getAxisMapByAxes.
  assert (G : forall (m : gmap string (AxisRec O)),
    fold_left
      (fun (result : gmap string (AxisRec O)) child =>
         match result !! axisKey (ax_id child) with
         | Some _ => result
         | None =>
             <[axisKey (ax_id child) :=
                 axisOfElement props axisType stacks dataStartIndex dataEndIndex gis child]>
               result
         end) axes m !! k = Some r ->
    m !! k = Some r \/
    exists a, a ∈ axes /\ k = axisKey (ax_id a) /\
              r = axisOfElement props axisType stacks dataStartIndex dataEndIndex gis a).
  { induction axes as [|a axes IH]; intros m H; cbn in H; [by left|].
    apply IH in H as [H|(b & Hb & ? & ?)].
    - destruct (m !! axisKey (ax_id a)) eqn:E; [by left|].
      destruct (decide (axisKey (ax_id a) = k)) as [<-|Hne].
      + rewrite lookup_insert_eq in H. inversion H; subst.
        right. exists a. split; [constructor|done].
      + rewrite lookup_insert_ne in H by done. by left.
    - right. exists b. split; [by constructor|done]. }
  intros H. apply G in H as [H|H]; [|done]. by rewrite lookup_empty in H.
Qed.

(** Every declared axis gets an entry, built from the first element of its
    id. *)
Lemma getAxisMapByAxes_declared {O} (props : CategoricalChartProps)
    (axes : list (AxisProps O)) (gis : list GraphicalItem) (axisType : AxisType)
    (stacks : option (gmap string AxisStack)) (dataStartIndex dataEndIndex : option Z)
    (a : AxisProps O) :
  a ∈ axes ->
  is_Some (getAxisMapByAxes props axes gis axisType stacks dataStartIndex dataEndIndex
             !! axisKey (ax_id a)).
Proof.
  unfold getAxisMapByAxes.
  set (step := fun (result : gmap string (AxisRec O)) child =>
         match result !! axisKey (ax_id child) with
         | Some _ => result
         | None =>
             <[axisKey (ax_id child) :=
                 axisOfElement props axisType stacks dataStartIndex dataEndIndex gis child]>
               result
         end).
  assert (Keep : forall l (m : gmap string (AxisRec O)) k,
             is_Some (m !! k) -> is_Some (fold_left step l m !! k)).
  { induction l as [|b l IH]; intros m k Hk; cbn; [done|].
    apply IH. unfold step. destruct (m !! axisKey (ax_id b)) eqn:E; [done|].
    destruct (decide (axisKey (ax_id b) = k)) as [<-|Hne].
    - rewrite lookup_insert_eq. eauto.
    - by rewrite lookup_insert_ne. }
  generalize (∅ : gmap string (AxisRec O)).
  induction axes as [|b axes IH]; intros m Ha; [by apply not_elem_of_nil in Ha|].
  cbn. apply elem_of_cons in Ha as [->|Ha]; [|by apply IH].
  apply Keep. unfold step. destruct (m !! axisKey (ax_id b)) eqn:E; [by rewrite E|].
  rewrite lookup_insert_eq. eauto.
Qed.

Lemma axisOfElement_props {O} (props : CategoricalChartProps) (axisType : AxisType)
    (stacks : option (gmap string AxisStack)) (dataStartIndex dataEndIndex : option Z)
    (gis : list GraphicalItem) (a : AxisProps O) :
  ar_props (axisOfElement props axisType stacks dataStartIndex dataEndIndex gis a) = a.
Proof.
  unfold axisOfElement.
  repeat match goal with
         | |- context [let '(_, _) := ?x in _] => destruct x
         end.
  reflexivity.
Qed.

(** C1, as the code has it. For a declared numeric axis with a stack group,
    offset mode [expand] and no user domain adopted, which has no data key
    of its own and is not the categorical axis of the layout, the domain
    derived for the axis is the fixed pair [0, 1]; the resolved domain is
    that pair passed through the reference-annotation extension and merged
    with the domain of the axis (the default [0, 'auto'] when the user gave
    none), and it is exactly [0, 1] whenever these two steps leave [0, 1]
    as it is. *)
Theorem expand_stack_domain {O} (props : CategoricalChartProps)
    (axes : list (AxisProps O)) (gis : list GraphicalItem) (axisType : AxisType)
    (stacks : option (gmap string AxisStack)) (dataStartIndex dataEndIndex : option Z)
    (k : string) (r : AxisRec O) (stack : AxisStack) :
  getAxisMapByAxes props axes gis axisType stacks dataStartIndex dataEndIndex !! k = Some r ->
  ax_type (ar_props r) = TNumber ->
  stackOfAxis stacks (axisKey (ax_id (ar_props r))) = Some stack ->
  stackOffset props = SOExpand ->
  isDomainSpecifiedByUser (ax_domain (ar_props r)) (ax_allowDataOverflow (ar_props r))
    TNumber = false ->
  key_truthy (ax_dataKey (ar_props r)) = None ->
  isCategoricalAxis (layout props) axisType = false ->
  let extended :=
    detectReferenceElementsDomain props [PNum 0; PNum 1] (Some (ax_id (ar_props r)))
      axisType (ax_ticks (ar_props r)) in
  let merged d :=
    parseSpecifiedDomain
      (coalesce (ax_domain (ar_props r)) (Some [PNum 0; PStr "auto"])) (Some d)
      (ax_allowDataOverflow (ar_props r)) in
  ar_domain r = merged extended /\
  (extended = [PNum 0; PNum 1] -> merged [PNum 0; PNum 1] = [PNum 0; PNum 1] ->
   ar_domain r = [PNum 0; PNum 1]).
Proof.
  intros Hr Ht Hs He Hu Hk Hc.
  apply getAxisMapByAxes_lookup in Hr as (a & _ & _ & ->).
  rewrite axisOfElement_props in *.
  assert (Hd : ar_domain
                 (axisOfElement props axisType stacks dataStartIndex dataEndIndex gis a)
               = parseSpecifiedDomain
                   (coalesce (ax_domain a) (Some [PNum 0; PStr "auto"]))
                   (Some (detectReferenceElementsDomain props [PNum 0; PNum 1]
                            (Some (ax_id a)) axisType (ax_ticks a)))
                   (ax_allowDataOverflow a)).
  { unfold axisOfElement. rewrite Ht, Hu, Hk, Hc, Hs, He. cbn.
    destruct (ax_domain a); reflexivity. }
  cbn zeta. split; [exact Hd|].
  intros E1 E2. rewrite Hd, E1. exact E2.
Qed.

(** C2, as the code has it. For a declared category axis that is the
    categorical axis of the layout, has a data key and no domain of its own:
    when it allows duplicated categories and the extraction over the [N]
    displayed records contains a duplicate, the resolved domain is the index
    range [0, N) and the extracted values are kept as the duplicate domain;
    when it disallows duplicates, the resolved domain is the
    first-occurrence-ordered list of unique values, it holds no two equal
    entries, and there is no duplicate domain. *)
Theorem category_domain {O} (props : CategoricalChartProps)
    (axes : list (AxisProps O)) (gis : list GraphicalItem) (axisType : AxisType)
    (stacks : option (gmap string AxisStack)) (dataStartIndex dataEndIndex : option Z)
    (k : string) (r : AxisRec O) :
  getAxisMapByAxes props axes gis axisType stacks dataStartIndex dataEndIndex !! k = Some r ->
  ax_type (ar_props r) = TCategory ->
  isCategoricalAxis (layout props) axisType = true ->
  key_truthy (ax_dataKey (ar_props r)) <> None ->
  ax_domain (ar_props r) = None ->
  isDomainSpecifiedByUser None (ax_allowDataOverflow (ar_props r)) TCategory = false ->
  let displayed :=
    getDisplayedData (data props)
      (Some (itemsOfAxis axisType (Some (ax_id (ar_props r))) gis))
      dataStartIndex dataEndIndex in
  let extracted := getDomainOfDataByKey displayed (ax_dataKey (ar_props r)) TCategory in
  (ax_allowDuplicatedCategory (ar_props r) = true ->
   hasDuplicate extracted = true ->
   ar_domain r = range0 (length displayed) /\ ar_duplicateDomain r = Some extracted) /\
  (ax_allowDuplicatedCategory (ar_props r) = false ->
   ar_domain r = firstOccurrences (parseDomainOfCategoryAxis O None extracted (ar_props r)) /\
   distinctEntries (ar_domain r) /\
   ar_duplicateDomain r = None /\
   (parseDomainOfCategoryAxis O None extracted (ar_props r) = extracted ->
    ar_domain r = firstOccurrences extracted)).
Proof.
  intros Hr Ht Hc Hk Hd Hu.
  apply getAxisMapByAxes_lookup in Hr as (a & _ & _ & ->).
  rewrite axisOfElement_props in *.
  destruct (key_truthy (ax_dataKey a)) as [key|] eqn:Ek; [clear Hk|done].
  cbn zeta. split.
  - intros Ha Hdup. unfold axisOfElement.
    rewrite Ht, Hd, Hu, Ek, Hc, Ha, Hdup. cbn. done.
  - intros Ha.
    assert (E : ar_domain
                  (axisOfElement props axisType stacks dataStartIndex dataEndIndex gis a)
                = uniqueEntries
                    (parseDomainOfCategoryAxis O None
                       (getDomainOfDataByKey
                          (getDisplayedData (data props)
                             (Some (itemsOfAxis axisType (Some (ax_id a)) gis))
                             dataStartIndex dataEndIndex)
                          (ax_dataKey a) TCategory) a)).
    { unfold axisOfElement. rewrite Ht, Hd, Hu, Ek, Hc, Ha. cbn. done. }
    repeat split.
    + by rewrite E, uniqueEntries_firstOccurrences.
    + rewrite E. apply uniqueEntries_distinct.
    + unfold axisOfElement. rewrite Ht, Hd, Hu, Ek, Hc, Ha. cbn. done.
    + intros Hp. by rewrite E, Hp, uniqueEntries_firstOccurrences.
Qed.

(** ** Tooltip index and coordinate under synchronisation *)

Lemma getTooltipContent_returns (st : CategoricalChartState)
    (chartData : option (list entry)) (activeIndex : Z) (activeLabel : prim)
    (axis : TooltipAxis) :
  tooltipAxis st = Some axis ->
  exists payload,
    getTooltipContent st chartData activeIndex activeLabel = Returned payload /\
    (~ (0 <= activeIndex
        < Z.of_nat (length (getDisplayedData chartData (graphicalItems st)
                              (dataStartIndex st) (dataEndIndex st))))%Z ->
     payload = None).
Proof.
  intros Hax. unfold getTooltipContent. rewrite Hax.
  destruct (graphicalItems st) as [gis|]; [|by eexists].
  match goal with |- context [if ?b then _ else _] => destruct b eqn:E end.
  - by eexists.
  - eexists. split; [reflexivity|]. intros Hn. exfalso. apply Hn.
    apply orb_false_iff in E as [E E3]. apply orb_false_iff in E as [E1 _].
    cbn [index_ltb index_geb] in E1, E3. lia.
Qed.

(** No series adds an entry by position when the index names no position,
    and none at all when the tooltip axis does not look entries up by
    key. *)
Lemma fold_no_position (st : CategoricalChartState) (chartData : option (list entry))
    (displayed : list entry) (x : TooltipIndex) (label : prim) (axis : TooltipAxis)
    (gis : list GraphicalItem) (acc : list TooltipItem) :
  arrayIndex x = None ->
  key_truthy (ta_dataKey axis) = None \/ ta_allowDuplicatedCategory axis = true ->
  fold_left
    (fun result child =>
       let data0 := coalesce (item_data child) chartData in
       let data :=
         match data0, dataStartIndex st, dataEndIndex st with
         | Some d, Some s, Some e =>
             if negb (s + e =? 0)%Z && index_leb x (e - s)
             then Some (js_slice d s (e + 1)%Z) else data0
         | _, _, _ => data0
         end in
       let payload :=
         match key_truthy (ta_dataKey axis), ta_allowDuplicatedCategory axis with
         | Some dataKey, false =>
             let entries := default displayed data in
             findEntryInArray entries dataKey label
         | _, _ =>
             match data ≫= (fun d => js_at d x) with
             | Some e =>
                 if entry_truthy e then Some e
                 else js_at displayed x
             | None => js_at displayed x
             end
         end in
       if no_payload payload then result
       else
         match payload with
         | Some e => result ++ [getTooltipItem child e]
         | None => result
         end)
    gis acc = acc.
Proof.
  intros Hx Hpos. revert acc. induction gis as [|child gis IH]; intros acc; [reflexivity|].
  cbn [fold_left]. rewrite <- (IH acc) at 2. f_equal.
  assert (Hat : forall l : list entry, js_at l x = None)
    by (intros l; unfold js_at; by rewrite Hx).
  cbn zeta.
  match goal with
  | |- (if no_payload ?p then _ else _) = _ => assert (Hp : p = None)
  end.
  { destruct Hpos as [-> | ->].
    - match goal with |- context [?dd ≫= _] => destruct dd as [rows|] end; cbn;
        by rewrite ?Hat.
    - destruct (key_truthy (ta_dataKey axis));
        match goal with |- context [?dd ≫= _] => destruct dd as [rows|] end; cbn;
        by rewrite ?Hat. }
  by rewrite Hp.
Qed.

(** [getTooltipContent] for any number: it returns, with [null] for a
    number below 0 or not below the number of displayed records and for a
    chart without series; for a number inside those bounds that names no
    array position (a fraction, [NaN]) the list has no entry taken by
    position, and is empty when the tooltip axis has no key to look entries
    up by or allows duplicated categories. *)
Lemma getTooltipContent_of_number (st : CategoricalChartState)
    (chartData : option (list entry)) (x : TooltipIndex) (activeLabel : prim)
    (axis : TooltipAxis) :
  tooltipAxis st = Some axis ->
  let n := Z.of_nat (length (getDisplayedData chartData (graphicalItems st)
                               (dataStartIndex st) (dataEndIndex st))) in
  exists payload,
    getTooltipContent st chartData x activeLabel = Returned payload /\
    (index_ltb x 0 = true \/ index_geb x n = true -> payload = None) /\
    (forall gis,
       graphicalItems st = Some gis -> gis <> [] ->
       index_ltb x 0 = false -> index_geb x n = false ->
       payload <> None /\
       (arrayIndex x = None ->
        key_truthy (ta_dataKey axis) = None \/ ta_allowDuplicatedCategory axis = true ->
        payload = Some [])).
Proof.
  intros Hax n. unfold getTooltipContent. rewrite Hax. fold n.
  destruct (graphicalItems st) as [gis|]; [|eexists; repeat split; done].
  destruct (index_ltb x 0) eqn:E1; [eexists; repeat split; done|].
  destruct (index_geb x n) eqn:E3;
    [rewrite orb_true_r; eexists; repeat split; done|].
  destruct gis as [|g gis]; [eexists; split; [reflexivity|split; [done|]];
                             by intros ? [= <-]|].
  cbn [nonempty negb orb].
  eexists. split; [reflexivity|]. split; [by intros [|]|].
  intros gis' [= <-] _ _ _. split; [done|].
  intros Hx Hpos. f_equal. by apply fold_no_position.
Qed.

Lemma findTickByValue_range (ticks : list TickItem) (label : prim) (i : Z) :
  findTickByValue ticks label i = (-1)%Z \/
  exists t,
    (i <= findTickByValue ticks label i < i + Z.of_nat (length ticks))%Z /\
    ticks !! Z.to_nat (findTickByValue ticks label i - i) = Some t /\
    strict_eq (tick_value t) label = true.
Proof.
  revert i. induction ticks as [|t ticks IH]; intros i; cbn [findTickByValue]; [by left|].
  destruct (strict_eq (tick_value t) label) eqn:E.
  - right. exists t. rewrite Z.sub_diag. cbn [length]. split; [lia|done].
  - destruct (IH (i + 1)%Z) as [H|(u & Hr & Hu & Hl)]; [by left|].
    right. exists u. cbn [length]. split; [lia|]. split; [|done].
    replace (Z.to_nat (findTickByValue ticks label (i + 1) - i))
      with (S (Z.to_nat (findTickByValue ticks label (i + 1) - (i + 1)))) by lia.
    exact Hu.
Qed.

Lemma applySyncEvent_tooltip (opts : CategoricalChartOptions) (c : Chart)
    (syncData : Patch) (broadcast : TooltipIndex) (o : ChartOffset)
    (ticks : list TickItem) (axis : TooltipAxis) :
  p_dataStartIndex syncData = None ->
  p_dataEndIndex syncData = None ->
  p_activeTooltipIndex syncData = Some broadcast ->
  offset (chart_state c) = Some o ->
  tooltipTicks (chart_state c) = Some ticks ->
  tooltipAxis (chart_state c) = Some axis ->
  let index := syncedIndex (syncMethod (chart_props c)) ticks syncData broadcast in
  exists st' payload,
    applySyncEvent opts c syncData = Returned st' /\
    getTooltipContent (chart_state c) (data (chart_props c)) (toIndex index) PUndefined
    = Returned payload /\
    activeTooltipIndex st' = index /\
    activePayload st' = payload /\
    activeLabel st' = default PUndefined (tick_value <$> js_at ticks (toIndex index)) /\
    activeCoordinate st'
    = Some (syncedCoordinate (layout (chart_props c)) o ticks syncData (toIndex index)) /\
    derived st' = derived (chart_state c).
Proof.
  intros Hs He Hi Ho Ht Hax index.
  destruct (getTooltipContent_of_number (chart_state c) (data (chart_props c))
              (toIndex index) PUndefined axis Hax) as (payload & Hp & _).
  unfold applySyncEvent. rewrite Hs, He, Hi, Ho, Ht.
  fold (syncedIndex (syncMethod (chart_props c)) ticks syncData broadcast).
  fold index. rewrite Hp. cbn.
  eexists _, payload. split; [reflexivity|].
  split; [done|]. cbn.
  repeat split; try reflexivity.
Qed.

Lemma getTooltipData_returns (st : CategoricalChartState)
    (chartData : option (list entry)) (l : LayoutType) (rangeObj : option RangeObj)
    (axis : TooltipAxis) :
  tooltipAxis st = Some axis ->
  exists res,
    getTooltipData st chartData l rangeObj = Returned res /\
    forall t, res = Some t ->
      (0 <= td_activeTooltipIndex t)%Z /\
      td_activeTooltipIndex t
      = calculateActiveTickIndex
          (calculateTooltipPos
             (default {| r_x := chartX st; r_y := chartY st; r_angle := None;
                         r_radius := None; r_cx := None; r_cy := None |} rangeObj) l)
          (orderedTooltipTicks st) (tooltipTicks st) (tooltipAxis st).
Proof.
  intros Hax. unfold getTooltipData.
  destruct (tooltipTicks st) as [tTicks|]; [|by eexists].
  destruct (orderedTooltipTicks st) as [ticks|]; [|by eexists].
  match goal with |- context [(0 <=? ?i)%Z] => set (index := i); destruct (0 <=? index)%Z eqn:E end;
    [|by eexists].
  match goal with
  | |- context [getTooltipContent st chartData (IInt index) ?lbl] =>
      destruct (getTooltipContent_returns st chartData index lbl axis Hax) as (p & Hp & _);
      rewrite Hp
  end.
  cbn. eexists. split; [reflexivity|].
  intros t [= <-]. cbn. split; [lia|done].
Qed.

(** C3, as the code has it. The default state has the index [-1]. Pointer
    resolution yields, if anything, the tick index that
    [calculateActiveTickIndex] gives for the pointer, which is then not
    negative. A peer tooltip event stores, under the ['value'] policy, [-1]
    or an index within the receiver's tooltip ticks, under the ['index']
    policy the broadcast index unchanged and under a custom policy whatever
    the resolver returns, which need be no index at all. The payload stored
    with it is [null] whenever the stored number is below 0 or not below
    displayedDataLength, in particular for an integer outside
    [0, displayedDataLength). For a stored value that is neither, in a chart
    with series, the payload is a list: the empty one when the value names no
    array position ([undefined], [NaN], a fraction) and the tooltip axis has
    no key to look entries up by or allows duplicated categories. *)
Theorem tooltip_index_after_updates (opts : CategoricalChartOptions) (c : Chart)
    (syncData : Patch) (broadcast : TooltipIndex) (o : ChartOffset)
    (ticks : list TickItem) (axis : TooltipAxis) :
  p_dataStartIndex syncData = None ->
  p_dataEndIndex syncData = None ->
  p_activeTooltipIndex syncData = Some broadcast ->
  offset (chart_state c) = Some o ->
  tooltipTicks (chart_state c) = Some ticks ->
  tooltipAxis (chart_state c) = Some axis ->
  let displayedDataLength :=
    Z.of_nat (length (getDisplayedData (data (chart_props c))
                        (graphicalItems (chart_state c))
                        (dataStartIndex (chart_state c))
                        (dataEndIndex (chart_state c)))) in
  p_activeTooltipIndex (createDefaultState (chart_props c)) = Some (IInt (-1)) /\
  (forall l rangeObj,
     exists res,
       getTooltipData (chart_state c) (data (chart_props c)) l rangeObj = Returned res /\
       forall t, res = Some t ->
         (0 <= td_activeTooltipIndex t)%Z /\
         td_activeTooltipIndex t
         = calculateActiveTickIndex
             (calculateTooltipPos
                (default {| r_x := chartX (chart_state c); r_y := chartY (chart_state c);
                            r_angle := None; r_radius := None;
                            r_cx := None; r_cy := None |} rangeObj) l)
             (orderedTooltipTicks (chart_state c)) (tooltipTicks (chart_state c))
             (tooltipAxis (chart_state c))) /\
  exists st',
    applySyncEvent opts c syncData = Returned st' /\
    match syncMethod (chart_props c) with
    | SyncIndex => activeTooltipIndex st' = Some broadcast
    | SyncValue =>
        exists j : Z,
          activeTooltipIndex st' = Some (IInt j) /\
          (j = (-1)%Z \/ (0 <= j < Z.of_nat (length ticks))%Z)
    | SyncFn f => activeTooltipIndex st' = f (Some ticks) syncData
    end /\
    (forall j : Z,
       activeTooltipIndex st' = Some (IInt j) ->
       ~ (0 <= j < displayedDataLength)%Z ->
       activePayload st' = None) /\
    let stored := toIndex (activeTooltipIndex st') in
    (index_ltb stored 0 = true \/ index_geb stored displayedDataLength = true ->
     activePayload st' = None) /\
    (forall gis,
       graphicalItems (chart_state c) = Some gis -> gis <> [] ->
       index_ltb stored 0 = false -> index_geb stored displayedDataLength = false ->
       activePayload st' <> None /\
       (arrayIndex stored = None ->
        key_truthy (ta_dataKey axis) = None \/ ta_allowDuplicatedCategory axis = true ->
        activePayload st' = Some [])).
Proof.
  intros Hs He Hi Ho Ht Hax n. split; [reflexivity|]. split.
  - intros l rangeObj.
    destruct (getTooltipData_returns (chart_state c) (data (chart_props c)) l rangeObj
                axis Hax) as (res & Hres & Hprop).
    exists res. split; [done|]. intros t Hr. by apply Hprop.
  - destruct (applySyncEvent_tooltip opts c syncData broadcast o ticks axis
                Hs He Hi Ho Ht Hax) as (st' & payload & Hst & Hp & Hidx & Hpay & _).
    destruct (getTooltipContent_of_number (chart_state c) (data (chart_props c))
                (toIndex (syncedIndex (syncMethod (chart_props c)) ticks syncData
                            broadcast))
                PUndefined axis Hax) as (p' & Hp' & Hnone & Hlist).
    rewrite Hp in Hp'. injection Hp' as <-. fold n in Hnone, Hlist.
    exists st'. split; [done|]. rewrite Hidx, Hpay. split; [|split; [|split]].
    + unfold syncedIndex. destruct (syncMethod (chart_props c)); try reflexivity.
      eexists. split; [reflexivity|].
      destruct (findTickByValue_range ticks (default PUndefined (p_activeLabel syncData)) 0)
        as [H|(t & Hr & _)]; [by left|right; lia].
    + intros j Hj Hout. apply Hnone. rewrite Hj.
      change (toIndex (Some (IInt j))) with (IInt j). cbn [index_ltb index_geb].
      destruct (j <? 0)%Z eqn:E; [by left|right]. lia.
    + exact Hnone.
    + exact Hlist.
Qed.

(** C8, as the code has it. A receiver of a peer tooltip event recomputes
    the label, the payload and the coordinate from its own ticks, data and
    offset. Along the tooltip axis the coordinate is that of its own tick;
    across it, the raw pointer coordinate of the broadcaster capped at the
    far edge of its own plot ([left + width], [top + height]), which it
    therefore never exceeds. With no tick at the index the coordinate is the
    origin. The index is the one that the policy of the receiver gives, used
    as a number: under a custom policy the result of the resolver, [NaN]
    standing for [undefined]. *)
Theorem sync_coordinate_recomputed (opts : CategoricalChartOptions) (c : Chart)
    (syncData : Patch) (broadcast : TooltipIndex) (o : ChartOffset)
    (ticks : list TickItem) (axis : TooltipAxis) :
  p_dataStartIndex syncData = None ->
  p_dataEndIndex syncData = None ->
  p_activeTooltipIndex syncData = Some broadcast ->
  offset (chart_state c) = Some o ->
  tooltipTicks (chart_state c) = Some ticks ->
  tooltipAxis (chart_state c) = Some axis ->
  exists st' j coord payload,
    applySyncEvent opts c syncData = Returned st' /\
    toIndex (activeTooltipIndex st') = j /\
    match syncMethod (chart_props c) with
    | SyncFn f => activeTooltipIndex st' = f (Some ticks) syncData
    | _ => activeTooltipIndex st' = Some j
    end /\
    activeCoordinate st' = Some coord /\
    getTooltipContent (chart_state c) (data (chart_props c)) j PUndefined
    = Returned payload /\
    activePayload st' = payload /\
    activeLabel st' = default PUndefined (tick_value <$> js_at ticks j) /\
    match js_at ticks j with
    | Some t =>
        if bool_decide (layout (chart_props c) = Horizontal) then
          cc_x coord = Some (tick_coordinate t) /\
          cc_y coord = (fun y => Qmin y (o_top o + o_height o)) <$> p_chartY syncData /\
          forall y, cc_y coord = Some y -> y <= o_top o + o_height o
        else
          cc_x coord = (fun x => Qmin x (o_left o + o_width o)) <$> p_chartX syncData /\
          cc_y coord = Some (tick_coordinate t) /\
          forall x, cc_x coord = Some x -> x <= o_left o + o_width o
    | None => coord = originCoordinate
    end.
Proof.
  intros Hs He Hi Ho Ht Hax.
  destruct (applySyncEvent_tooltip opts c syncData broadcast o ticks axis
              Hs He Hi Ho Ht Hax) as (st' & payload & Hst & Hp & Hidx & Hpay & Hlbl & Hco & _).
  eexists st', _, _, payload.
  split; [exact Hst|]. split; [by rewrite Hidx|].
  split; [rewrite Hidx; unfold syncedIndex;
          by destruct (syncMethod (chart_props c))|].
  split; [exact Hco|].
  split; [exact Hp|]. split; [exact Hpay|]. split; [exact Hlbl|].
  unfold syncedCoordinate.
  destruct (js_at ticks _) as [t|]; [|reflexivity].
  destruct (layout (chart_props c)); cbn;
    (split; [reflexivity|split; [reflexivity|]]).
  - destruct (p_chartY syncData) as [y0|]; cbn; [|done].
    intros y [= <-]. apply Q.le_min_r.
  - destruct (p_chartX syncData) as [x0|]; cbn; [|done].
    intros x [= <-]. apply Q.le_min_r.
  - destruct (p_chartX syncData) as [x0|]; cbn; [|done].
    intros x [= <-]. apply Q.le_min_r.
  - destruct (p_chartX syncData) as [x0|]; cbn; [|done].
    intros x [= <-]. apply Q.le_min_r.
Qed.

End Properties.

Lemma degenerate_size_short_circuits_witness :
  let props :=
    Examples.chartProps (PNum 0) (PStr "100%") SyncIndex Horizontal [] [] in
  (degenerate (p_width props) \/ degenerate (p_height props)) /\
  validateWidthHeight props = false /\
  updateStateOfAxisMapsOffsetAndStackGroups (U := Model.modelUtils)
    Examples.options props (Some 0%Z) (Some 2%Z) None
  = Returned None.
Proof.
  split.
  - left. cbn. unfold Qle. cbn. lia.
  - apply (degenerate_size_short_circuits (U := Model.modelUtils)).
    left. cbn. unfold Qle. cbn. lia.
Defined.

Lemma own_message_ignored_witness :
  isFunction (syncMethod (chart_props (Examples.mounted (Examples.horizontalProps SyncValue))))
  = false /\
  handleReceiveSyncEvent (U := Model.modelUtils) Examples.options
    (Examples.mounted (Examples.horizontalProps SyncValue)) (PStr "linked")
    (Examples.hover 1 100 100) 1
  = Returned (chart_state (Examples.mounted (Examples.horizontalProps SyncValue))).
Proof.
  split; [reflexivity|].
  apply (own_message_ignored (U := Model.modelUtils) Examples.options
           (Examples.mounted (Examples.horizontalProps SyncValue))).
  reflexivity.
Defined.

Lemma tooltip_payload_by_series_witness :
  getTooltipContent (U := Model.modelUtils)
    (Examples.mountedState (Examples.horizontalProps SyncIndex))
    (Some Examples.rows) 1 (PStr "b")
  = Returned (Some [{| ti_series := Examples.series; ti_value := PNum 3;
                       ti_payload := Examples.row "b" 3 |}]).
Proof.
  refine (eq_trans
    (tooltip_payload_by_series (U := Model.modelUtils)
       (Examples.mountedState (Examples.horizontalProps SyncIndex))
       (Some Examples.rows) 1 (PStr "b") [Examples.series]
       {| ta_axisType := XAxis; ta_dataKey := Examples.nameKey;
          ta_allowDuplicatedCategory := true |} _ _ _ _) _).
  - vm_compute. reflexivity.
  - discriminate.
  - vm_compute. reflexivity.
  - vm_compute. split; [discriminate|reflexivity].
  - vm_compute. reflexivity.
Defined.

(** A series whose own data ends before the active index is not left out:
    it is given the record that the displayed data holds at that index. *)
Lemma tooltip_payload_by_series_counterexample :
  item_data Examples.shortSeries = Some [Examples.row "a" 2] /\
  js_get [Examples.row "a" 2] 1 = None /\
  tooltipAxis (Examples.mountedState Examples.ownDataProps)
  = Some {| ta_axisType := XAxis; ta_dataKey := Examples.nameKey;
            ta_allowDuplicatedCategory := true |} /\
  getTooltipContent (U := Model.modelUtils)
    (Examples.mountedState Examples.ownDataProps) None 1 (PStr "b")
  = Returned (Some [{| ti_series := Examples.shortSeries; ti_value := PNum 3;
                       ti_payload := Examples.row "b" 3 |};
                    {| ti_series := Examples.longSeries; ti_value := PNum 1;
                       ti_payload := Examples.row "c" 1 |}]).
Proof. repeat split; vm_compute; reflexivity. Qed.

Lemma pointer_outside_is_inactive_witness :
  getMouseInfo (U := Model.modelUtils) Examples.options
    (Examples.mounted (Examples.horizontalProps SyncIndex))
    {| pageX := 10; pageY := 100 |}
  = Returned None.
Proof.
  refine (proj1 (pointer_outside_is_inactive (U := Model.modelUtils) Examples.options
           (Examples.mounted (Examples.horizontalProps SyncIndex))
           {| ct_left := 10; ct_top := 20; ct_rectWidth := 400; ct_offsetWidth := 400 |}
           {| pageX := 10; pageY := 100 |} _ _)).
  - reflexivity.
  - exists {| o_brushBottom := 35; o_top := 5; o_right := 5; o_bottom := 35;
              o_left := 65; o_width := 330; o_height := 260 |}.
    split.
    + vm_compute. reflexivity.
    + intros [H _]. vm_compute in H. apply H. reflexivity.
Defined.

Lemma expand_stack_domain_witness :
  exists r,
    getAxisMapByAxes (U := Model.modelUtils) (Examples.horizontalProps SyncIndex)
      [Examples.axis OLeft TNumber None None true] [Examples.series] YAxis
      Examples.stacked (Some 0%Z) (Some 2%Z) !! "0" = Some r /\
    ar_domain r = [PNum 0; PNum 1].
Proof.
  exists (axisOfElement (U := Model.modelUtils) (Examples.horizontalProps SyncIndex)
            YAxis Examples.stacked (Some 0%Z) (Some 2%Z) [Examples.series]
            (Examples.axis OLeft TNumber None None true)).
  split; [vm_compute; reflexivity|].
  refine (proj2 (expand_stack_domain (U := Model.modelUtils)
                   (Examples.horizontalProps SyncIndex)
                   [Examples.axis OLeft TNumber None None true] [Examples.series] YAxis
                   Examples.stacked (Some 0%Z) (Some 2%Z) "0" _
                   Examples.stackOfSeries _ _ _ _ _ _ _) _ _);
    vm_compute; reflexivity.
Defined.

(** A numeric axis that reads a data key of its own keeps the extent of
    that key, stack group and [expand] notwithstanding. *)
Lemma expand_stack_domain_counterexample :
  exists r,
    getAxisMapByAxes (U := Model.modelUtils) (Examples.horizontalProps SyncIndex)
      [Examples.axis OLeft TNumber (Some (KeyName "v")) None true] [Examples.series]
      YAxis Examples.stacked (Some 0%Z) (Some 2%Z) !! "0" = Some r /\
    ax_type (ar_props r) = TNumber /\
    is_Some (stackOfAxis Examples.stacked (axisKey (ax_id (ar_props r)))) /\
    stackOffset (Examples.horizontalProps SyncIndex) = SOExpand /\
    ax_domain (ar_props r) = None /\
    ar_domain r = [PNum 0; PNum 3] /\
    ar_domain r <> [PNum 0; PNum 1].
Proof.
  eexists. split; [vm_compute; reflexivity|].
  repeat split; try (vm_compute; reflexivity).
  - vm_compute. eauto.
  - vm_compute. discriminate.
Qed.

Lemma category_domain_witness :
  (exists r,
     getAxisMapByAxes (U := Model.modelUtils) (Examples.horizontalProps SyncIndex)
       [Examples.axis OBottom TCategory Examples.nameKey None true] [Examples.series]
       XAxis None (Some 0%Z) (Some 2%Z) !! "0" = Some r /\
     ar_domain r = [PNum 0; PNum 1; PNum 2] /\
     ar_duplicateDomain r = Some [PStr "a"; PStr "b"; PStr "a"]) /\
  (exists r,
     getAxisMapByAxes (U := Model.modelUtils) (Examples.horizontalProps SyncIndex)
       [Examples.axis OBottom TCategory Examples.nameKey None false] [Examples.series]
       XAxis None (Some 0%Z) (Some 2%Z) !! "0" = Some r /\
     ar_domain r = [PStr "a"; PStr "b"]).
Proof.
  split.
  - exists (axisOfElement (U := Model.modelUtils) (Examples.horizontalProps SyncIndex)
              XAxis None (Some 0%Z) (Some 2%Z) [Examples.series]
              (Examples.axis OBottom TCategory Examples.nameKey None true)).
    split; [vm_compute; reflexivity|].
    refine (proj1 (category_domain (U := Model.modelUtils)
                     (Examples.horizontalProps SyncIndex)
                     [Examples.axis OBottom TCategory Examples.nameKey None true]
                     [Examples.series] XAxis None (Some 0%Z) (Some 2%Z) "0" _
                     _ _ _ _ _ _) _ _);
      try (vm_compute; reflexivity).
    vm_compute. discriminate.
  - exists (axisOfElement (U := Model.modelUtils) (Examples.horizontalProps SyncIndex)
              XAxis None (Some 0%Z) (Some 2%Z) [Examples.series]
              (Examples.axis OBottom TCategory Examples.nameKey None false)).
    split; [vm_compute; reflexivity|].
    refine (eq_trans
              (proj1 (proj2 (category_domain (U := Model.modelUtils)
                       (Examples.horizontalProps SyncIndex)
                       [Examples.axis OBottom TCategory Examples.nameKey None false]
                       [Examples.series] XAxis None (Some 0%Z) (Some 2%Z) "0" _
                       _ _ _ _ _ _) _)) _);
      try (vm_compute; reflexivity).
    vm_compute. discriminate.
Defined.

(** A category domain given by the user stands for the index range, whether
    the short-circuit adopts it at once or the computed range is replaced by
    it at the end. *)
Lemma category_domain_counterexample :
  Model.hasDuplicate
    (Model.getDomainOfDataByKey Examples.rows Examples.nameKey TCategory) = true /\
  length Examples.rows = 3%nat /\
  ar_domain <$>
    (getAxisMapByAxes (U := Model.modelUtils) (Examples.horizontalProps SyncIndex)
       [Examples.userAxis] [Examples.series] XAxis None (Some 0%Z) (Some 2%Z) !! "0")
  = Some [PNum 0; PNum 1; PNum 2; PNum 3] /\
  ar_domain <$>
    (getAxisMapByAxes (U := Model.strictUtils) (Examples.horizontalProps SyncIndex)
       [Examples.userAxis] [Examples.series] XAxis None (Some 0%Z) (Some 2%Z) !! "0")
  = Some [PNum 0; PNum 1; PNum 2; PNum 3] /\
  ar_domain <$>
    (getAxisMapByAxes (U := Model.modelUtils) (Examples.horizontalProps SyncIndex)
       [Examples.userAxis] [Examples.series] XAxis None (Some 0%Z) (Some 2%Z) !! "0")
  <> Some (range0 3) /\
  ar_domain <$>
    (getAxisMapByAxes (U := Model.strictUtils) (Examples.horizontalProps SyncIndex)
       [Examples.userAxis] [Examples.series] XAxis None (Some 0%Z) (Some 2%Z) !! "0")
  <> Some (range0 3).
Proof.
  repeat split; try (vm_compute; reflexivity); vm_compute; discriminate.
Qed.

Lemma tooltip_index_after_updates_witness :
  (exists st',
     applySyncEvent (U := Model.modelUtils) Examples.options
       (Examples.mounted (Examples.horizontalProps SyncValue)) (Examples.hover 0 100 100)
     = Returned st' /\
     activeTooltipIndex st' = Some (IInt 1%Z) /\
     activeLabel st' = PStr "b" /\
     activePayload st' <> None) /\
  (exists st',
     applySyncEvent (U := Model.modelUtils) Examples.options
       (Examples.mounted (Examples.horizontalProps (SyncFn (fun _ _ => None))))
       (Examples.hover 1 100 100)
     = Returned st' /\
     activeTooltipIndex st' = None /\
     activePayload st' = Some []).
Proof.
  split.
  - edestruct (tooltip_index_after_updates (U := Model.modelUtils) Examples.options
                 (Examples.mounted (Examples.horizontalProps SyncValue))
                 (Examples.hover 0 100 100) (IInt 0%Z))
      as (_ & _ & st' & Hst & (j & Hj & Hrange) & _ & _ & Hlist);
      try (vm_compute; reflexivity).
    exists st'. split; [exact Hst|].
    eassert (Hc : applySyncEvent (U := Model.modelUtils) Examples.options
                    (Examples.mounted (Examples.horizontalProps SyncValue))
                    (Examples.hover 0 100 100) = Returned _)
      by (vm_compute; reflexivity).
    rewrite Hc in Hst. injection Hst as <-.
    split; [vm_compute; reflexivity|]. split; [vm_compute; reflexivity|].
    refine (proj1 (Hlist [Examples.series] _ _ _ _)); try (vm_compute; reflexivity).
    discriminate.
  - edestruct (tooltip_index_after_updates (U := Model.modelUtils) Examples.options
                 (Examples.mounted (Examples.horizontalProps (SyncFn (fun _ _ => None))))
                 (Examples.hover 1 100 100) (IInt 1%Z))
      as (_ & _ & st' & Hst & Hidx & _ & _ & Hlist);
      try (vm_compute; reflexivity).
    exists st'. split; [exact Hst|]. split; [exact Hidx|].
    cbn zeta in Hlist. rewrite Hidx in Hlist.
    refine (proj2 (Hlist [Examples.series] _ _ _ _) _ _); try (vm_compute; reflexivity).
    + discriminate.
    + right. reflexivity.
Defined.

(** Under the ['index'] policy a receiver with three displayed records
    stores the index [7] of its peer. *)
Lemma tooltip_index_after_updates_counterexample :
  exists st',
    handleReceiveSyncEvent (U := Model.modelUtils) Examples.options
      (Examples.mounted (Examples.horizontalProps SyncIndex)) (PStr "linked")
      (Examples.hover 7 100 100) 2
    = Returned st' /\
    activeTooltipIndex st' = Some (IInt 7) /\
    length (getDisplayedData (data (Examples.horizontalProps SyncIndex))
              (graphicalItems st') (dataStartIndex st') (dataEndIndex st')) = 3%nat /\
    ~ (7 = -1 \/ 0 <= 7 < 3)%Z.
Proof.
  eexists. split; [vm_compute; reflexivity|].
  split; [reflexivity|]. split; [vm_compute; reflexivity|]. lia.
Qed.

Lemma sync_coordinate_recomputed_witness :
  exists st' coord,
    applySyncEvent (U := Model.modelUtils) Examples.options
      (Examples.mounted (Examples.verticalProps SyncIndex)) (Examples.hover 1 1000 100)
    = Returned st' /\
    activeCoordinate st' = Some coord /\
    forall x, cc_x coord = Some x -> x <= 65 + 330.
Proof.
  edestruct (sync_coordinate_recomputed (U := Model.modelUtils) Examples.options
               (Examples.mounted (Examples.verticalProps SyncIndex))
               (Examples.hover 1 1000 100) (IInt 1))
    as (st' & j & coord & payload & Hst & Hj & _ & Hco & _ & _ & _ & Hm);
    try (vm_compute; reflexivity).
  exists st', coord. split; [exact Hst|]. split; [exact Hco|].
  assert (Ej : j = IInt 1).
  { eassert (Hc : applySyncEvent (U := Model.modelUtils) Examples.options
                    (Examples.mounted (Examples.verticalProps SyncIndex))
                    (Examples.hover 1 1000 100) = Returned _)
      by (vm_compute; reflexivity).
    rewrite Hc in Hst. injection Hst as <-. vm_compute in Hj. congruence. }
  rewrite Ej in Hm. exact (proj2 (proj2 Hm)).
Defined.

(** A pointer that the broadcaster saw at x = 10 stays at x = 10 on a
    receiver whose plot begins at x = 65. *)
Lemma sync_coordinate_recomputed_counterexample :
  exists st' coord x y o,
    handleReceiveSyncEvent (U := Model.modelUtils) Examples.options
      (Examples.mounted (Examples.verticalProps SyncIndex)) (PStr "linked")
      (Examples.hover 1 10 100) 2
    = Returned st' /\
    activeCoordinate st' = Some coord /\
    cc_x coord = Some x /\ cc_y coord = Some y /\
    offset (chart_state (Examples.mounted (Examples.verticalProps SyncIndex))) = Some o /\
    x < o_left o /\
    ~ insidePlot o x y.
Proof.
  eexists _, _, _, _, _. split; [vm_compute; reflexivity|].
  split; [reflexivity|]. split; [reflexivity|]. split; [reflexivity|].
  split; [vm_compute; reflexivity|].
  split; [reflexivity|].
  intros [H _]. vm_compute in H. apply H. reflexivity.
Qed.

(** * Properties of the further code *)

(** ** Doubles *)

(** Powers of two. *)
Lemma pow2_pos (e : Z) : 0 < 2 ^ e.
Proof. by apply Qpower_0_lt. Qed.

Lemma pow2_le (a b : Z) : (a <= b)%Z -> 2 ^ a <= 2 ^ b.
Proof. intros H. by apply Qpower_le_compat_l. Qed.

Lemma pow2_lt (a b : Z) : (a < b)%Z -> 2 ^ a < 2 ^ b.
Proof. intros H. by apply Qpower_lt_compat_l. Qed.

Lemma pow2_lt_inv (a b : Z) : 2 ^ a < 2 ^ b -> (a < b)%Z.
Proof. intros H. by apply (Qpower_lt_compat_l_inv 2). Qed.

Lemma pow2_add (a b : Z) : 2 ^ (a + b) == 2 ^ a * 2 ^ b.
Proof. by apply Qpower_plus. Qed.

Lemma pow2_Z (n : Z) : (0 <= n)%Z -> 2 ^ n == inject_Z (2 ^ n).
Proof. intros H. symmetry. exact (Zpower_Qpower 2 n H). Qed.

Lemma pow2_sub (a b : Z) : 2 ^ (a - b) * 2 ^ b == 2 ^ a.
Proof.
  rewrite <- pow2_add. by replace (a - b + b)%Z with a by lia.
Qed.

(** The magnitude of a number other than 0. *)
Lemma Qabs_num_den (x : Q) :
  Qabs x * inject_Z (Zpos (Qden x)) == inject_Z (Z.abs (Qnum x)).
Proof.
  destruct x as [n d]. unfold Qabs, Qeq, Qmult, inject_Z. cbn. lia.
Qed.

Lemma magnitude_spec (x : Q) :
  ~ x == 0 -> 2 ^ magnitude x <= Qabs x /\ Qabs x < 2 ^ (magnitude x + 1).
Proof.
  intros Hx. unfold magnitude.
  set (p := Z.abs (Qnum x)). set (q := Zpos (Qden x)).
  set (d := (Z.log2 p - Z.log2 q)%Z).
  assert (Hp : (0 < p)%Z).
  { subst p. destruct x as [n dd]. unfold Qeq in Hx. cbn in *. lia. }
  assert (Hq : (0 < q)%Z) by (subst q; lia).
  pose proof (Qabs_num_den x) as E. fold p q in E.
  destruct (Z.log2_spec p Hp) as [Hp1 Hp2]. destruct (Z.log2_spec q Hq) as [Hq1 Hq2].
  pose proof (Z.log2_nonneg p) as Lp. pose proof (Z.log2_nonneg q) as Lq.
  assert (Hp1' : 2 ^ Z.log2 p <= inject_Z p).
  { rewrite pow2_Z by done. by rewrite <- Zle_Qle. }
  assert (Hp2' : inject_Z p < 2 ^ (Z.log2 p + 1)).
  { rewrite pow2_Z by lia. rewrite <- Zlt_Qlt. by rewrite <- Z.add_1_r in Hp2. }
  assert (Hq1' : 2 ^ Z.log2 q <= inject_Z q).
  { rewrite pow2_Z by done. by rewrite <- Zle_Qle. }
  assert (Hq2' : inject_Z q < 2 ^ (Z.log2 q + 1)).
  { rewrite pow2_Z by lia. rewrite <- Zlt_Qlt. by rewrite <- Z.add_1_r in Hq2. }
  assert (Q0 : 0 < inject_Z q) by (by rewrite (Zlt_Qlt 0 q) in Hq).
  assert (Hup : Qabs x < 2 ^ (d + 1)).
  { apply (Qmult_lt_r _ _ (inject_Z q)); [done|]. rewrite E.
    eapply Qlt_le_trans; [exact Hp2'|].
    replace (Z.log2 p + 1)%Z with ((d + 1) + Z.log2 q)%Z by (subst d; lia).
    rewrite pow2_add. apply Qmult_le_l; [apply pow2_pos | done]. }
  assert (Hlo : 2 ^ (d - 1) < Qabs x).
  { apply (Qmult_lt_r _ _ (inject_Z q)); [done|]. rewrite E.
    eapply Qlt_le_trans; [|exact Hp1'].
    replace (Z.log2 p) with ((d - 1) + (Z.log2 q + 1))%Z by (subst d; lia).
    rewrite pow2_add. apply Qmult_lt_l; [apply pow2_pos | done]. }
  destruct (Qle_bool (2 ^ d) (Qabs x)) eqn:B.
  - apply Qle_bool_iff in B. by split.
  - split; [by apply Qlt_le_weak|].
    replace (d - 1 + 1)%Z with d by lia.
    apply Qnot_le_lt. intros H. apply Qle_bool_iff in H. congruence.
Qed.

Lemma magnitude_unique (x : Q) (e : Z) :
  2 ^ e <= Qabs x -> Qabs x < 2 ^ (e + 1) -> magnitude x = e.
Proof.
  intros H1 H2.
  assert (Hx : ~ x == 0).
  { intros E. rewrite E in H1. change (Qabs 0) with 0 in H1.
    apply (Qlt_not_le _ _ (pow2_pos e)), H1. }
  destruct (magnitude_spec x Hx) as [M1 M2].
  assert ((magnitude x < e + 1)%Z)
    by (apply pow2_lt_inv; eapply Qle_lt_trans; [exact M1 | exact H2]).
  assert ((e < magnitude x + 1)%Z)
    by (apply pow2_lt_inv; eapply Qle_lt_trans; [exact H1 | exact M2]).
  lia.
Qed.

(** Rounding to the nearest integer. *)
Lemma Qfloor_unique (x : Q) (n : Z) :
  inject_Z n <= x -> x < inject_Z (n + 1) -> Qfloor x = n.
Proof.
  intros H1 H2. pose proof (Qfloor_le x) as F1. pose proof (Qlt_floor x) as F2.
  assert ((n < Qfloor x + 1)%Z) by (rewrite Zlt_Qlt; lra).
  assert ((Qfloor x < n + 1)%Z) by (rewrite Zlt_Qlt; lra).
  lia.
Qed.

Lemma roundHalfEven_comp (a b : Q) : a == b -> roundHalfEven a = roundHalfEven b.
Proof.
  intros E. unfold roundHalfEven. rewrite (Qfloor_comp a b E).
  assert (E' : a - inject_Z (Qfloor b) == b - inject_Z (Qfloor b)) by (by rewrite E).
  by rewrite (Qcompare_comp _ _ E' (1 # 2) (1 # 2) (Qeq_refl _)).
Qed.

Lemma roundHalfEven_Z (n : Z) : roundHalfEven (inject_Z n) = n.
Proof.
  unfold roundHalfEven. rewrite Qfloor_Z.
  assert (E : inject_Z n - inject_Z n == 0) by ring.
  by rewrite (Qcompare_comp _ _ E (1 # 2) (1 # 2) (Qeq_refl _)).
Qed.

Lemma roundHalfEven_near (x : Q) :
  (Qfloor x <= roundHalfEven x <= Qfloor x + 1)%Z.
Proof.
  unfold roundHalfEven. destruct (Qcompare _ _); [destruct (Z.even _)| |]; lia.
Qed.

Lemma roundHalfEven_mono (a b : Q) : a <= b -> (roundHalfEven a <= roundHalfEven b)%Z.
Proof.
  intros H. pose proof (Qfloor_resp_le a b H) as F.
  destruct (Z.eq_dec (Qfloor a) (Qfloor b)) as [E|N].
  - unfold roundHalfEven. rewrite E.
    destruct (Qcompare_spec (a - inject_Z (Qfloor b)) (1 # 2)) as [Ea|La|Ga],
             (Qcompare_spec (b - inject_Z (Qfloor b)) (1 # 2)) as [Eb|Lb|Gb];
      try lia; try lra; destruct (Z.even (Qfloor b)); lia.
  - pose proof (roundHalfEven_near a). pose proof (roundHalfEven_near b). lia.
Qed.

Lemma roundHalfEven_opp (a : Q) : roundHalfEven (- a) = (- roundHalfEven a)%Z.
Proof.
  pose proof (Qfloor_le a) as F1. pose proof (Qlt_floor a) as F2.
  set (f := Qfloor a) in *.
  destruct (Qeq_dec a (inject_Z f)) as [E|N].
  - assert (E' : - a == inject_Z (- f)) by (rewrite inject_Z_opp; by rewrite E).
    rewrite (roundHalfEven_comp _ _ E'), (roundHalfEven_comp _ _ E).
    by rewrite !roundHalfEven_Z.
  - assert (F : Qfloor (- a) = (- f - 1)%Z).
    { apply Qfloor_unique.
      - unfold Z.sub. rewrite inject_Z_plus, !inject_Z_opp.
        rewrite inject_Z_plus in F2. change (inject_Z 1) with 1 in *. lra.
      - replace (- f - 1 + 1)%Z with (- f)%Z by lia. rewrite inject_Z_opp.
        assert (inject_Z f < a) by (apply Qle_lt_or_eq in F1 as [?|E]; [done|];
                                     exfalso; apply N; by rewrite E).
        lra. }
    unfold roundHalfEven. rewrite F. fold f.
    assert (R : - a - inject_Z (- f - 1) == 1 - (a - inject_Z f)).
    { unfold Z.sub. rewrite inject_Z_plus, !inject_Z_opp.
      change (inject_Z 1) with 1. ring. }
    rewrite (Qcompare_comp _ _ R (1 # 2) (1 # 2) (Qeq_refl _)).
    destruct (Qcompare_spec (a - inject_Z f) (1 # 2)) as [Ea|La|Ga],
             (Qcompare_spec (1 - (a - inject_Z f)) (1 # 2)) as [Eb|Lb|Gb];
      try lia; try lra.
    replace (- f - 1)%Z with (- (f + 1))%Z by lia.
    rewrite Z.even_opp, Z.even_add. cbn.
    destruct (Z.even f); cbn; lia.
Qed.

Lemma roundHalfEven_le (a : Q) (n : Z) : a <= inject_Z n -> (roundHalfEven a <= n)%Z.
Proof. intros H. rewrite <- (roundHalfEven_Z n). by apply roundHalfEven_mono. Qed.

Lemma roundHalfEven_ge (a : Q) (n : Z) : inject_Z n <= a -> (n <= roundHalfEven a)%Z.
Proof. intros H. rewrite <- (roundHalfEven_Z n) at 1. by apply roundHalfEven_mono. Qed.

(** The rounding of a real number to a double. *)
Lemma fl_unfold (x : Q) :
  fl x = inject_Z (roundHalfEven (x / 2 ^ exponent x)) * 2 ^ exponent x.
Proof. reflexivity. Qed.

Lemma scaled_eq (x : Q) (e : Z) : x / 2 ^ e * 2 ^ e == x.
Proof. field. apply Qpower_not_0. discriminate. Qed.

Lemma magnitude_comp (x y : Q) : x == y -> ~ x == 0 -> magnitude x = magnitude y.
Proof.
  intros E Hx. destruct (magnitude_spec x Hx) as [M1 M2].
  symmetry. apply magnitude_unique; by rewrite <- E.
Qed.

Lemma fl_0 (x : Q) : x == 0 -> fl x == 0.
Proof.
  intros E. rewrite fl_unfold. generalize (exponent x). intros e.
  assert (E' : x / 2 ^ e == inject_Z 0) by (rewrite E; unfold Qdiv; ring).
  rewrite (roundHalfEven_comp _ _ E'), roundHalfEven_Z. ring.
Qed.

#[global] Instance fl_comp : Proper (Qeq ==> Qeq) fl.
Proof.
  intros x y E. destruct (Qeq_dec x 0) as [Z0|N].
  - rewrite (fl_0 x Z0), (fl_0 y); [reflexivity|].
    eapply Qeq_trans; [symmetry; exact E | exact Z0].
  - rewrite !fl_unfold. unfold exponent. rewrite <- (magnitude_comp x y E N).
    generalize (Z.max (magnitude x - 52) (-1074)). intros e.
    assert (E' : x / 2 ^ e == y / 2 ^ e) by (by rewrite E).
    by rewrite (roundHalfEven_comp _ _ E').
Qed.

Lemma magnitude_opp (x : Q) : magnitude (- x) = magnitude x.
Proof.
  unfold magnitude.
  change (Qnum (- x)) with (- Qnum x)%Z. change (Qden (- x)) with (Qden x).
  rewrite Z.abs_opp.
  set (k := (Z.log2 (Z.abs (Qnum x)) - Z.log2 (Z.pos (Qden x)))%Z).
  assert (E : Qle_bool (2 ^ k) (Qabs (- x)) = Qle_bool (2 ^ k) (Qabs x)).
  { apply eq_true_iff_eq. rewrite !Qle_bool_iff. by rewrite Qabs_opp. }
  by rewrite E.
Qed.

Lemma fl_opp (x : Q) : fl (- x) == - fl x.
Proof.
  rewrite !fl_unfold. unfold exponent. rewrite magnitude_opp.
  set (e := Z.max _ _).
  assert (E : - x / 2 ^ e == - (x / 2 ^ e)) by (unfold Qdiv; ring).
  rewrite (roundHalfEven_comp _ _ E), roundHalfEven_opp, inject_Z_opp. ring.
Qed.

Lemma fl_nonneg (x : Q) : 0 <= x -> 0 <= fl x.
Proof.
  intros H. rewrite fl_unfold. set (e := exponent x).
  pose proof (pow2_pos e) as P.
  apply Qmult_le_0_compat; [|lra].
  change 0 with (inject_Z 0). rewrite <- Zle_Qle. apply roundHalfEven_ge.
  change (inject_Z 0) with 0. apply Qle_shift_div_l; [done|]. lra.
Qed.

Lemma fl_nonpos (x : Q) : x <= 0 -> fl x <= 0.
Proof.
  intros H. assert (H' : 0 <= - x) by lra. apply fl_nonneg in H'.
  rewrite fl_opp in H'. lra.
Qed.

Lemma fl_mono_pos (x y : Q) : 0 < x -> x <= y -> fl x <= fl y.
Proof.
  intros Hx Hxy.
  assert (Nx : ~ x == 0) by lra. assert (Ny : ~ y == 0) by lra.
  destruct (magnitude_spec x Nx) as [X1 X2]. destruct (magnitude_spec y Ny) as [Y1 Y2].
  rewrite Qabs_pos in X1, X2 by lra. rewrite Qabs_pos in Y1, Y2 by lra.
  assert (Hm : (magnitude x <= magnitude y)%Z).
  { assert ((magnitude x < magnitude y + 1)%Z); [|lia].
    apply pow2_lt_inv. lra. }
  rewrite !fl_unfold. unfold exponent.
  set (mx := magnitude x) in *. set (my := magnitude y) in *.
  destruct (Z.eq_dec (Z.max (mx - 52) (-1074)) (Z.max (my - 52) (-1074))) as [E|N].
  - rewrite <- E. set (e := Z.max _ _). pose proof (pow2_pos e) as P.
    apply Qmult_le_r; [done|]. rewrite <- Zle_Qle. apply roundHalfEven_mono.
    apply Qmult_le_r with (z := 2 ^ e); [done|]. by rewrite !scaled_eq.
  - set (ex := Z.max (mx - 52) (-1074)) in *.
    assert (Ey : Z.max (my - 52) (-1074) = (my - 52)%Z) by lia. rewrite Ey.
    assert (Hex : (ex <= my - 53)%Z) by lia.
    pose proof (pow2_pos ex) as Px. pose proof (pow2_pos (my - 52)) as Py.
    apply Qle_trans with (2 ^ my).
    + (* the smaller number does not round above the power of two *)
      assert (B : (roundHalfEven (x / 2 ^ ex) <= 2 ^ (my - ex))%Z).
      { apply roundHalfEven_le. rewrite <- pow2_Z by lia.
        apply Qmult_le_r with (z := 2 ^ ex); [done|].
        rewrite scaled_eq, pow2_sub.
        apply Qle_trans with (2 ^ (mx + 1)); [lra|]. apply pow2_le. lia. }
      rewrite Zle_Qle in B. rewrite <- pow2_Z in B by lia.
      rewrite <- (pow2_sub my ex). by apply Qmult_le_r.
    + assert (B : (2 ^ 52 <= roundHalfEven (y / 2 ^ (my - 52)))%Z).
      { apply roundHalfEven_ge. rewrite <- pow2_Z by lia.
        apply Qmult_le_r with (z := 2 ^ (my - 52)); [done|].
        rewrite scaled_eq, <- pow2_add.
        replace (52 + (my - 52))%Z with my by lia. done. }
      rewrite Zle_Qle in B. rewrite <- pow2_Z in B by lia.
      replace my with (52 + (my - 52))%Z at 1 by lia. rewrite pow2_add.
      by apply Qmult_le_r.
Qed.

Lemma fl_mono (x y : Q) : x <= y -> fl x <= fl y.
Proof.
  intros H. destruct (Qlt_le_dec 0 x) as [Hx|Hx]; [by apply fl_mono_pos|].
  destruct (Qlt_le_dec y 0) as [Hy|Hy].
  - assert (H' : fl (- y) <= fl (- x)) by (apply fl_mono_pos; lra).
    rewrite !fl_opp in H'. lra.
  - pose proof (fl_nonpos x Hx). pose proof (fl_nonneg y Hy). lra.
Qed.

(** The whole numbers below [2^53] in magnitude are doubles. *)
Lemma fl_int_pos (n : Z) : (0 < n < 2 ^ 53)%Z -> fl (inject_Z n) == inject_Z n.
Proof.
  intros [H0 H1].
  assert (P0 : 0 < inject_Z n) by (by rewrite (Zlt_Qlt 0 n) in H0).
  assert (N : ~ inject_Z n == 0) by lra.
  destruct (magnitude_spec _ N) as [M1 M2]. rewrite Qabs_pos in M1, M2 by lra.
  set (m := magnitude (inject_Z n)) in *.
  assert (Hm1 : (m < 53)%Z).
  { apply pow2_lt_inv. eapply Qle_lt_trans; [exact M1|].
    rewrite (pow2_Z 53) by lia. by rewrite <- Zlt_Qlt. }
  assert (Hm0 : (0 <= m)%Z).
  { assert ((0 < m + 1)%Z); [|lia]. apply pow2_lt_inv.
    eapply Qle_lt_trans; [|exact M2]. rewrite (pow2_Z 0) by lia.
    rewrite <- Zle_Qle. change (2 ^ 0)%Z with 1%Z. lia. }
  rewrite fl_unfold. unfold exponent. fold m.
  replace (Z.max (m - 52) (-1074)) with (- (52 - m))%Z by lia.
  set (k := (52 - m)%Z).
  assert (E : inject_Z n / 2 ^ (- k) == inject_Z (n * 2 ^ k)).
  { rewrite Qpower_opp, inject_Z_mult, <- pow2_Z by lia.
    field. apply Qpower_not_0. discriminate. }
  rewrite (roundHalfEven_comp _ _ E), roundHalfEven_Z.
  rewrite inject_Z_mult, <- pow2_Z by lia.
  rewrite Qpower_opp. field. apply Qpower_not_0. discriminate.
Qed.

Lemma fl_int (n : Z) : (Z.abs n < 2 ^ 53)%Z -> fl (inject_Z n) == inject_Z n.
Proof.
  intros H. destruct (Z.lt_trichotomy n 0) as [L|[->|G]].
  - assert (E : inject_Z n == - inject_Z (- n)) by (rewrite inject_Z_opp; ring).
    rewrite E, fl_opp, fl_int_pos; [reflexivity | lia].
  - by apply fl_0.
  - apply fl_int_pos. lia.
Qed.

(** ** Rectangles *)

Lemma Qabs_fl (d : Q) : Qabs (fl d) == fl (Qabs d).
Proof.
  destruct (Qlt_le_dec d 0) as [H|H].
  - assert (H' : d <= 0) by lra. pose proof (fl_nonpos d H').
    rewrite (Qabs_neg d) by done. rewrite Qabs_neg by done. by rewrite fl_opp.
  - pose proof (fl_nonneg d H). rewrite (Qabs_pos d) by done. by rewrite Qabs_pos.
Qed.

(** X1. The box of two points has a width and a height that are not
    negative and are the rounded distances of the coordinates, so that it
    does not depend on the order of the points; its corner is at the smaller
    coordinate of the two points on each axis; and a point twice gives an
    empty box. The corner plus the width need not reach the larger
    coordinate: for the doubles nearest to 0.2 and 0.9 it stays below. *)
Theorem rectWithPoints_normalised (p1 p2 : Q * Q) :
  let r := CartesianUtils.rectWithPoints p1 p2 in
  let r' := CartesianUtils.rectWithPoints p2 p1 in
  (0 <= CartesianUtils.rect_width r /\ 0 <= CartesianUtils.rect_height r) /\
  (CartesianUtils.rect_width r == fl (Qabs (p2.1 - p1.1)) /\
   CartesianUtils.rect_height r == fl (Qabs (p2.2 - p1.2))) /\
  (CartesianUtils.rect_x r == CartesianUtils.rect_x r' /\
   CartesianUtils.rect_y r == CartesianUtils.rect_y r' /\
   CartesianUtils.rect_width r == CartesianUtils.rect_width r' /\
   CartesianUtils.rect_height r == CartesianUtils.rect_height r') /\
  (CartesianUtils.rect_x r <= p1.1 /\ CartesianUtils.rect_x r <= p2.1 /\
   (CartesianUtils.rect_x r == p1.1 \/ CartesianUtils.rect_x r == p2.1)) /\
  (CartesianUtils.rect_y r <= p1.2 /\ CartesianUtils.rect_y r <= p2.2 /\
   (CartesianUtils.rect_y r == p1.2 \/ CartesianUtils.rect_y r == p2.2)) /\
  (p1.1 == p2.1 -> CartesianUtils.rect_width r == 0) /\
  (p1.2 == p2.2 -> CartesianUtils.rect_height r == 0) /\
  let q := CartesianUtils.rectWithPoints (fl (2 # 10), 0) (fl (9 # 10), 0) in
  fl (CartesianUtils.rect_x q + CartesianUtils.rect_width q) < fl (9 # 10).
Proof.
  destruct p1 as [x1 y1], p2 as [x2 y2]. cbn [CartesianUtils.rectWithPoints
    CartesianUtils.rect_x CartesianUtils.rect_y CartesianUtils.rect_width
    CartesianUtils.rect_height fst snd].
  assert (A : forall a b,
             0 <= Qabs (fl (b - a)) /\
             Qabs (fl (b - a)) == fl (Qabs (b - a)) /\
             Qmin a b == Qmin b a /\
             Qabs (fl (b - a)) == Qabs (fl (a - b)) /\
             (Qmin a b <= a /\ Qmin a b <= b /\ (Qmin a b == a \/ Qmin a b == b)) /\
             (a == b -> Qabs (fl (b - a)) == 0)).
  { intros a b. split; [apply Qabs_nonneg|]. split; [apply Qabs_fl|].
    split; [apply Q.min_comm|]. split; [|split].
    - assert (E : b - a == - (a - b)) by ring.
      by rewrite E, fl_opp, Qabs_opp.
    - destruct (Q.min_spec a b) as [[? E]|[? E]]; rewrite E;
        (split; [lra|split; [lra|]]); [by left | by right].
    - intros E. assert (E0 : b - a == 0) by lra. by rewrite (fl_0 _ E0). }
  destruct (A x1 x2) as (? & ? & ? & ? & ? & ?).
  destruct (A y1 y2) as (? & ? & ? & ? & ? & ?).
  repeat (split; [done|]). vm_compute. reflexivity.
Qed.

(** ** Angles *)

Lemma truncate_comp (a b : Q) :
  a == b -> CartesianUtils.truncate a = CartesianUtils.truncate b.
Proof.
  intros E. unfold CartesianUtils.truncate.
  assert (B : Qle_bool 0 a = Qle_bool 0 b).
  { apply eq_true_iff_eq. rewrite !Qle_bool_iff. by rewrite E. }
  by rewrite B, (Qfloor_comp _ _ E), (Qceiling_comp _ _ E).
Qed.

#[global] Instance js_rem_comp : Proper (Qeq ==> Qeq ==> Qeq) CartesianUtils.js_rem.
Proof.
  intros a b E n m F. unfold CartesianUtils.js_rem.
  assert (D : a / n == b / m) by (by rewrite E, F).
  by rewrite (truncate_comp _ _ D), E, F.
Qed.

Lemma js_rem_multiple (a n : Q) :
  exists k : Z, CartesianUtils.js_rem a n == a - n * inject_Z k.
Proof. by exists (CartesianUtils.truncate (a / n)). Qed.

Lemma js_rem_of_nonneg (a n : Q) :
  0 < n -> 0 <= a ->
  0 <= CartesianUtils.js_rem a n /\ CartesianUtils.js_rem a n < n.
Proof.
  intros Hn Ha. unfold CartesianUtils.js_rem, CartesianUtils.truncate.
  assert (Hq : n * (a / n) == a) by (apply Qmult_div_r; lra).
  assert (H0 : 0 <= a / n) by (apply Qle_shift_div_l; lra).
  apply Qle_bool_iff in H0 as Hb. rewrite Hb.
  pose proof (Qfloor_le (a / n)) as Hl.
  pose proof (Qlt_floor (a / n)) as Hu.
  rewrite inject_Z_plus in Hu. change (inject_Z 1) with 1 in Hu.
  set (f := inject_Z (Qfloor (a / n))) in *. set (q := a / n) in *.
  split; nra.
Qed.

Lemma js_rem_of_nonpos (a n : Q) :
  0 < n -> a <= 0 ->
  - n < CartesianUtils.js_rem a n /\ CartesianUtils.js_rem a n <= 0.
Proof.
  intros Hn Ha. unfold CartesianUtils.js_rem, CartesianUtils.truncate.
  assert (Hq : n * (a / n) == a) by (apply Qmult_div_r; lra).
  assert (H0 : a / n <= 0) by (apply Qle_shift_div_r; lra).
  destruct (Qle_bool 0 (a / n)) eqn:Hb.
  - apply Qle_bool_iff in Hb.
    pose proof (Qfloor_le (a / n)) as Hl.
    pose proof (Qlt_floor (a / n)) as Hu.
    assert (Hf : Qfloor (a / n) = 0%Z).
    { assert (inject_Z (Qfloor (a / n)) <= inject_Z 0) as H1
        by (change (inject_Z 0) with 0; lra).
      assert (inject_Z (-1) < inject_Z (Qfloor (a / n))) as H2.
      { rewrite inject_Z_plus in Hu. change (inject_Z 1) with 1 in Hu.
        change (inject_Z (-1)) with (-1). lra. }
      rewrite <- Zle_Qle in H1. rewrite <- Zlt_Qlt in H2. lia. }
    rewrite Hf. change (inject_Z 0) with 0. split; nra.
  - pose proof (Qle_ceiling (a / n)) as Hl.
    pose proof (Qceiling_lt (a / n)) as Hu.
    unfold Z.sub in Hu. rewrite inject_Z_plus, inject_Z_opp in Hu.
    change (inject_Z 1) with 1 in Hu.
    set (f := inject_Z (Qceiling (a / n))) in *. set (q := a / n) in *.
    assert (0 <= n * (f - q)) by (apply Qmult_le_0_compat; lra).
    assert (n * (f - q) < n * 1) by (apply Qmult_lt_l; lra).
    split; lra.
Qed.

Lemma normalizeAngle_range (angle : Q) :
  0 <= CartesianUtils.normalizeAngle angle /\ CartesianUtils.normalizeAngle angle < 180.
Proof.
  unfold CartesianUtils.normalizeAngle.
  assert (H : -180 < CartesianUtils.js_rem angle 180 /\
              CartesianUtils.js_rem angle 180 < 180).
  { destruct (Qlt_le_dec angle 0) as [Hneg|Hpos].
    - destruct (js_rem_of_nonpos angle 180) as [? ?]; lra.
    - destruct (js_rem_of_nonneg angle 180) as [? ?]; lra. }
  apply js_rem_of_nonneg; [lra|]. apply fl_nonneg. lra.
Qed.

(** Two numbers less than 180 apart that differ by a whole number of half
    turns are equal. *)
Lemma same_class_same_angle (x y : Q) (m : Z) :
  -180 < x - y < 180 -> x - y == 180 * inject_Z m -> x == y.
Proof.
  intros Hd E.
  assert (m = 0%Z); [|subst; change (inject_Z 0) with 0 in E; lra].
  assert (inject_Z (-1) < inject_Z m) as H1 by (change (inject_Z (-1)) with (-1); lra).
  assert (inject_Z m < inject_Z 1) as H2 by (change (inject_Z 1) with 1; lra).
  rewrite <- Zlt_Qlt in H1, H2. lia.
Qed.

Lemma rem_half_turn (a : Z) :
  ((0 <= a -> 0 <= Z.rem a 180 < 180) /\ (a <= 0 -> -180 < Z.rem a 180 <= 0))%Z.
Proof.
  split; intros H.
  - apply Z.rem_bound_pos; lia.
  - pose proof (Z.rem_bound_pos (- a) 180 ltac:(lia) ltac:(lia)) as B.
    rewrite Z.rem_opp_l' in B. lia.
Qed.

(** The remainder of whole numbers is the truncated remainder of the
    integers. *)
Lemma js_rem_int (a : Z) :
  CartesianUtils.js_rem (inject_Z a) 180 == inject_Z (Z.rem a 180).
Proof.
  destruct (js_rem_multiple (inject_Z a) 180) as [k Ek].
  pose proof (Z.quot_rem' a 180) as D.
  assert (Er : inject_Z (Z.rem a 180) == inject_Z a - 180 * inject_Z (Z.quot a 180)).
  { rewrite D at 2. rewrite inject_Z_plus, inject_Z_mult.
    change (inject_Z 180) with 180. ring. }
  apply (same_class_same_angle _ _ (Z.quot a 180 - k)).
  - destruct (Z.le_gt_cases 0 a) as [P|N].
    + destruct (js_rem_of_nonneg (inject_Z a) 180) as [R1 R2]; [lra| |].
      { change 0 with (inject_Z 0). by rewrite <- Zle_Qle. }
      pose proof (proj1 (rem_half_turn a) P) as [B1 B2].
      rewrite Zle_Qle in B1. rewrite Zlt_Qlt in B2.
      change (inject_Z 0) with 0 in B1. change (inject_Z 180) with 180 in B2. lra.
    + destruct (js_rem_of_nonpos (inject_Z a) 180) as [R1 R2]; [lra| |].
      { change 0 with (inject_Z 0). rewrite <- Zle_Qle. lia. }
      pose proof (proj2 (rem_half_turn a) ltac:(lia)) as [B1 B2].
      rewrite Zlt_Qlt in B1. rewrite Zle_Qle in B2.
      change (inject_Z 0) with 0 in B2. change (inject_Z (-180)) with (-180) in B1. lra.
  - rewrite Ek, Er. unfold Z.sub. rewrite inject_Z_plus, inject_Z_opp. ring.
Qed.

(** X2. A normalised angle lies in [0, 180), whatever the angle; an angle of
    a whole number of degrees has the normal form [n mod 180]. The sum inside
    rounds, so that an angle already in [0, 180) need not be its own normal
    form (the double nearest to 0.1 is not), and the largest double below 180
    is normalised to 0. *)
Theorem normalizeAngle_half_turn (angle : Q) (n : Z) :
  (0 <= CartesianUtils.normalizeAngle angle /\ CartesianUtils.normalizeAngle angle < 180) /\
  CartesianUtils.normalizeAngle (inject_Z n) == inject_Z (n mod 180) /\
  (let a := fl (1 # 10) in
   0 <= a < 180 /\ CartesianUtils.normalizeAngle a < a) /\
  (let a := 180 - 2 ^ (-45) in
   fl a == a /\ 0 <= a < 180 /\ CartesianUtils.normalizeAngle a == 0).
Proof.
  split; [apply normalizeAngle_range|]. split.
  - unfold CartesianUtils.normalizeAngle.
    assert (E : CartesianUtils.js_rem (inject_Z n) 180 + 180
                == inject_Z (Z.rem n 180 + 180)).
    { rewrite js_rem_int, inject_Z_plus. reflexivity. }
    pose proof (rem_half_turn n) as [B1 B2].
    assert (B : (-180 < Z.rem n 180 < 180)%Z)
      by (destruct (Z.le_gt_cases 0 n) as [H|H];
          [apply B1 in H | apply Z.lt_le_incl, B2 in H]; lia).
    rewrite E, fl_int by lia. rewrite js_rem_int.
    assert (Z.rem (Z.rem n 180 + 180) 180 = (n mod 180)%Z) as ->; [|reflexivity].
    rewrite Z.rem_mod_nonneg by lia.
    rewrite (Z.quot_rem' n 180) at 2.
    replace (180 * Z.quot n 180 + Z.rem n 180)%Z
      with (Z.rem n 180 + Z.quot n 180 * 180)%Z by lia.
    rewrite Z.mod_add by lia.
    replace (Z.rem n 180 + 180)%Z with (Z.rem n 180 + 1 * 180)%Z by lia.
    by rewrite Z.mod_add by lia.
  - split.
    + split; [split; [vm_compute; discriminate | vm_compute; reflexivity]|].
      vm_compute. reflexivity.
    + split; [vm_compute; reflexivity|].
      split; [split; [vm_compute; discriminate | vm_compute; reflexivity]|].
      vm_compute. reflexivity.
Qed.

(** ** Scales *)

(** X3. For a value the scale places at [v], the position 'start' is [v],
    'end' is the rounded sum of [v] and the bandwidth, and 'middle' the
    rounded sum of [v] and the rounded half of the bandwidth (for a scale
    without bands both add 0); when [v] and the bandwidth are doubles and
    the bandwidth is not negative, 'middle' lies between 'start' and 'end',
    and with a bandwidth of 0 the three coincide. Without a position a
    band-aware call is the 'middle' one and a plain call the 'start' one; a
    given position makes [bandAware] irrelevant; and the value [undefined] is
    answered by [undefined] whatever the options. *)
Theorem apply_positions (s : CartesianUtils.Scale) (value : prim) (v : Q)
    (bandAware : bool) (position : option CartesianUtils.Position) :
  value <> PUndefined ->
  CartesianUtils.scale s value = Some v ->
  let b := default 0 (ScaleHelper.bandwidth (CartesianUtils.helper s)) in
  exists m e,
    CartesianUtils.apply s value bandAware (Some CartesianUtils.AtStart) = PNum v /\
    CartesianUtils.apply s value bandAware (Some CartesianUtils.AtMiddle) = PNum m /\
    CartesianUtils.apply s value bandAware (Some CartesianUtils.AtEnd) = PNum e /\
    e == fl (v + b) /\
    m == fl (v + fl (b / 2)) /\
    (fl v == v -> fl b == b -> 0 <= b -> v <= m /\ m <= e) /\
    (fl v == v -> b == 0 -> m == v /\ e == v) /\
    CartesianUtils.apply s value true None = PNum m /\
    CartesianUtils.apply s value false None = PNum v /\
    (is_Some position ->
     CartesianUtils.apply s value true position
     = CartesianUtils.apply s value false position) /\
    CartesianUtils.apply s PUndefined bandAware position = PUndefined.
Proof.
  intros Hv Hs b.
  assert (Order : forall m e,
            e == fl (v + b) -> m == fl (v + fl (b / 2)) ->
            (fl v == v -> fl b == b -> 0 <= b -> v <= m /\ m <= e) /\
            (fl v == v -> b == 0 -> m == v /\ e == v)).
  { intros m e Ee Em. split.
    - intros Fv Fb Hb. rewrite Ee, Em.
      assert (H0 : 0 <= fl (b / 2)).
      { apply fl_nonneg. apply Qle_shift_div_l; lra. }
      assert (H1 : fl (b / 2) <= b).
      { rewrite <- Fb at 2. apply fl_mono. apply Qle_shift_div_r; lra. }
      split.
      + rewrite <- Fv at 1. apply fl_mono. lra.
      + apply fl_mono. lra.
    - intros Fv Eb. rewrite Ee, Em.
      assert (E2 : b / 2 == 0) by (rewrite Eb; reflexivity).
      rewrite (fl_0 _ E2).
      assert (E3 : v + 0 == v) by ring. assert (E4 : v + b == v) by (rewrite Eb; ring).
      by rewrite E3, E4, Fv. }
  unfold CartesianUtils.apply. rewrite Hs. subst b.
  destruct (ScaleHelper.bandwidth (CartesianUtils.helper s)) as [b|]; cbn [default] in *.
  - exists (fl (v + fl (b / 2))), (fl (v + b)).
    destruct (Order (fl (v + fl (b / 2))) (fl (v + b))) as [O1 O2]; try reflexivity.
    destruct value; try congruence; cbn;
      (repeat split; try reflexivity; try (by apply O1); try (by apply O2);
       intros [p ->]; by destruct p).
  - exists (fl (v + 0)), (fl (v + 0)).
    assert (E : fl (v + 0) == fl (v + fl (0 / 2))).
    { assert (E2 : 0 / 2 == 0) by reflexivity. by rewrite (fl_0 _ E2). }
    destruct (Order (fl (v + 0)) (fl (v + 0))) as [O1 O2]; try reflexivity; [exact E|].
    destruct value; try congruence; cbn;
      (repeat split; try reflexivity; try exact E; try (by apply O1); try (by apply O2);
       try (intros [p ->]; by destruct p)).
Qed.

Lemma apply_positions_witness :
  let s :=
    {| CartesianUtils.helper := ScaleHelper.create [0; 1] (Some (fl (4 # 10)));
       CartesianUtils.scale :=
         fun p => match p with PNum q => Some (fl (q / 10)) | _ => None end |} in
  exists m e,
    CartesianUtils.apply s (PNum 1) false (Some CartesianUtils.AtMiddle) = PNum m /\
    CartesianUtils.apply s (PNum 1) false (Some CartesianUtils.AtEnd) = PNum e /\
    (fl (1 # 10) <= m /\ m <= e) /\
    e == 1 # 2 /\ ~ m == (fl (1 # 10) + e) / 2.
Proof.
  intros s.
  destruct (apply_positions s (PNum 1) (fl (1 / 10)) false None) as (m & e & H);
    [discriminate | reflexivity |].
  exists m, e.
  destruct H as (_ & Hm & He & Ee & Em & Hord & _).
  split; [exact Hm|]. split; [exact He|].
  split; [apply Hord; [vm_compute; reflexivity | vm_compute; reflexivity
                      | vm_compute; discriminate]|].
  split.
  - rewrite Ee. vm_compute. reflexivity.
  - rewrite Em, Ee. vm_compute. discriminate.
Defined.

(** X4. The range test of labeled scales is decided by the first coordinate
    that is out of the range of its scale or has no scale: it answers true
    exactly when every coordinate has a scale and lies in its range, false
    when the first offending coordinate has a scale, and it throws when the
    first offending coordinate has none. *)
Theorem labeledIsInRange_decided (scales : gmap string ScaleHelper.t)
    (coord : list (string * Q)) :
  let ok (c : string * Q) :=
    exists s, scales !! c.1 = Some s /\ ScaleHelper.isInRange s c.2 = true in
  (CartesianUtils.labeledIsInRange scales coord = Returned true <-> Forall ok coord) /\
  (CartesianUtils.labeledIsInRange scales coord = Returned false <->
   exists before c after s,
     coord = before ++ c :: after /\ Forall ok before /\
     scales !! c.1 = Some s /\ ScaleHelper.isInRange s c.2 = false) /\
  ((exists msg, CartesianUtils.labeledIsInRange scales coord = Thrown msg) <->
   exists before c after,
     coord = before ++ c :: after /\ Forall ok before /\ scales !! c.1 = None).
Proof.
  intros ok. induction coord as [|[label value] rest (IHt & IHf & IHx)]; cbn.
  - split; [|split].
    + split; [constructor | done].
    + split; [done | intros (b & c & a & s & E & _); by destruct b].
    + split; [intros [? ?]; done | intros (b & c & a & E & _); by destruct b].
  - destruct (scales !! label) as [s|] eqn:Hs.
    + destruct (ScaleHelper.isInRange s value) eqn:Hr.
      * assert (Hok : ok (label, value)) by (exists s; done).
        split; [|split].
        -- rewrite IHt. split; [by constructor | by inversion 1].
        -- rewrite IHf. split.
           ++ intros (b & c & a & s' & -> & Hb & Hc & Hn).
              exists ((label, value) :: b), c, a, s'. repeat split; try done.
              by constructor.
           ++ intros (b & c & a & s' & E & Hb & Hc & Hn).
              destruct b as [|b0 b]; cbn in E; simplify_eq.
              ** cbn in *. congruence.
              ** inversion Hb; subst. by exists b, c, a, s'.
        -- rewrite IHx. split.
           ++ intros (b & c & a & -> & Hb & Hc).
              exists ((label, value) :: b), c, a. repeat split; try done.
              by constructor.
           ++ intros (b & c & a & E & Hb & Hc).
              destruct b as [|b0 b]; cbn in E; simplify_eq.
              ** cbn in *. congruence.
              ** inversion Hb; subst. by exists b, c, a.
      * split; [|split].
        -- split; [done|]. inversion 1 as [|? ? (s' & Hs' & Hr') ?]; subst.
           cbn in *. congruence.
        -- split; [|done]. intros _. by exists [], (label, value), rest, s.
        -- split; [intros [? ?]; done|].
           intros (b & c & a & E & Hb & Hc).
           destruct b as [|b0 b]; cbn in E; simplify_eq.
           ++ cbn in *. congruence.
           ++ inversion Hb as [|? ? (s' & Hs' & Hr') ?]; subst. cbn in *. congruence.
    + split; [|split].
      * split; [done|]. inversion 1 as [|? ? (s' & Hs' & Hr') ?]; subst.
        cbn in *. congruence.
      * split; [done|]. intros (b & c & a & s' & E & Hb & Hc & Hn).
        destruct b as [|b0 b]; cbn in E; simplify_eq.
        -- cbn in *. congruence.
        -- inversion Hb as [|? ? (s'' & Hs' & Hr') ?]; subst. cbn in *. congruence.
      * split; [|by eexists]. intros _. by exists [], (label, value), rest.
Qed.

(** ** Children of an element *)

Lemma Node_nested_ind (P : ReactUtils.Node -> Prop) :
  P ReactUtils.NNil ->
  (forall s, P (ReactUtils.NText s)) ->
  (forall t k, P (ReactUtils.NElement t k)) ->
  (forall cs, Forall P cs -> P (ReactUtils.NFragment cs)) ->
  (forall cs, Forall P cs -> P (ReactUtils.NArray cs)) ->
  forall n, P n.
Proof.
  intros Hnil Htext Helem Hfrag Harr. fix IH 1. intros [|s|t k|cs|cs].
  - exact Hnil.
  - apply Htext.
  - apply Helem.
  - apply Hfrag. induction cs as [|c cs IHcs]; constructor; [apply IH | exact IHcs].
  - apply Harr. induction cs as [|c cs IHcs]; constructor; [apply IH | exact IHcs].
Qed.

Lemma toArray_node_flat (n : ReactUtils.Node) :
  Forall
    (fun c => match c with
              | ReactUtils.NText _ | ReactUtils.NElement _ _ => True
              | _ => False
              end)
    (ReactUtils.toArray_node n).
Proof.
  induction n as [|s|t k|cs IH|cs IH] using Node_nested_ind; cbn.
  - constructor.
  - by repeat constructor.
  - by repeat constructor.
  - induction IH as [|c cs Hc _ IHcs]; cbn; [constructor | by apply Forall_app].
  - induction IH as [|c cs Hc _ IHcs]; cbn; [constructor | by apply Forall_app].
Qed.

Lemma toArray_only_leaves (children : list ReactUtils.Node) :
  Forall
    (fun c => match c with
              | ReactUtils.NText _ | ReactUtils.NElement _ _ => True
              | _ => False
              end)
    (ReactUtils.toArray children).
Proof.
  unfold ReactUtils.toArray.
  induction children as [|c cs IH]; cbn; [constructor|].
  apply Forall_app. split; [apply toArray_node_flat | exact IH].
Qed.

Lemma toArray_leaves (children : list ReactUtils.Node) :
  Forall (fun c => ReactUtils.toArray_node c = [c]) (ReactUtils.toArray children).
Proof.
  eapply Forall_impl; [apply toArray_only_leaves|]. by intros [| | | |].
Qed.

Lemma toArray_of_leaves (l : list ReactUtils.Node) :
  Forall (fun c => ReactUtils.toArray_node c = [c]) l -> ReactUtils.toArray l = l.
Proof.
  unfold ReactUtils.toArray. induction 1 as [|c cs Hc _ IH]; cbn; [done|].
  by rewrite Hc, IH.
Qed.

Lemma toArray_app (a b : list ReactUtils.Node) :
  ReactUtils.toArray (a ++ b) = ReactUtils.toArray a ++ ReactUtils.toArray b.
Proof. unfold ReactUtils.toArray. apply flat_map_app. Qed.

Lemma toArray_filter (p : ReactUtils.Node -> bool) (children : list ReactUtils.Node) :
  ReactUtils.toArray (List.filter p (ReactUtils.toArray children))
  = List.filter p (ReactUtils.toArray children).
Proof.
  apply toArray_of_leaves.
  pose proof (toArray_leaves children) as H.
  induction H as [|c cs Hc _ IH]; cbn; [constructor|].
  destruct (p c); [by constructor | exact IH].
Qed.

(** X5. The flattened children hold texts and elements only: no nil child,
    no fragment and no nested array is left, at any depth. A fragment and a
    nested array are transparent, flattening distributes over concatenation,
    and flattening a flattened list changes nothing. *)
Theorem toArray_flat (children more : list ReactUtils.Node) :
  Forall
    (fun c => match c with
              | ReactUtils.NText _ | ReactUtils.NElement _ _ => True
              | _ => False
              end)
    (ReactUtils.toArray children) /\
  ReactUtils.toArray (ReactUtils.toArray children) = ReactUtils.toArray children /\
  ReactUtils.toArray (ReactUtils.NFragment children :: more)
  = ReactUtils.toArray (children ++ more) /\
  ReactUtils.toArray (ReactUtils.NArray children :: more)
  = ReactUtils.toArray (children ++ more) /\
  ReactUtils.toArray (ReactUtils.NNil :: more) = ReactUtils.toArray more /\
  ReactUtils.toArray (children ++ more)
  = ReactUtils.toArray children ++ ReactUtils.toArray more.
Proof.
  split; [|split; [|split; [|split; [|split]]]].
  - apply toArray_only_leaves.
  - apply toArray_of_leaves, toArray_leaves.
  - by rewrite toArray_app.
  - by rewrite toArray_app.
  - done.
  - apply toArray_app.
Qed.

Lemma List_filter_sublist {A} (p : A -> bool) (l : list A) :
  List.filter p l `sublist_of` l.
Proof.
  induction l as [|x l IH]; cbn; [constructor|].
  destruct (p x); by constructor.
Qed.

Lemma elem_of_List_filter {A} (p : A -> bool) (l : list A) (x : A) :
  x ∈ List.filter p l <-> x ∈ l /\ p x = true.
Proof. by rewrite !list_elem_of_In, List.filter_In. Qed.

Lemma elem_of_map {A B} (f : A -> B) (l : list A) (y : B) :
  y ∈ map f l <-> exists x, y = f x /\ x ∈ l.
Proof.
  rewrite list_elem_of_In, in_map_iff. split; intros (x & H1 & H2); exists x.
  - by rewrite list_elem_of_In.
  - by rewrite <- list_elem_of_In.
Qed.

(** X6. [findAllByType] looks through fragments and nested arrays, keeps the
    order of the children, and returns only elements of a component whose
    display name (or, without one, whose name) is the display name of one of
    the wanted types: never a text, a host element or a child of another
    type. [findChildByType] is the first match, searched left to right. *)
Theorem findAllByType_matches (children more : list ReactUtils.Node)
    (type : list ReactUtils.ElementType) :
  ReactUtils.findAllByType (ReactUtils.NFragment children :: more) type
  = ReactUtils.findAllByType (children ++ more) type /\
  ReactUtils.findAllByType (ReactUtils.NArray children :: more) type
  = ReactUtils.findAllByType (children ++ more) type /\
  ReactUtils.findAllByType (children ++ more) type
  = ReactUtils.findAllByType children type ++ ReactUtils.findAllByType more type /\
  ReactUtils.findAllByType children type `sublist_of` ReactUtils.toArray children /\
  (forall n,
     n ∈ ReactUtils.findAllByType children type <->
     n ∈ ReactUtils.toArray children /\
     exists displayName name key wanted,
       n = ReactUtils.NElement (ReactUtils.Component displayName name) key /\
       wanted ∈ type /\
       Some (ReactUtils.getDisplayName wanted)
       = match ReactUtils.nonEmpty displayName with
         | Some d => Some d
         | None => name
         end) /\
  ReactUtils.findChildByType (children ++ more) type
  = coalesce (ReactUtils.findChildByType children type)
             (ReactUtils.findChildByType more type).
Proof.
  unfold ReactUtils.findChildByType, ReactUtils.findAllByType.
  split; [|split; [|split; [|split; [|split]]]].
  - change (ReactUtils.NFragment children :: more)
      with ([ReactUtils.NFragment children] ++ more).
    rewrite !toArray_app. do 2 f_equal. unfold ReactUtils.toArray. cbn.
    by rewrite app_nil_r.
  - change (ReactUtils.NArray children :: more)
      with ([ReactUtils.NArray children] ++ more).
    rewrite !toArray_app. do 2 f_equal. unfold ReactUtils.toArray. cbn.
    by rewrite app_nil_r.
  - by rewrite toArray_app, List.filter_app.
  - apply List_filter_sublist.
  - intros n. rewrite elem_of_List_filter.
    apply and_iff_compat_l. unfold ReactUtils.matchesType, ReactUtils.childType.
    split.
    + destruct n as [| |[tag|displayName name] key| |]; try done.
      destruct (match ReactUtils.nonEmpty displayName with
                | Some d => Some d | None => name end) as [t|] eqn:Et; [|done].
      intros Hin%bool_decide_eq_true.
      apply elem_of_map in Hin as (wanted & -> & Hw).
      exists displayName, name, key, wanted. by rewrite Et.
    + intros (displayName & name & key & wanted & -> & Hw & E).
      rewrite <- E. apply bool_decide_eq_true, elem_of_map. eauto.
  - rewrite toArray_app, List.filter_app.
    by destruct (List.filter _ (ReactUtils.toArray children)).
Qed.

Lemma List_filter_filter {A} (p q : A -> bool) (l : list A) :
  List.filter p (List.filter q l) = List.filter (fun x => q x && p x) l.
Proof.
  induction l as [|x l IH]; cbn; [done|].
  destruct (q x); cbn; [destruct (p x)|]; by rewrite IH.
Qed.

(** X7. [withoutType] drops exactly the elements whose component has a
    display name among the given names, and keeps the order of the others.
    It reads the display name only: of the children that [findAllByType]
    finds for some types, those found by the name of their component, for
    want of a display name, are still there after [withoutType] was given
    the names of the same types. *)
Theorem withoutType_by_displayName (children : list ReactUtils.Node)
    (types : list string) (type : list ReactUtils.ElementType) :
  (forall n,
     n ∈ ReactUtils.withoutType children types <->
     n ∈ ReactUtils.toArray children /\
     ~ exists d name key,
         n = ReactUtils.NElement (ReactUtils.Component (Some d) name) key /\
         d <> "" /\ d ∈ types) /\
  ReactUtils.withoutType children types `sublist_of` ReactUtils.toArray children /\
  ReactUtils.findAllByType
    (ReactUtils.withoutType children (map ReactUtils.getDisplayName type)) type
  = List.filter
      (fun n =>
         match n with
         | ReactUtils.NElement (ReactUtils.Component displayName _) _ =>
             match ReactUtils.nonEmpty displayName with Some _ => false | None => true end
         | _ => true
         end)
      (ReactUtils.findAllByType children type).
Proof.
  split; [|split].
  - intros n. unfold ReactUtils.withoutType. rewrite elem_of_List_filter.
    apply and_iff_compat_l.
    destruct n as [| |[tag|[d|] name] key| |]; cbn;
      try (split; [intros _ (d' & name' & key' & E & _); discriminate E | done]).
    destruct (bool_decide (d = "")) eqn:Ed.
    + apply bool_decide_eq_true in Ed as ->.
      split; [|done]. intros _ (d' & name' & key' & E & Hne & _). by simplify_eq.
    + apply bool_decide_eq_false in Ed. rewrite negb_true_iff, bool_decide_eq_false.
      split.
      * intros Hn (d' & name' & key' & E & _ & Hin). by simplify_eq.
      * intros Hn Hin. apply Hn. by exists d, name, key.
  - apply List_filter_sublist.
  - unfold ReactUtils.findAllByType, ReactUtils.withoutType.
    rewrite toArray_filter, !List_filter_filter.
    apply List.filter_ext. intros n.
    unfold ReactUtils.matchesType, ReactUtils.childType.
    destruct n as [| |[tag|displayName name] key| |]; try done.
    destruct (ReactUtils.nonEmpty displayName) as [d|]; cbn.
    + by destruct (bool_decide (d ∈ map ReactUtils.getDisplayName type)).
    + by rewrite andb_true_r.
Qed.

Lemma recorded_insert (record : gset string) (d d' : string) :
  ReactUtils.recorded ({[d']} ∪ record) d
  = bool_decide (d = d') || ReactUtils.recorded record d.
Proof.
  unfold ReactUtils.recorded.
  destruct (bool_decide (d ∈ ReactUtils.Object_prototype_keys));
    [by rewrite !orb_true_r | rewrite !orb_false_r].
  destruct (decide (d = d')) as [->|Hne].
  - rewrite (bool_decide_eq_true_2 (d' = d')) by done.
    apply bool_decide_eq_true, elem_of_union_l, elem_of_singleton. done.
  - rewrite (bool_decide_eq_false_2 (d = d')) by done. cbn.
    apply bool_decide_ext. rewrite elem_of_union, elem_of_singleton. tauto.
Qed.

Lemma renderFrom_once (renderMap : gmap string ReactUtils.Renderer) (d : string)
    (r : ReactUtils.Renderer) (children : list ReactUtils.Node) :
  renderMap !! d = Some r -> ReactUtils.once r = true ->
  forall record index,
    (length
       (List.filter
          (fun x => match x with
                    | ReactUtils.Handled d' _ _ => bool_decide (d' = d)
                    | ReactUtils.AsIs _ => false
                    end)
          (ReactUtils.renderFrom renderMap record index children))
     <= if ReactUtils.recorded record d then 0 else 1)%nat.
Proof.
  intros Hr Honce. induction children as [|child rest IH]; intros record index; cbn.
  - destruct (ReactUtils.recorded record d); lia.
  - destruct (ReactUtils.isSvgElement child); cbn; [apply IH|].
    destruct (ReactUtils.renderName child) as [d'|]; [|apply IH].
    destruct (renderMap !! d') as [r'|] eqn:Hr'; [|apply IH].
    destruct (ReactUtils.hasHandler r'
              && (negb (ReactUtils.once r') || negb (ReactUtils.recorded record d')))
      eqn:Hc; [|apply IH].
    cbn. specialize (IH ({[d']} ∪ record) (S index)).
    rewrite recorded_insert in IH.
    destruct (bool_decide (d' = d)) eqn:Ed.
    + apply bool_decide_eq_true in Ed as ->. rewrite Hr in Hr'. simplify_eq.
      rewrite Honce in Hc. cbn in Hc. apply andb_true_iff in Hc as [_ Hc].
      apply negb_true_iff in Hc. rewrite Hc.
      rewrite bool_decide_eq_true_2 in IH by done. cbn in *. lia.
    + apply bool_decide_eq_false in Ed.
      rewrite bool_decide_eq_false_2 in IH by congruence. exact IH.
Qed.

Lemma renderFrom_handled (renderMap : gmap string ReactUtils.Renderer)
    (d : string) (child : ReactUtils.Node) (i : nat) (children : list ReactUtils.Node) :
  forall record index,
    ReactUtils.Handled d child i ∈ ReactUtils.renderFrom renderMap record index children ->
    exists j r,
      i = (index + j)%nat /\ children !! j = Some child /\
      ReactUtils.isSvgElement child = false /\
      ReactUtils.renderName child = Some d /\
      renderMap !! d = Some r /\ ReactUtils.hasHandler r = true.
Proof.
  induction children as [|c rest IH]; intros record index; cbn; [by inversion 1|].
  assert (Hrest : forall record',
    ReactUtils.Handled d child i ∈ ReactUtils.renderFrom renderMap record' (S index) rest ->
    exists j r,
      i = (index + j)%nat /\ (c :: rest) !! j = Some child /\
      ReactUtils.isSvgElement child = false /\
      ReactUtils.renderName child = Some d /\
      renderMap !! d = Some r /\ ReactUtils.hasHandler r = true).
  { intros record' H. apply IH in H as (j & r & -> & H).
    exists (S j), r. split; [lia | exact H]. }
  destruct (ReactUtils.isSvgElement c) eqn:Hsvg.
  { intros H. apply elem_of_cons in H as [H|H]; [discriminate H | eauto]. }
  destruct (ReactUtils.renderName c) as [d'|] eqn:Hn; [|eauto].
  destruct (renderMap !! d') as [r'|] eqn:Hr'; [|eauto].
  destruct (ReactUtils.hasHandler r'
            && (negb (ReactUtils.once r') || negb (ReactUtils.recorded record d')))
    eqn:Hc; [|eauto].
  intros H. apply elem_of_cons in H as [H|H]; [|eauto].
  simplify_eq. apply andb_true_iff in Hc as [Hh _].
  exists 0%nat, r'. rewrite Nat.add_0_r. by repeat split.
Qed.

Lemma renderFrom_svg (renderMap : gmap string ReactUtils.Renderer)
    (children : list ReactUtils.Node) :
  forall record index,
    omap (fun x => match x with
                   | ReactUtils.AsIs c => Some c
                   | ReactUtils.Handled _ _ _ => None
                   end)
         (ReactUtils.renderFrom renderMap record index children)
    = List.filter ReactUtils.isSvgElement children.
Proof.
  induction children as [|c rest IH]; intros record index; cbn; [done|].
  destruct (ReactUtils.isSvgElement c); cbn; [by rewrite IH|].
  destruct (ReactUtils.renderName c) as [d'|]; [|apply IH].
  destruct (renderMap !! d') as [r'|]; [|apply IH].
  destruct (ReactUtils.hasHandler r'
            && (negb (ReactUtils.once r') || negb (ReactUtils.recorded record d')));
    cbn; apply IH.
Qed.

(** X8. In the output of [renderByOrder] a display name whose renderer is
    marked [once] is handled for at most one child; every handled child is a
    flattened child at the reported index, is no svg element, and has a
    renderer with a handler under its display name; and the svg elements
    among the flattened children all pass through as they are, in order. *)
Theorem renderByOrder_once (children : list ReactUtils.Node)
    (renderMap : gmap string ReactUtils.Renderer) :
  (forall d r,
     renderMap !! d = Some r -> ReactUtils.once r = true ->
     (length
        (List.filter
           (fun x => match x with
                     | ReactUtils.Handled d' _ _ => bool_decide (d' = d)
                     | ReactUtils.AsIs _ => false
                     end)
           (ReactUtils.renderByOrder children renderMap)) <= 1)%nat) /\
  (forall d child i,
     ReactUtils.Handled d child i ∈ ReactUtils.renderByOrder children renderMap ->
     ReactUtils.toArray children !! i = Some child /\
     ReactUtils.isSvgElement child = false /\
     ReactUtils.renderName child = Some d /\
     exists r, renderMap !! d = Some r /\ ReactUtils.hasHandler r = true) /\
  omap (fun x => match x with
                 | ReactUtils.AsIs c => Some c
                 | ReactUtils.Handled _ _ _ => None
                 end)
       (ReactUtils.renderByOrder children renderMap)
  = List.filter ReactUtils.isSvgElement (ReactUtils.toArray children).
Proof.
  unfold ReactUtils.renderByOrder. split; [|split].
  - intros d r Hr Ho.
    pose proof (renderFrom_once renderMap d r (ReactUtils.toArray children) Hr Ho ∅ 0) as H.
    destruct (ReactUtils.recorded ∅ d); lia.
  - intros d child i H.
    apply renderFrom_handled in H as (j & r & -> & Hj & Hs & Hn & Hr & Hh).
    cbn. eauto 10.
  - apply renderFrom_svg.
Qed.

Section FurtherProperties.

Context {U : ChartUtils}.

(** ** Displayed data *)

Lemma itemsData_flat_map (gis : list GraphicalItem) (acc : list entry) :
  fold_left
    (fun result child =>
       match item_data child with
       | Some itemData => if nonempty itemData then result ++ itemData else result
       | None => result
       end)
    gis acc
  = acc ++ flat_map (fun g => default [] (item_data g)) gis.
Proof.
  revert acc. induction gis as [|g gis IH]; intros acc; cbn; [by rewrite app_nil_r|].
  rewrite IH. destruct (item_data g) as [[|x l]|]; cbn.
  - done.
  - by rewrite <- app_assoc.
  - done.
Qed.

Lemma nonempty_false {A} (l : list A) : nonempty l = false <-> l = [].
Proof. by destruct l. Qed.

Lemma getDisplayedData_cases (chartData : option (list entry))
    (gis : list GraphicalItem) (dataStartIndex dataEndIndex : option Z) :
  getDisplayedData chartData (Some gis) dataStartIndex dataEndIndex
  = match flat_map (fun g => default [] (item_data g)) gis with
    | [] => getDisplayedData chartData None dataStartIndex dataEndIndex
    | own => own
    end.
Proof.
  unfold getDisplayedData.
  change (default [] (Some gis)) with gis. rewrite itemsData_flat_map.
  cbn [app fold_left default].
  by destruct (flat_map (fun g => default [] (item_data g)) gis).
Qed.

Lemma js_slice_window {A} (d : list A) (s e : Z) :
  (0 <= s)%Z -> (0 <= e + 1)%Z ->
  js_slice d s (e + 1) = take (Z.to_nat (e + 1 - s)) (drop (Z.to_nat s) d).
Proof.
  intros Hs He. unfold js_slice, slice_bound.
  destruct (s <? 0)%Z eqn:E1; [lia|]. destruct (e + 1 <? 0)%Z eqn:E2; [lia|].
  set (n := Z.of_nat (length d)).
  destruct (Z.le_gt_cases s n) as [Hsn|Hsn].
  - rewrite (Z.min_l s n) by done.
    destruct (Z.le_gt_cases (e + 1) n) as [Hen|Hen].
    + by rewrite (Z.min_l (e + 1) n).
    + rewrite (Z.min_r (e + 1) n) by lia.
      rewrite !take_ge; [done | |]; rewrite length_drop; lia.
  - rewrite (Z.min_r s n) by lia. rewrite !drop_ge by lia. by rewrite !take_nil.
Qed.

(** X9. As soon as one series brings data of its own, the displayed data are
    the own data of the series, one after the other in the order of the
    series, and neither the data of the chart nor the window is looked at;
    when no series has data of its own, the series play no part. *)
Theorem getDisplayedData_own_data (chartData : option (list entry))
    (gis : list GraphicalItem) (dataStartIndex dataEndIndex : option Z) :
  let own := flat_map (fun g => default [] (item_data g)) gis in
  (own <> [] ->
   getDisplayedData chartData (Some gis) dataStartIndex dataEndIndex = own) /\
  (own = [] ->
   getDisplayedData chartData (Some gis) dataStartIndex dataEndIndex
   = getDisplayedData chartData None dataStartIndex dataEndIndex).
Proof.
  intros own. rewrite getDisplayedData_cases. fold own. clearbody own.
  split; intros H.
  - by destruct own.
  - by rewrite H.
Qed.

(** X10. Without series data, the displayed data are the records of the
    chart from the start index to the end index, both included: for a window
    inside the data there are [end - start + 1] of them, the record at
    position [i] is the record [start + i] of the chart, and the data of the
    chart are the records before the window, the displayed ones and the
    records after it. *)
Theorem getDisplayedData_window (d : list entry) (gis : list GraphicalItem)
    (s e : Z) :
  flat_map (fun g => default [] (item_data g)) gis = [] ->
  (0 <= s <= e)%Z -> (e < Z.of_nat (length d))%Z ->
  let displayed := getDisplayedData (Some d) (Some gis) (Some s) (Some e) in
  Z.of_nat (length displayed) = (e - s + 1)%Z /\
  (forall i, (0 <= i <= e - s)%Z -> js_get displayed i = js_get d (s + i)%Z) /\
  d = take (Z.to_nat s) d ++ displayed ++ drop (Z.to_nat (e + 1)) d.
Proof.
  intros Hown Hse Hen displayed.
  assert (E : displayed = take (Z.to_nat (e + 1 - s)) (drop (Z.to_nat s) d)).
  { unfold displayed. rewrite getDisplayedData_cases, Hown. unfold getDisplayedData.
    cbn [default fold_left nonempty].
    destruct d as [|x d]; [cbn in Hen; lia|]. cbn [nonempty].
    apply js_slice_window; lia. }
  rewrite E. split; [|split].
  - rewrite length_take, length_drop. lia.
  - intros i Hi. unfold js_get.
    destruct (i <? 0)%Z eqn:E1; [lia|]. destruct (s + i <? 0)%Z eqn:E2; [lia|].
    rewrite lookup_take_lt by lia. rewrite lookup_drop. f_equal. lia.
  - rewrite <- (take_drop (Z.to_nat s) d) at 1. f_equal.
    rewrite <- (take_drop (Z.to_nat (e + 1 - s)) (drop (Z.to_nat s) d)) at 1.
    f_equal. rewrite drop_drop. f_equal. lia.
Qed.

(** X11. The default state has a start and an end index that are never
    negative and the tooltip index [-1]; a brush index that is not negative
    is taken as it is; and for a chart without a brush the default window
    displays all the data of the chart. *)
Theorem createDefaultState_window (props : CategoricalChartProps) :
  (exists s e,
     p_dataStartIndex (createDefaultState props) = Some s /\
     p_dataEndIndex (createDefaultState props) = Some e /\
     (0 <= s)%Z /\ (0 <= e)%Z /\
     (forall b i, brush props = Some b -> br_startIndex b = Some i -> (0 <= i)%Z -> s = i) /\
     (forall b i, brush props = Some b -> br_endIndex b = Some i -> (0 <= i)%Z -> e = i)) /\
  p_activeTooltipIndex (createDefaultState props) = Some (IInt (-1)) /\
  (brush props = None ->
   flat_map (fun g => default [] (item_data g)) (items props) = [] ->
   getDisplayedData (data props) (Some (items props))
     (p_dataStartIndex (createDefaultState props))
     (p_dataEndIndex (createDefaultState props))
   = default [] (data props)).
Proof.
  split; [|split; [done|]].
  - unfold createDefaultState. cbn. eexists _, _. split; [done|]. split; [done|].
    split; [|split; [|split]].
    + destruct (brush props ≫= br_startIndex) as [i|]; [|lia].
      destruct (0 <=? i)%Z eqn:E; lia.
    + assert (0 <= match data props with
                   | Some d => if nonempty d then Z.of_nat (length d) - 1 else 0
                   | None => 0
                   end)%Z as H0.
      { destruct (data props) as [[|x d]|]; cbn; lia. }
      destruct (brush props ≫= br_endIndex) as [i|]; [|done].
      destruct (0 <=? i)%Z eqn:E; lia.
    + intros b i -> Hb Hi. cbn. rewrite Hb.
      destruct (0 <=? i)%Z eqn:E; lia.
    + intros b i -> Hb Hi. cbn. rewrite Hb.
      destruct (0 <=? i)%Z eqn:E; [done | lia].
  - intros Hb Hown. unfold createDefaultState. cbn. rewrite Hb. cbn.
    rewrite getDisplayedData_cases, Hown. unfold getDisplayedData.
    cbn [default fold_left nonempty].
    destruct (data props) as [[|x d]|]; cbn [nonempty default]; try done.
    rewrite js_slice_window by lia.
    replace (Z.of_nat (length (x :: d)) - 1 + 1 - 0)%Z
      with (Z.of_nat (length (x :: d))) by lia.
    rewrite Nat2Z.id. cbn [Z.to_nat drop]. by rewrite firstn_all.
Qed.

(** ** Tooltip content *)

Lemma fold_left_length_le {A B} (f : list B -> A -> list B) (l : list A) (acc : list B) :
  (forall r x, (length (f r x) <= S (length r))%nat) ->
  (length (fold_left f l acc) <= length acc + length l)%nat.
Proof.
  intros Hf. revert acc. induction l as [|x l IH]; intros acc; cbn; [lia|].
  specialize (IH (f acc x)). specialize (Hf acc x). lia.
Qed.

(** X12. [getTooltipContent] answers [null], and does not throw even when
    the state has no tooltip axis, for an index that is negative or not below
    the number of displayed records and for a chart without series. When it
    answers a payload, the index is within the displayed data and the payload
    has at most one line per series. *)
Theorem tooltip_payload_bounded (st : CategoricalChartState)
    (chartData : option (list entry)) (activeIndex : Z) (activeLabel : prim) :
  let displayed :=
    getDisplayedData chartData (graphicalItems st) (dataStartIndex st) (dataEndIndex st) in
  ((activeIndex < 0)%Z \/ (Z.of_nat (length displayed) <= activeIndex)%Z \/
   default [] (graphicalItems st) = [] ->
   getTooltipContent st chartData activeIndex activeLabel = Returned None) /\
  (forall payload,
     getTooltipContent st chartData activeIndex activeLabel = Returned (Some payload) ->
     exists gis,
       graphicalItems st = Some gis /\ gis <> [] /\
       (0 <= activeIndex < Z.of_nat (length displayed))%Z /\
       (length payload <= length gis)%nat).
Proof.
  intros displayed. unfold getTooltipContent. fold displayed.
  cbn [index_ltb index_geb index_leb].
  destruct (graphicalItems st) as [gis|] eqn:Hg; [|split; [done | discriminate]].
  destruct ((activeIndex <? 0)%Z || negb (nonempty gis)
            || (Z.of_nat (length displayed) <=? activeIndex)%Z) eqn:Hc.
  - split; [done | discriminate].
  - apply orb_false_iff in Hc as [Hc H3]. apply orb_false_iff in Hc as [H1 H2].
    apply Z.ltb_ge in H1. apply Z.leb_gt in H3. apply negb_false_iff in H2.
    split.
    + intros [H|[H|H]]; [lia | lia |]. cbn in H. subst gis. discriminate H2.
    + destruct (tooltipAxis st) as [axis|]; [|discriminate].
      intros payload [= <-]. exists gis. split; [done|].
      split; [by destruct gis|]. split; [lia|].
      etransitivity; [apply fold_left_length_le | cbn; lia].
      intros r x. cbv zeta.
      match goal with |- context [if ?c then _ else _] => destruct c end; [lia|].
      match goal with |- context [match ?p with Some _ => _ | None => _ end] =>
        destruct p end; [rewrite length_app; cbn; lia | lia].
Qed.

(** ** Axis maps *)

Lemma getAxisMapByAxes_from {O} (props : CategoricalChartProps)
    (axes : list (AxisProps O)) (gis : list GraphicalItem) (axisType : AxisType)
    (stacks : option (gmap string AxisStack)) (dataStartIndex dataEndIndex : option Z)
    (m : gmap string (AxisRec O)) (k : string) :
  fold_left
    (fun (result : gmap string (AxisRec O)) child =>
       match result !! axisKey (ax_id child) with
       | Some _ => result
       | None =>
           <[axisKey (ax_id child) :=
               axisOfElement props axisType stacks dataStartIndex dataEndIndex
                 gis child]> result
       end)
    axes m !! k
  = coalesce (m !! k)
      (axisOfElement props axisType stacks dataStartIndex dataEndIndex gis
         <$> find (fun a => bool_decide (axisKey (ax_id a) = k)) axes).
Proof.
  revert m. induction axes as [|a axes IH]; intros m; cbn [fold_left find].
  - by destruct (m !! k).
  - rewrite IH. destruct (decide (axisKey (ax_id a) = k)) as [E|E].
    + rewrite (bool_decide_eq_true_2 _ E). subst k.
      destruct (m !! axisKey (ax_id a)) as [r|] eqn:Hm; [by rewrite Hm|].
      by rewrite lookup_insert_eq.
    + rewrite (bool_decide_eq_false_2 _ E).
      destruct (m !! axisKey (ax_id a)) as [r|] eqn:Hm; [done|].
      by rewrite lookup_insert_ne.
Qed.

(** X13. In the axis map built from axis elements whose ids are not names
    that every object inherits (for such a name the code finds the entry
    taken from the start), the entry of a key is the record of the first
    element whose id names that key, and there is an entry for exactly the
    ids of the elements; an element whose id names the same property as an
    earlier element (as the number 0 and the string "0" do) is ignored. *)
Theorem getAxisMapByAxes_first_wins {O} (props : CategoricalChartProps)
    (axes : list (AxisProps O)) (gis : list GraphicalItem) (axisType : AxisType)
    (stacks : option (gmap string AxisStack)) (dataStartIndex dataEndIndex : option Z) :
  forallb (fun a => ownKey (axisKey (ax_id a))) axes = true ->
  (forall k,
     getAxisMapByAxes props axes gis axisType stacks dataStartIndex dataEndIndex !! k
     = axisOfElement props axisType stacks dataStartIndex dataEndIndex gis
         <$> find (fun a => bool_decide (axisKey (ax_id a) = k)) axes) /\
  (forall k,
     is_Some (getAxisMapByAxes props axes gis axisType stacks dataStartIndex dataEndIndex
                !! k)
     <-> exists a, a ∈ axes /\ axisKey (ax_id a) = k) /\
  (forall before a after,
     axes = before ++ a :: after ->
     (exists b, b ∈ before /\ axisKey (ax_id b) = axisKey (ax_id a)) ->
     getAxisMapByAxes props axes gis axisType stacks dataStartIndex dataEndIndex
     = getAxisMapByAxes props (before ++ after) gis axisType stacks
         dataStartIndex dataEndIndex) /\
  axisKey (IdNum 0) = axisKey (IdStr "0").
Proof.
  intros _.
  assert (L : forall (l : list (AxisProps O)) k,
    getAxisMapByAxes props l gis axisType stacks dataStartIndex dataEndIndex !! k
    = axisOfElement props axisType stacks dataStartIndex dataEndIndex gis
        <$> find (fun a => bool_decide (axisKey (ax_id a) = k)) l).
  { intros l k. unfold getAxisMapByAxes. rewrite getAxisMapByAxes_from.
    by rewrite lookup_empty. }
  split; [apply L|]. split; [|split; [|done]].
  - intros k. rewrite L, fmap_is_Some. split.
    + intros [a Ha]. apply find_some in Ha as [Hin Hk].
      apply bool_decide_eq_true in Hk. exists a. by rewrite list_elem_of_In.
    + intros (a & Hin & Hk).
      destruct (find (fun a => bool_decide (axisKey (ax_id a) = k)) axes) eqn:Hf; [done|].
      apply list_elem_of_In in Hin.
      pose proof (find_none _ _ Hf a Hin) as Hn. cbn in Hn.
      by rewrite bool_decide_eq_true_2 in Hn.
  - intros before a after -> (b & Hb & Hk). apply map_eq. intros k. rewrite !L.
    f_equal. induction before as [|c before IH]; [by apply elem_of_nil in Hb|].
    cbn. destruct (bool_decide (axisKey (ax_id c) = k)) eqn:Ec; [done|].
    apply elem_of_cons in Hb as [->|Hb].
    + clear IH. apply bool_decide_eq_false in Ec.
      induction before as [|c' before IH]; cbn.
      * rewrite bool_decide_eq_false_2; [done | congruence].
      * by destruct (bool_decide (axisKey (ax_id c') = k)).
    + by apply IH.
Qed.

(** X14. When the domain an axis element specifies counts as given by the
    user and parses to a list that is not empty, the record built for the
    element carries that list as its domain and no duplicate-domain, whatever
    the data, the series, the stacks and the window are; the original domain
    is the one specified. *)
Theorem user_domain_adopted {O} (props : CategoricalChartProps) (axisType : AxisType)
    (stacks : option (gmap string AxisStack)) (dataStartIndex dataEndIndex : option Z)
    (gis : list GraphicalItem) (a : AxisProps O) :
  isDomainSpecifiedByUser (ax_domain a) (ax_allowDataOverflow a) (ax_type a) = true ->
  parseSpecifiedDomain (ax_domain a) None (ax_allowDataOverflow a) <> [] ->
  let r := axisOfElement props axisType stacks dataStartIndex dataEndIndex gis a in
  ar_domain r = parseSpecifiedDomain (ax_domain a) None (ax_allowDataOverflow a) /\
  ar_duplicateDomain r = None /\
  ar_originalDomain r = coalesce (ax_domain a) (getDefaultDomainByAxisType (ax_type a)) /\
  forall props' axisType' stacks' dataStartIndex' dataEndIndex' gis',
    ar_domain (axisOfElement props' axisType' stacks' dataStartIndex' dataEndIndex' gis' a)
    = ar_domain r.
Proof.
  intros Hs Hne.
  assert (L : forall props' axisType' stacks' s' e' gis',
    ar_domain (axisOfElement props' axisType' stacks' s' e' gis' a)
    = parseSpecifiedDomain (ax_domain a) None (ax_allowDataOverflow a) /\
    ar_duplicateDomain (axisOfElement props' axisType' stacks' s' e' gis' a) = None).
  { intros. unfold axisOfElement. rewrite Hs. cbn [andb].
    destruct (parseSpecifiedDomain (ax_domain a) None (ax_allowDataOverflow a));
      [done | by cbn]. }
  intros r. unfold r. split; [apply L|]. split; [apply L|]. split.
  - unfold axisOfElement.
    repeat match goal with
           | |- context [let '(_, _) := ?x in _] => destruct x
           end. done.
  - intros. by rewrite !(proj1 (L _ _ _ _ _ _)).
Qed.

Lemma range0_length (n : nat) : length (range0 n) = n.
Proof. unfold range0. by rewrite length_map, length_seq. Qed.

Lemma range0_lookup (n i : nat) :
  (i < n)%nat -> range0 n !! i = Some (PNum (inject_Z (Z.of_nat i))).
Proof.
  intros H. unfold range0.
  change (map ?f ?l) with (f <$> l). rewrite list_lookup_fmap, lookup_seq_lt by done.
  done.
Qed.

(** X15. A category axis element that is the categorical axis of the layout,
    has no data key and specifies no domain gets the serial numbers of the
    records displayed for it as its domain: [0, 1, ..., N - 1] for [N]
    displayed records, with no duplicate-domain. *)
Theorem categorical_axis_without_key {O} (props : CategoricalChartProps)
    (axisType : AxisType) (stacks : option (gmap string AxisStack))
    (dataStartIndex dataEndIndex : option Z) (gis : list GraphicalItem)
    (a : AxisProps O) :
  ax_type a = TCategory ->
  isCategoricalAxis (layout props) axisType = true ->
  key_truthy (ax_dataKey a) = None ->
  ax_domain a = None ->
  isDomainSpecifiedByUser None (ax_allowDataOverflow a) TCategory = false ->
  let r := axisOfElement props axisType stacks dataStartIndex dataEndIndex gis a in
  let displayed :=
    getDisplayedData (data props) (Some (itemsOfAxis axisType (Some (ax_id a)) gis))
      dataStartIndex dataEndIndex in
  ar_domain r = range0 (length displayed) /\
  length (ar_domain r) = length displayed /\
  (forall i, (i < length displayed)%nat ->
     ar_domain r !! i = Some (PNum (inject_Z (Z.of_nat i)))) /\
  ar_duplicateDomain r = None.
Proof.
  intros Ht Hc Hk Hd Hs r displayed.
  assert (E : ar_domain r = range0 (length displayed) /\ ar_duplicateDomain r = None).
  { unfold r, axisOfElement. fold displayed. rewrite Ht, Hc, Hk, Hd, Hs. by cbn. }
  destruct E as [E1 E2]. rewrite E1.
  split; [done|]. split; [apply range0_length|]. split; [|done].
  intros i Hi. by apply range0_lookup.
Qed.

Lemma uniqueDefinedEntries_from (l acc : list prim) :
  Forall (fun e => definedEntry e = true) acc -> distinctEntries acc ->
  Forall (fun e => definedEntry e = true)
    (fold_left
       (fun finalDomain entry =>
          if (0 <=? indexOf finalDomain entry)%Z || strict_eq entry (PStr "") || isNil entry
          then finalDomain
          else finalDomain ++ [entry])
       l acc) /\
  distinctEntries
    (fold_left
       (fun finalDomain entry =>
          if (0 <=? indexOf finalDomain entry)%Z || strict_eq entry (PStr "") || isNil entry
          then finalDomain
          else finalDomain ++ [entry])
       l acc).
Proof.
  revert acc. induction l as [|x l IH]; intros acc Hf Hd; cbn [fold_left]; [done|].
  destruct ((0 <=? indexOf acc x)%Z || strict_eq x (PStr "") || isNil x) eqn:Hc.
  - by apply IH.
  - apply orb_false_iff in Hc as [Hc H3]. apply orb_false_iff in Hc as [H1 H2].
    apply IH.
    + apply Forall_app. split; [done|]. constructor; [|constructor].
      unfold definedEntry. by rewrite H2, H3.
    + apply distinctEntries_snoc; [done|]. by rewrite <- indexOf_found.
Qed.

(** X16. A category-type axis element that is not the categorical axis of the
    layout, has a data key and specifies no domain never has the empty
    string, [null] or [undefined] in its domain; when duplicated categories
    are not allowed, no two entries of the domain are equal either. *)
Theorem blank_categories_dropped {O} (props : CategoricalChartProps)
    (axisType : AxisType) (stacks : option (gmap string AxisStack))
    (dataStartIndex dataEndIndex : option Z) (gis : list GraphicalItem)
    (a : AxisProps O) :
  ax_type a = TCategory ->
  isCategoricalAxis (layout props) axisType = false ->
  key_truthy (ax_dataKey a) <> None ->
  ax_domain a = None ->
  isDomainSpecifiedByUser None (ax_allowDataOverflow a) TCategory = false ->
  let r := axisOfElement props axisType stacks dataStartIndex dataEndIndex gis a in
  Forall (fun entry => definedEntry entry = true) (ar_domain r) /\
  (ax_allowDuplicatedCategory a = false -> distinctEntries (ar_domain r)) /\
  (ax_allowDuplicatedCategory a = true ->
   ar_domain r
   = List.filter definedEntry
       (getDomainOfDataByKey
          (getDisplayedData (data props)
             (Some (itemsOfAxis axisType (Some (ax_id a)) gis))
             dataStartIndex dataEndIndex)
          (ax_dataKey a) TCategory)) /\
  ar_duplicateDomain r = None.
Proof.
  intros Ht Hc Hk Hd Hs r.
  destruct (key_truthy (ax_dataKey a)) as [key|] eqn:Ek; [clear Hk | done].
  unfold r, axisOfElement. rewrite Ht, Hc, Ek, Hd, Hs. cbn [andb coalesce
    getDefaultDomainByAxisType is_number].
  destruct (ax_allowDuplicatedCategory a) eqn:Ea; cbn.
  - split; [|split; [done | split; done]].
    unfold definedEntries. apply List.Forall_forall. intros x Hx.
    apply List.filter_In in Hx as [_ Hx]. exact Hx.
  - match goal with
    | |- context [uniqueDefinedEntries ?l] =>
        destruct (uniqueDefinedEntries_from l []) as [H1 H2];
          [constructor | by intros i j x y _ Hi; rewrite lookup_nil in Hi |]
    end.
    split; [exact H1 | split; [intros _; exact H2 | split; done]].
Qed.

Lemma fold_left_map_Forall {O} (axisType : AxisType) (all : list GraphicalItem)
    (P : string -> AxisRec O -> Prop)
    (step : gmap string (AxisRec O) * nat -> GraphicalItem ->
            gmap string (AxisRec O) * nat) :
  (forall m n child,
     child ∈ all ->
     step (m, n) child = (m, n) \/
     exists r, P (axisKeyOpt (item_axisId child axisType)) r /\
               step (m, n) child
               = (<[axisKeyOpt (item_axisId child axisType) := r]> m, S n)) ->
  forall (gis : list GraphicalItem) (m : gmap string (AxisRec O)) (n : nat),
    (forall g, g ∈ gis -> g ∈ all) ->
    map_Forall P m -> map_Forall P (fold_left step gis (m, n)).1.
Proof.
  intros Hstep gis. induction gis as [|g gis IH]; intros m n Hin Hm; cbn [fold_left];
    [done|].
  assert (Hrest : forall g', g' ∈ gis -> g' ∈ all)
    by (intros g' Hg'; apply Hin; by apply list_elem_of_further).
  destruct (Hstep m n g) as [E|(r & Hr & E)]; [apply Hin, list_elem_of_here | |];
    rewrite E.
  - by apply IH.
  - apply IH; [done|]. by apply map_Forall_insert_2.
Qed.

Lemma getAxisMapByItems_declared {O} (props : CategoricalChartProps)
    (gis : list GraphicalItem) (Axis_defaultProps : AxisProps O) (orient : nat -> O)
    (axisType : AxisType) (stacks : option (gmap string AxisStack))
    (dataStartIndex dataEndIndex : option Z) (item : GraphicalItem) :
  item ∈ gis ->
  is_Some (getAxisMapByItems props gis Axis_defaultProps orient axisType stacks
             dataStartIndex dataEndIndex
           !! axisKeyOpt (item_axisId item axisType)).
Proof.
  intros Hin. unfold getAxisMapByItems.
  match goal with
  | |- is_Some ((fold_left ?f gis (∅, 0%nat)).1 !! _) =>
      enough (G : forall (l : list GraphicalItem)
                    (acc : gmap string (AxisRec O) * nat),
        (item ∈ l \/ is_Some (acc.1 !! axisKeyOpt (item_axisId item axisType))) ->
        is_Some ((fold_left f l acc).1 !! axisKeyOpt (item_axisId item axisType)))
        by (apply G; by left)
  end.
  induction l as [|g l IH]; intros [m0 n] H; cbn [fold_left].
  - destruct H as [H|H]; [by apply elem_of_nil in H | done].
  - apply IH. cbn beta iota zeta.
    destruct H as [H|H].
    + apply elem_of_cons in H as [->|H]; [|by left]. right.
      destruct (m0 !! axisKeyOpt (item_axisId g axisType)) eqn:Hlk; cbn [fst].
      * by rewrite Hlk.
      * by rewrite lookup_insert_eq.
    + right. cbn [fst] in H.
      destruct (m0 !! axisKeyOpt (item_axisId g axisType)) eqn:Hlk; cbn [fst]; [done|].
      destruct (decide (axisKeyOpt (item_axisId g axisType)
                        = axisKeyOpt (item_axisId item axisType))) as [E|E].
      * rewrite E. by rewrite lookup_insert_eq.
      * by rewrite lookup_insert_ne.
Qed.

(** X17. Every axis implied by the series, when a dimension has no axis
    element, is hidden, has the original domain [0, 'auto'], no
    duplicate-domain and no categorical domain, and is keyed by the axis id
    of one of the series; if the dimension is the categorical one its domain
    is the serial numbers of the displayed records. Every series whose id is
    not a name that all objects inherit finds an axis under its id. *)
Theorem implied_axes_hidden {O} (props : CategoricalChartProps)
    (gis : list GraphicalItem) (Axis_defaultProps : AxisProps O) (orient : nat -> O)
    (axisType : AxisType) (stacks : option (gmap string AxisStack))
    (dataStartIndex dataEndIndex : option Z) :
  let m :=
    getAxisMapByItems props gis Axis_defaultProps orient axisType stacks
      dataStartIndex dataEndIndex in
  (forall k r,
     m !! k = Some r ->
     ax_hide (ar_props r) = true /\
     ar_originalDomain r = Some [PNum 0; PStr "auto"] /\
     ar_duplicateDomain r = None /\ ar_categoricalDomain r = None /\
     ar_axisType r = axisType /\
     (exists i, ax_orientation (ar_props r) = orient i /\ (i < 2)%nat) /\
     (isCategoricalAxis (layout props) axisType = true ->
      ar_domain r
      = range0 (length (getDisplayedData (data props) (Some gis)
                          dataStartIndex dataEndIndex))) /\
     exists item, item ∈ gis /\ k = axisKeyOpt (item_axisId item axisType)) /\
  (forall item,
     item ∈ gis -> ownKey (axisKeyOpt (item_axisId item axisType)) = true ->
     is_Some (m !! axisKeyOpt (item_axisId item axisType))).
Proof.
  intros m. unfold m, getAxisMapByItems. split.
  - match goal with
    | |- forall k r, (fold_left ?f gis (∅, 0%nat)).1 !! k = Some r -> @?Q k r =>
        apply (fold_left_map_Forall axisType gis Q f)
    end; [|done|apply map_Forall_empty].
    intros m0 n child Hin. cbn beta iota zeta.
    destruct (m0 !! axisKeyOpt (item_axisId child axisType)) eqn:Hm; [by left|].
    right. eexists. split; [|reflexivity].
    cbn. repeat split; try done.
    + exists (n mod 2)%nat. split; [done|]. apply Nat.mod_upper_bound. lia.
    + intros ->. done.
    + by exists child.
  - intros item Hin _. by apply getAxisMapByItems_declared.
Qed.

(** ** Plot offset of charts without visible axes *)

Lemma fold_left_unchanged {A B} (f : A -> B -> A) (l : list B) (a : A) :
  (forall x acc, x ∈ l -> f acc x = acc) -> fold_left f l a = a.
Proof.
  revert a. induction l as [|x l IH]; intros a H; cbn; [done|].
  rewrite H by apply list_elem_of_here. apply IH.
  intros y acc Hy. apply H. by apply list_elem_of_further.
Qed.

(** X18. Axes that are hidden or mirrored take no room: when every x and y
    axis is hidden or mirrored and no legend box applies, the plot is the
    chart less its margins and the brush. Left, right and top are the
    margins, the bottom is the bottom margin plus the height of the brush
    (its own, or the default one when it has none or zero), and the width and
    height are what is left of the chart, or zero. *)
Theorem hidden_axes_take_no_room (props : CategoricalChartProps)
    (gis : list GraphicalItem) (xAxisMap : gmap string (AxisRec XOrientation))
    (yAxisMap : gmap string (AxisRec YOrientation)) (box : option DOMRect) :
  map_Forall (fun _ r => ax_mirror (ar_props r) || ax_hide (ar_props r) = true) xAxisMap ->
  map_Forall (fun _ r => ax_mirror (ar_props r) || ax_hide (ar_props r) = true) yAxisMap ->
  legend props = false \/ box = None ->
  let r := calculateOffset props gis xAxisMap yAxisMap box in
  let side f := or0 (margin props ≫= f) in
  let brushHeight :=
    match brush props with
    | Some b => orElse (br_height b) Brush_defaultProps_height
    | None => 0
    end in
  o_left r = side margin_left /\ o_right r = side margin_right /\
  o_top r = side margin_top /\
  o_bottom r == side margin_bottom + brushHeight /\
  o_brushBottom r = side margin_bottom /\
  o_width r == Qmax (numberOf (p_width props) - side margin_left - side margin_right) 0 /\
  o_height r
  == Qmax (numberOf (p_height props) - side margin_top - side margin_bottom - brushHeight) 0.
Proof.
  intros Hx Hy Hl r side brushHeight.
  assert (Ey : forall init : Q * Q,
    fold_left
      (fun (result : Q * Q) (kv : string * AxisRec YOrientation) =>
         let entry := ar_props kv.2 in
         if negb (ax_mirror entry) && negb (ax_hide entry) then
           match ax_orientation entry with
           | OLeft => (result.1 + ax_width entry, result.2)
           | ORight => (result.1, result.2 + ax_width entry)
           end
         else result)
      (map_to_list yAxisMap) init = init).
  { intros init. apply fold_left_unchanged. intros [k a] acc Hin.
    apply elem_of_map_to_list in Hin. apply Hy in Hin. cbn in *.
    by destruct (ax_mirror (ar_props a)), (ax_hide (ar_props a)). }
  assert (Ex : forall init : Q * Q,
    fold_left
      (fun (result : Q * Q) (kv : string * AxisRec XOrientation) =>
         let entry := ar_props kv.2 in
         if negb (ax_mirror entry) && negb (ax_hide entry) then
           match ax_orientation entry with
           | OTop => (result.1 + ax_height entry, result.2)
           | OBottom => (result.1, result.2 + ax_height entry)
           end
         else result)
      (map_to_list xAxisMap) init = init).
  { intros init. apply fold_left_unchanged. intros [k a] acc Hin.
    apply elem_of_map_to_list in Hin. apply Hx in Hin. cbn in *.
    by destruct (ax_mirror (ar_props a)), (ax_hide (ar_props a)). }
  subst r side brushHeight. unfold calculateOffset. rewrite Ex, Ey.
  destruct Hl as [Hl|Hl]; rewrite Hl; [|destruct (legend props)];
    destruct (brush props) as [b|];
    cbn [fst snd e_top e_bottom e_left e_right o_left o_right o_top o_bottom
         o_brushBottom o_width o_height];
    repeat split; try reflexivity; try ring;
    apply Q.max_compat; try reflexivity; ring.
Qed.

Lemma getAxisMapByItems_hidden {O} (props : CategoricalChartProps)
    (gis : list GraphicalItem) (Axis_defaultProps : AxisProps O) (orient : nat -> O)
    (axisType : AxisType) (stacks : option (gmap string AxisStack))
    (dataStartIndex dataEndIndex : option Z) :
  map_Forall (fun _ r => ax_mirror (ar_props r) || ax_hide (ar_props r) = true)
    (getAxisMapByItems props gis Axis_defaultProps orient axisType stacks
       dataStartIndex dataEndIndex).
Proof.
  unfold getAxisMapByItems.
  match goal with
  | |- map_Forall ?Q (fold_left ?f gis (∅, 0%nat)).1 =>
      apply (fold_left_map_Forall axisType gis Q f)
  end; [|done|apply map_Forall_empty].
  intros m0 n child Hin. cbn beta iota zeta.
  destruct (m0 !! axisKeyOpt (item_axisId child axisType)) eqn:Hm; [by left|].
  right. eexists. split; [|reflexivity]. cbn. apply orb_true_r.
Qed.

(** ** The axis-id check of a pass *)

Lemma getAxisMapByAxes_keys {O} (props : CategoricalChartProps)
    (axes : list (AxisProps O)) (gis : list GraphicalItem) (axisType : AxisType)
    (stacks : option (gmap string AxisStack)) (dataStartIndex dataEndIndex : option Z)
    (k : string) :
  is_Some (getAxisMapByAxes props axes gis axisType stacks dataStartIndex dataEndIndex !! k)
  <-> k ∈ map (fun a => axisKey (ax_id a)) axes.
Proof.
  rewrite elem_of_map. split.
  - intros [r Hr]. apply getAxisMapByAxes_lookup in Hr as (a & Ha & -> & _). eauto.
  - intros (a & -> & Ha). by apply getAxisMapByAxes_declared.
Qed.

Lemma declared_axisMapOf {O} (opts : CategoricalChartOptions)
    (props : CategoricalChartProps) (t : AxisType) (axes : list (AxisProps O))
    (Axis_defaultProps : AxisProps O) (orient : nat -> O) (stacks : gmap string AxisStack)
    (dataStartIndex dataEndIndex : option Z) (o : ChartOffset) (item : GraphicalItem) :
  (forall (m : gmap string (AxisRec O)) k,
     is_Some (formatAxisMap opts O props m o t !! k) <-> is_Some (m !! k)) ->
  t ∈ axisComponents opts -> item ∈ items props ->
  declared
    ((fun m => formatAxisMap opts O props m o t)
       <$> axisMapOf opts props t axes Axis_defaultProps orient stacks
             dataStartIndex dataEndIndex)
    (item_axisId item t) = true
  <-> axes = [] \/
      axisKeyOpt (item_axisId item t) ∈ map (fun a => axisKey (ax_id a)) axes.
Proof.
  intros Hfmt Ht Hitem. unfold declared, axisMapOf.
  rewrite (bool_decide_eq_true_2 _ Ht). cbn [fmap option_fmap option_map mbind option_bind].
  match goal with
  | |- match ?x with Some _ => true | None => false end = true <-> _ =>
      assert (E : match x with Some _ => true | None => false end = true <-> is_Some x)
        by (destruct x; split; (done || by intros [? ?] || eauto));
      rewrite E; clear E
  end.
  rewrite Hfmt. unfold getAxisMap.
  destruct axes as [|a axes].
  - cbn [nonempty]. destruct (items props) as [|g gis] eqn:Hi;
      [by apply elem_of_nil in Hitem|]. cbn [nonempty].
    split; [by left|]. intros _. by apply getAxisMapByItems_declared.
  - cbn [nonempty]. rewrite getAxisMapByAxes_keys. split; [by right|].
    by intros [?|?].
Qed.

Lemma getFormatItems_cons (opts : CategoricalChartOptions)
    (xAxisMap : option (gmap string (AxisRec XOrientation)))
    (yAxisMap : option (gmap string (AxisRec YOrientation)))
    (zAxisMap angleAxisMap radiusAxisMap : option (gmap string (AxisRec unit)))
    (index : nat) (item : GraphicalItem) (rest : list GraphicalItem) :
  getFormatItems opts xAxisMap yAxisMap zAxisMap angleAxisMap radiusAxisMap index
    (item :: rest)
  = if forallb
         (fun axisType =>
            axisFound xAxisMap yAxisMap zAxisMap angleAxisMap radiusAxisMap item axisType
            || bool_decide (axisType = ZAxis))
         (axisComponents opts)
    then
      formatted ← getFormatItems opts xAxisMap yAxisMap zAxisMap angleAxisMap
                    radiusAxisMap (S index) rest;
      Returned (if item_getComposedData item
                then (item, formattedKey item index) :: formatted
                else formatted)
    else Thrown "Invariant failed".
Proof. reflexivity. Qed.

Lemma getFormatItems_returns (opts : CategoricalChartOptions)
    (xAxisMap : option (gmap string (AxisRec XOrientation)))
    (yAxisMap : option (gmap string (AxisRec YOrientation)))
    (zAxisMap angleAxisMap radiusAxisMap : option (gmap string (AxisRec unit)))
    (gis : list GraphicalItem) :
  (forall item t,
     item ∈ gis -> t ∈ axisComponents opts -> t <> ZAxis ->
     axisFound xAxisMap yAxisMap zAxisMap angleAxisMap radiusAxisMap item t = true) ->
  forall index,
  exists formatted,
    getFormatItems opts xAxisMap yAxisMap zAxisMap angleAxisMap radiusAxisMap index gis
    = Returned formatted /\
    map fst formatted = List.filter item_getComposedData gis.
Proof.
  induction gis as [|item rest IH]; intros Hall index.
  - by exists [].
  - rewrite getFormatItems_cons.
    assert (Hok : forallb
      (fun axisType =>
         axisFound xAxisMap yAxisMap zAxisMap angleAxisMap radiusAxisMap item axisType
         || bool_decide (axisType = ZAxis)) (axisComponents opts) = true).
    { apply forallb_forall. intros t Ht%list_elem_of_In.
      destruct (decide (t = ZAxis)) as [->|Hz].
      - by rewrite bool_decide_eq_true_2, orb_true_r.
      - rewrite Hall; [done | apply list_elem_of_here | done | done]. }
    rewrite Hok.
    destruct (IH (fun i t Hi => Hall i t (list_elem_of_further _ _ _ Hi)) (S index))
      as (formatted & -> & Hf).
    cbn. eexists. split; [done|].
    destruct (item_getComposedData item); cbn; by rewrite Hf.
Qed.

Lemma getFormatItems_throws (opts : CategoricalChartOptions)
    (xAxisMap : option (gmap string (AxisRec XOrientation)))
    (yAxisMap : option (gmap string (AxisRec YOrientation)))
    (zAxisMap angleAxisMap radiusAxisMap : option (gmap string (AxisRec unit)))
    (gis : list GraphicalItem) (item : GraphicalItem) (t : AxisType) :
  item ∈ gis -> t ∈ axisComponents opts -> t <> ZAxis ->
  axisFound xAxisMap yAxisMap zAxisMap angleAxisMap radiusAxisMap item t = false ->
  forall index,
    getFormatItems opts xAxisMap yAxisMap zAxisMap angleAxisMap radiusAxisMap index gis
    = Thrown "Invariant failed".
Proof.
  intros Hin Ht Hz Hf. induction gis as [|g rest IH]; intros index;
    [by apply elem_of_nil in Hin|].
  rewrite getFormatItems_cons.
  destruct (forallb _ (axisComponents opts)) eqn:Hok; [|done].
  apply elem_of_cons in Hin as [->|Hin].
  - rewrite forallb_forall in Hok. apply list_elem_of_In in Ht.
    specialize (Hok t Ht). rewrite Hf in Hok. cbn in Hok.
    by apply bool_decide_eq_true in Hok.
  - by rewrite (IH Hin).
Qed.

Lemma map_nil_iff {A B} (f : A -> B) (l : list A) : map f l = [] <-> l = [].
Proof. by destruct l. Qed.

(** X19. For a chart of valid size, with an axis formatter that keeps the
    keys of an axis map and series ids that are not names every object
    inherits: a pass throws when some series names, in a dimension of the
    chart other than z that has axis elements, an axis id that none of these
    elements declares; otherwise, in particular for every chart without axis
    elements, the axis-id check of the pass succeeds and the pass stores all
    the series and formats those that compose geometry, in order. *)
Theorem axis_id_invariant (opts : CategoricalChartOptions)
    (props : CategoricalChartProps) (dataStartIndex dataEndIndex : option Z)
    (prevState : option CategoricalChartState) :
  validateWidthHeight props = true ->
  (forall O (p : CategoricalChartProps) (m : gmap string (AxisRec O)) o t k,
     is_Some (formatAxisMap opts O p m o t !! k) <-> is_Some (m !! k)) ->
  forallb
    (fun item =>
       forallb (fun t => ownKey (axisKeyOpt (item_axisId item t))) (axisComponents opts))
    (items props) = true ->
  ((exists item t,
      item ∈ items props /\ t ∈ axisComponents opts /\ t <> ZAxis /\
      axisElementKeys props t <> [] /\
      axisKeyOpt (item_axisId item t) ∉ axisElementKeys props t) ->
   exists msg,
     updateStateOfAxisMapsOffsetAndStackGroups opts props dataStartIndex dataEndIndex
       prevState = Thrown msg) /\
  ((forall item t,
      item ∈ items props -> t ∈ axisComponents opts -> t <> ZAxis ->
      axisElementKeys props t = [] \/
      axisKeyOpt (item_axisId item t) ∈ axisElementKeys props t) ->
   exists d,
     updateStateOfAxisMapsOffsetAndStackGroups opts props dataStartIndex dataEndIndex
       prevState = Returned (Some d) /\
     d_graphicalItems d = items props /\
     map fst (d_formattedGraphicalItems d)
     = List.filter item_getComposedData (items props)).
Proof.
  intros Hv Hfmt _. unfold updateStateOfAxisMapsOffsetAndStackGroups.
  rewrite Hv. cbn [negb]. cbv zeta.
  match goal with
  | |- context [getFormatItems opts ?x ?y ?z ?a ?r 0%nat (items props)] =>
      set (X := x); set (Y := y); set (Z0 := z); set (A0 := a); set (R := r)
  end.
  assert (F : forall item t,
    item ∈ items props -> t ∈ axisComponents opts ->
    axisFound X Y Z0 A0 R item t = true
    <-> axisElementKeys props t = [] \/
        axisKeyOpt (item_axisId item t) ∈ axisElementKeys props t).
  { intros item t Hi Ht.
    destruct t; cbn [axisFound axisElementKeys]; rewrite map_nil_iff;
      [subst X | subst Y | subst Z0 | subst A0 | subst R];
      apply declared_axisMapOf; try done; intros m k; apply Hfmt. }
  split.
  - intros (item & t & Hi & Ht & Hz & Hne & Hnot).
    assert (Hf : axisFound X Y Z0 A0 R item t = false).
    { destruct (axisFound X Y Z0 A0 R item t) eqn:E; [|done].
      apply F in E as [E|E]; done. }
    rewrite (getFormatItems_throws opts X Y Z0 A0 R (items props) item t Hi Ht Hz Hf).
    by eexists.
  - intros Hall.
    destruct (getFormatItems_returns opts X Y Z0 A0 R (items props)) with (index := 0%nat)
      as (formatted & -> & Hfm).
    { intros item t Hi Ht Hz. apply F; [done | done |]. by apply Hall. }
    cbn. eexists. split; [done|]. by split.
Qed.

(** ** Ordered tooltip ticks *)

Lemma insertTick_perm (t : TickItem) (l : list TickItem) : insertTick t l ≡ₚ t :: l.
Proof.
  induction l as [|u r IH]; cbn; [done|].
  destruct (Qle_bool (tick_coordinate u) (tick_coordinate t)); [|done].
  rewrite IH. apply Permutation_swap.
Qed.

Lemma insertTick_sorted (t : TickItem) (l : list TickItem) :
  StronglySorted (fun a b => tick_coordinate a <= tick_coordinate b) l ->
  StronglySorted (fun a b => tick_coordinate a <= tick_coordinate b) (insertTick t l).
Proof.
  induction 1 as [|u r Hr IH Hu]; cbn; [repeat constructor|].
  destruct (Qle_bool (tick_coordinate u) (tick_coordinate t)) eqn:E.
  - apply Qle_bool_iff in E. constructor; [exact IH|].
    rewrite insertTick_perm. by constructor.
  - assert (tick_coordinate t < tick_coordinate u) as Hlt.
    { apply Qnot_le_lt. intros Hle. apply Qle_bool_iff in Hle. congruence. }
    constructor; [by constructor|]. constructor; [lra|].
    eapply Forall_impl; [exact Hu|]. cbn. intros x Hx. lra.
Qed.

Lemma insertTick_stable (c : Q) (t : TickItem) (l : list TickItem) :
  StronglySorted (fun a b => tick_coordinate a <= tick_coordinate b) l ->
  List.filter (fun x => Qeq_bool (tick_coordinate x) c) (insertTick t l)
  = List.filter (fun x => Qeq_bool (tick_coordinate x) c) l
    ++ (if Qeq_bool (tick_coordinate t) c then [t] else []).
Proof.
  induction 1 as [|u r Hr IH Hu]; cbn; [done|].
  destruct (Qle_bool (tick_coordinate u) (tick_coordinate t)) eqn:E; cbn.
  - rewrite IH. by destruct (Qeq_bool (tick_coordinate u) c).
  - assert (tick_coordinate t < tick_coordinate u) as Hlt.
    { apply Qnot_le_lt. intros Hle. apply Qle_bool_iff in Hle. congruence. }
    destruct (Qeq_bool (tick_coordinate t) c) eqn:Et; [|by rewrite app_nil_r].
    apply Qeq_bool_iff in Et.
    assert (Hu' : Qeq_bool (tick_coordinate u) c = false).
    { destruct (Qeq_bool (tick_coordinate u) c) eqn:Eu; [|done].
      apply Qeq_bool_iff in Eu. lra. }
    rewrite Hu'.
    assert (Hnone : List.filter (fun x => Qeq_bool (tick_coordinate x) c) r = []).
    { clear IH Hr. induction Hu as [|x r Hx _ IHr]; cbn; [done|].
      destruct (Qeq_bool (tick_coordinate x) c) eqn:Ex; [|exact IHr].
      apply Qeq_bool_iff in Ex. lra. }
    by rewrite Hnone.
Qed.

Lemma sortByCoordinate_from (l acc : list TickItem) :
  StronglySorted (fun a b => tick_coordinate a <= tick_coordinate b) acc ->
  fold_left (fun acc t => insertTick t acc) l acc ≡ₚ acc ++ l /\
  StronglySorted (fun a b => tick_coordinate a <= tick_coordinate b)
    (fold_left (fun acc t => insertTick t acc) l acc) /\
  forall c,
    List.filter (fun x => Qeq_bool (tick_coordinate x) c)
      (fold_left (fun acc t => insertTick t acc) l acc)
    = List.filter (fun x => Qeq_bool (tick_coordinate x) c) (acc ++ l).
Proof.
  revert acc. induction l as [|t l IH]; intros acc Hs; cbn [fold_left].
  - by rewrite app_nil_r.
  - destruct (IH (insertTick t acc) (insertTick_sorted t acc Hs)) as (Hp & Hso & Hst).
    split; [|split; [done|]].
    + rewrite Hp, insertTick_perm. cbn [app]. apply Permutation_middle.
    + intros c. rewrite Hst, !List.filter_app, insertTick_stable by done.
      cbn. rewrite <- app_assoc. f_equal.
      by destruct (Qeq_bool (tick_coordinate t) c).
Qed.

(** X20. The ordered tooltip ticks are the tooltip ticks sorted by
    coordinate: the same ticks, each as often, in ascending order of their
    coordinates, ticks of equal coordinate keeping the order they have among
    the tooltip ticks; and there are none when the axis has no ticks. *)
Theorem orderedTooltipTicks_sorted {O} (axisMap : option (gmap string (AxisRec O))) :
  let generated := tooltipTicksGenerator axisMap in
  let tooltipTicks := default [] generated.1.1.1 in
  let orderedTooltipTicks := generated.1.1.2 in
  orderedTooltipTicks ≡ₚ tooltipTicks /\
  StronglySorted (fun a b => tick_coordinate a <= tick_coordinate b) orderedTooltipTicks /\
  (forall c,
     List.filter (fun x => Qeq_bool (tick_coordinate x) c) orderedTooltipTicks
     = List.filter (fun x => Qeq_bool (tick_coordinate x) c) tooltipTicks) /\
  length orderedTooltipTicks = length tooltipTicks.
Proof.
  cbn. unfold sortByCoordinate.
  destruct (sortByCoordinate_from
              (default [] (getTicksOfAxis O (getAnyElementOfObject O axisMap))) [])
    as (Hp & Hs & Hst); [constructor|].
  cbn [app] in *. split; [done|]. split; [done|]. split; [done|]. by rewrite Hp.
Qed.

(** ** The pointer *)

(** X21. In a cartesian layout with a plot rectangle, [inRange] answers the
    scaled point exactly when it lies in the rectangle, the edges included,
    and [null] otherwise; without a plot rectangle in the state it throws. *)
Theorem inRange_cartesian (c : Chart) (x y : Q) (scale : PointerScale) :
  is_cartesian (layout (chart_props c)) = true ->
  let sx := scaled x scale in
  let sy := scaled y scale in
  (forall o,
     offset (chart_state c) = Some o ->
     (o_left o <= sx <= o_left o + o_width o /\ o_top o <= sy <= o_top o + o_height o ->
      inRange c x y scale
      = Returned (Some {| r_x := Some sx; r_y := Some sy; r_angle := None;
                          r_radius := None; r_cx := None; r_cy := None |})) /\
     (~ insidePlot o sx sy -> inRange c x y scale = Returned None) /\
     (forall r, inRange c x y scale = Returned (Some r) ->
        insidePlot o sx sy /\ r_x r = Some sx /\ r_y r = Some sy)) /\
  (offset (chart_state c) = None -> exists msg, inRange c x y scale = Thrown msg).
Proof.
  intros Hc sx sy. unfold inRange. rewrite Hc. fold sx sy. split.
  - intros o Ho. rewrite Ho.
    assert (D : Qle_bool (o_left o) sx && Qle_bool sx (o_left o + o_width o)
                && Qle_bool (o_top o) sy && Qle_bool sy (o_top o + o_height o) = true
                <-> insidePlot o sx sy).
    { unfold insidePlot. rewrite !andb_true_iff, !Qle_bool_true. tauto. }
    destruct (Qle_bool (o_left o) sx && Qle_bool sx (o_left o + o_width o)
              && Qle_bool (o_top o) sy && Qle_bool sy (o_top o + o_height o)) eqn:E.
    + split; [done|]. split; [intros Hn; destruct Hn; by apply D|].
      intros r [= <-]. split; [by apply D | done].
    + split.
      * intros Hi. assert (insidePlot o sx sy) as Hi' by (unfold insidePlot; tauto).
        apply D in Hi'. discriminate Hi'.
      * split; [done|]. intros r [=].
  - intros ->. by eexists.
Qed.

Lemma round_near (x : Q) : x - (1 # 2) < round x /\ round x <= x + (1 # 2).
Proof.
  unfold round.
  pose proof (Qfloor_le (x + (1 # 2))) as Hl.
  pose proof (Qlt_floor (x + (1 # 2))) as Hu.
  rewrite inject_Z_plus in Hu. change (inject_Z 1) with 1 in Hu. split; lra.
Qed.

(** X22. The chart coordinates of a pointer are whole numbers within half a
    pixel of its offset in the container, a half rounding up. The scale
    between rendered and layout pixels is never zero; when the rendered and
    the layout width of the container agree it is one, and the position
    tested against the plot is the rounded offset. *)
Theorem pointer_position_rounded (ct : Container) (e : MousePointer) :
  (exists n : Z, round (pageX e - ct_left ct) = inject_Z n /\
     pageX e - ct_left ct - (1 # 2) < inject_Z n <= pageX e - ct_left ct + (1 # 2)) /\
  (exists n : Z, round (pageY e - ct_top ct) = inject_Z n /\
     pageY e - ct_top ct - (1 # 2) < inject_Z n <= pageY e - ct_top ct + (1 # 2)) /\
  (forall s, pointerScale ct = Finite s -> ~ s == 0) /\
  (ct_rectWidth ct == ct_offsetWidth ct ->
   exists s, pointerScale ct = Finite s /\ s == 1 /\
     (pointerPosition ct e).1 == round (pageX e - ct_left ct) /\
     (pointerPosition ct e).2 == round (pageY e - ct_top ct)).
Proof.
  split; [|split; [|split]].
  - eexists. split; [reflexivity|]. apply round_near.
  - eexists. split; [reflexivity|]. apply round_near.
  - intros s. unfold pointerScale.
    destruct (Qeq_bool (ct_offsetWidth ct) 0) eqn:E0.
    + destruct (Qeq_bool (ct_rectWidth ct) 0); [|done]. intros [= <-]. lra.
    + destruct (Qeq_bool (ct_rectWidth ct / ct_offsetWidth ct) 0) eqn:E1.
      * intros [= <-]. lra.
      * intros [= <-]. intros H. apply Qeq_bool_iff in H. congruence.
  - intros Hw. unfold pointerPosition, pointerScale.
    destruct (Qeq_bool (ct_offsetWidth ct) 0) eqn:E0.
    + apply Qeq_bool_iff in E0.
      assert (Qeq_bool (ct_rectWidth ct) 0 = true) as ->
        by (apply Qeq_bool_iff; lra).
      exists 1. cbn [scaled fst snd]. repeat split; try reflexivity; field.
    + assert (~ ct_offsetWidth ct == 0) as Hne.
      { intros H. apply Qeq_bool_iff in H. congruence. }
      assert (ct_rectWidth ct / ct_offsetWidth ct == 1) as H1 by (rewrite Hw; by field).
      assert (Qeq_bool (ct_rectWidth ct / ct_offsetWidth ct) 0 = false) as ->.
      { destruct (Qeq_bool (ct_rectWidth ct / ct_offsetWidth ct) 0) eqn:E; [|done].
        apply Qeq_bool_iff in E. lra. }
      eexists. split; [reflexivity|]. split; [exact H1|].
      cbn [scaled fst snd]. rewrite H1. split; field.
Qed.

(** ** Handlers and synchronisation *)

Lemma getMouseInfo_outside (opts : CategoricalChartOptions) (c : Chart)
    (ct : Container) (e : MousePointer) :
  container c = Some ct -> pointerOutside c ct e ->
  getMouseInfo opts c e = Returned None.
Proof.
  intros Hc Hout.
  assert (Hin : inRange c (round (pageX e - ct_left ct)) (round (pageY e - ct_top ct))
                  (pointerScale ct) = Returned None).
  { unfold pointerOutside, pointerPosition in Hout. unfold inRange. cbn [fst snd] in Hout.
    destruct (is_cartesian (layout (chart_props c))).
    - destruct Hout as (o & Ho & Hn). rewrite Ho.
      match goal with |- Returned (if ?b then _ else _) = _ => destruct b eqn:E end;
        [|reflexivity].
      exfalso. apply Hn. unfold insidePlot.
      rewrite !andb_true_iff, !Qle_bool_true in E. tauto.
    - destruct (derived (chart_state c) ≫= d_angleAxisMap) as [am|]; [|reflexivity].
      destruct (derived (chart_state c) ≫= d_radiusAxisMap); [|reflexivity].
      by rewrite Hout. }
  unfold getMouseInfo. rewrite Hc. cbn zeta. by rewrite Hin.
Qed.

(** X23. A click or a mouse-enter whose pointer is outside the plot, or on a
    chart that has no container yet, leaves the state as it is and broadcasts
    nothing, where a mouse move in the same place deactivates the tooltip and
    broadcasts that. *)
Theorem click_outside_changes_nothing (opts : CategoricalChartOptions) (c : Chart)
    (e : MousePointer) :
  container c = None \/ (exists ct, container c = Some ct /\ pointerOutside c ct e) ->
  handleClick opts c e = Returned (chart_state c, []) /\
  handleMouseEnter opts c e = Returned (chart_state c, []) /\
  triggeredAfterMouseMove opts c e
  = Returned (setState (chart_state c) (withActive emptyPatch false),
              triggerSyncEvent c (withActive emptyPatch false)).
Proof.
  intros H.
  assert (Hm : getMouseInfo opts c e = Returned None).
  { destruct H as [H|(ct & Hc & Hout)].
    - unfold getMouseInfo. by rewrite H.
    - by apply (getMouseInfo_outside opts c ct e). }
  unfold handleClick, handleMouseEnter, triggeredAfterMouseMove. by rewrite Hm.
Qed.

Lemma getMouseInfo_patch (opts : CategoricalChartOptions) (c : Chart)
    (e : MousePointer) (m : Patch) :
  getMouseInfo opts c e = Returned (Some m) ->
  exists x y t, m = patchOfTooltipData x y t.
Proof.
  unfold getMouseInfo. destruct (container c) as [ct|]; [|discriminate].
  cbv zeta. destruct (inRange c _ _ _) as [[r|]|]; cbn; try discriminate.
  destruct (getTooltipData _ _ _ _) as [t|]; cbn; [|discriminate].
  destruct (getTooltipEventType opts c).
  - destruct t; [|discriminate]. intros [= <-]. eauto.
  - destruct (derived (chart_state c) ≫= d_xAxisMap);
      [|destruct t; [|discriminate]; intros [= <-]; eauto].
    destruct (derived (chart_state c) ≫= d_yAxisMap);
      [|destruct t; [|discriminate]; intros [= <-]; eauto].
    destruct (getAnyElementOfObject _ _); [|discriminate].
    destruct (getAnyElementOfObject _ _); [|discriminate].
    intros [= <-]. eauto.
Qed.

Lemma applySyncEvent_hover (opts : CategoricalChartOptions) (c : Chart)
    (syncData : Patch) (broadcast : TooltipIndex) (o : ChartOffset)
    (ticks : list TickItem) (axis : TooltipAxis) :
  p_dataStartIndex syncData = None ->
  p_dataEndIndex syncData = None ->
  p_activeTooltipIndex syncData = Some broadcast ->
  offset (chart_state c) = Some o ->
  tooltipTicks (chart_state c) = Some ticks ->
  tooltipAxis (chart_state c) = Some axis ->
  let index := syncedIndex (syncMethod (chart_props c)) ticks syncData broadcast in
  exists st' payload,
    applySyncEvent opts c syncData = Returned st' /\
    getTooltipContent (chart_state c) (data (chart_props c)) (toIndex index) PUndefined
    = Returned payload /\
    activeTooltipIndex st' = index /\
    activePayload st' = payload /\
    activeLabel st' = default PUndefined (tick_value <$> js_at ticks (toIndex index)) /\
    activeCoordinate st'
    = Some (syncedCoordinate (layout (chart_props c)) o ticks syncData (toIndex index)) /\
    isTooltipActive st'
    = coalesce (p_isTooltipActive syncData) (isTooltipActive (chart_state c)) /\
    dataStartIndex st' = dataStartIndex (chart_state c) /\
    dataEndIndex st' = dataEndIndex (chart_state c) /\
    derived st' = derived (chart_state c).
Proof.
  intros Hs He Hi Ho Ht Hax index.
  destruct (getTooltipContent_of_number (chart_state c) (data (chart_props c))
              (toIndex index) PUndefined axis Hax) as (payload & Hp & _).
  unfold applySyncEvent. rewrite Hs, He, Hi, Ho, Ht.
  fold (syncedIndex (syncMethod (chart_props c)) ticks syncData broadcast).
  fold index. rewrite Hp. cbn.
  eexists _, payload. split; [reflexivity|].
  split; [done|]. cbn. rewrite Hs, He.
  repeat split; try reflexivity.
Qed.

Lemma receive_from_peer (opts : CategoricalChartOptions) (a b : Chart) (syncData : Patch) :
  strict_eq (syncId (chart_props b)) (syncId (chart_props a)) = true ->
  eventEmitterSymbol a <> eventEmitterSymbol b ->
  handleReceiveSyncEvent opts b (syncId (chart_props a)) syncData (eventEmitterSymbol a)
  = applySyncEvent opts b syncData.
Proof.
  intros Hid Hne. unfold handleReceiveSyncEvent. rewrite Hid.
  by rewrite (proj2 (Nat.eqb_neq _ _) Hne).
Qed.

Lemma triggerSyncEvent_emits (c : Chart) (syncData : Patch) :
  syncId (chart_props c) <> PUndefined ->
  triggerSyncEvent c syncData
  = [{| msg_syncId := syncId (chart_props c); msg_data := syncData;
        msg_emitter := eventEmitterSymbol c |}].
Proof. unfold triggerSyncEvent. by destruct (syncId (chart_props c)). Qed.

(** X24. When a mouse move on a chart with a sync id has been handled, one
    message goes out, and a peer with the same sync id, another emitter, the
    'index' policy and a computed layout that receives it ends with the same
    tooltip activity as the sender; if the message carries a tooltip index,
    sender and peer both have that index afterwards, the peer with the label
    of its own tick there; the window and the layout of the peer are
    untouched. *)
Theorem hover_reaches_peer (opts : CategoricalChartOptions) (a b : Chart)
    (e : MousePointer) (stA : CategoricalChartState) (msgs : list SyncMessage)
    (o : ChartOffset) (ticks : list TickItem) (axis : TooltipAxis) :
  triggeredAfterMouseMove opts a e = Returned (stA, msgs) ->
  syncId (chart_props a) <> PUndefined ->
  strict_eq (syncId (chart_props b)) (syncId (chart_props a)) = true ->
  eventEmitterSymbol a <> eventEmitterSymbol b ->
  syncMethod (chart_props b) = SyncIndex ->
  offset (chart_state b) = Some o ->
  tooltipTicks (chart_state b) = Some ticks ->
  tooltipAxis (chart_state b) = Some axis ->
  exists msg stB active,
    msgs = [msg] /\
    msg_syncId msg = syncId (chart_props a) /\
    msg_emitter msg = eventEmitterSymbol a /\
    handleReceiveSyncEvent opts b (msg_syncId msg) (msg_data msg) (msg_emitter msg)
    = Returned stB /\
    isTooltipActive stA = Some active /\
    isTooltipActive stB = Some active /\
    (forall j,
       p_activeTooltipIndex (msg_data msg) = Some j ->
       active = true /\
       activeTooltipIndex stA = Some j /\ activeTooltipIndex stB = Some j /\
       activeLabel stB = default PUndefined (tick_value <$> js_at ticks j)) /\
    dataStartIndex stB = dataStartIndex (chart_state b) /\
    dataEndIndex stB = dataEndIndex (chart_state b) /\
    derived stB = derived (chart_state b).
Proof.
  intros Hmove Hid Heq Hne Hmethod Ho Ht Hax.
  unfold triggeredAfterMouseMove in Hmove.
  destruct (getMouseInfo opts a e) as [mouse|] eqn:Hm; cbn in Hmove; [|discriminate].
  injection Hmove as <- <-.
  rewrite triggerSyncEvent_emits by done.
  match goal with
  | |- context [[?m]] => exists m
  end.
  cbn [msg_syncId msg_data msg_emitter].
  rewrite receive_from_peer by done.
  destruct mouse as [m|].
  - apply getMouseInfo_patch in Hm as (x & y & t & ->).
    destruct t as [t|].
    + destruct (applySyncEvent_hover opts b
                  (withActive (patchOfTooltipData x y (Some t)) true)
                  (td_activeTooltipIndex t) o ticks axis)
        as (stB & payload & HB & _ & Hi & _ & Hl & _ & Hact & Hs & He & Hd);
        try done.
      rewrite Hmethod in Hi, Hl. cbn [syncedIndex] in Hi, Hl.
      exists stB, true. rewrite HB.
      do 6 (split; [done|]). split; [|done].
      intros j [= <-]. done.
    + exists (setState (chart_state b) (withActive (patchOfTooltipData x y None) true)),
        true.
      do 6 (split; [done|]). split; [|done]. intros j [=].
  - exists (setState (chart_state b) (withActive emptyPatch false)), false.
    do 6 (split; [done|]). split; [|done]. intros j [=].
Qed.

(** X25. Leaving a chart deactivates its tooltip and keeps everything else
    of its state; with a sync id one message goes out, and every peer with
    the same sync id and another emitter, whatever its policy, has its
    tooltip deactivated by it while its active index, label, payload and
    coordinate, its window and its layout stay as they were. *)
Theorem leave_hides_peer_tooltip (opts : CategoricalChartOptions) (a b : Chart) :
  syncId (chart_props a) <> PUndefined ->
  strict_eq (syncId (chart_props b)) (syncId (chart_props a)) = true ->
  eventEmitterSymbol a <> eventEmitterSymbol b ->
  exists stA msg stB,
    handleMouseLeave a = (stA, [msg]) /\
    msg_syncId msg = syncId (chart_props a) /\
    msg_emitter msg = eventEmitterSymbol a /\
    handleReceiveSyncEvent opts b (msg_syncId msg) (msg_data msg) (msg_emitter msg)
    = Returned stB /\
    isTooltipActive stA = Some false /\ isTooltipActive stB = Some false /\
    activeTooltipIndex stA = activeTooltipIndex (chart_state a) /\
    activeTooltipIndex stB = activeTooltipIndex (chart_state b) /\
    activeLabel stB = activeLabel (chart_state b) /\
    activePayload stB = activePayload (chart_state b) /\
    activeCoordinate stB = activeCoordinate (chart_state b) /\
    dataStartIndex stB = dataStartIndex (chart_state b) /\
    dataEndIndex stB = dataEndIndex (chart_state b) /\
    derived stB = derived (chart_state b).
Proof.
  intros Hid Heq Hne. unfold handleMouseLeave.
  rewrite triggerSyncEvent_emits by done.
  eexists _, _, _. split; [reflexivity|]. cbn [msg_syncId msg_data msg_emitter].
  rewrite receive_from_peer by done. cbn. repeat split; reflexivity.
Qed.

(** X26. A brush change to the window the state already has does nothing and
    broadcasts nothing. A change to another window, when the pass of the
    chart returns, stores the window with the layout of that pass and, with a
    sync id, sends the window alone; a peer with the same sync id and another
    emitter whose own pass returns adopts the window with the layout of its
    pass. Neither chart has its tooltip state touched. *)
Theorem brush_window_is_shared (opts : CategoricalChartOptions) (a b : Chart)
    (s e : Z) (ua ub : option Derived) :
  (dataStartIndex (chart_state a) = Some s -> dataEndIndex (chart_state a) = Some e ->
   handleBrushChange opts a s e = Returned (chart_state a, [])) /\
  (dataStartIndex (chart_state a) <> Some s \/ dataEndIndex (chart_state a) <> Some e ->
   updateStateOfAxisMapsOffsetAndStackGroups opts (chart_props a) (Some s) (Some e)
     (Some (chart_state a)) = Returned ua ->
   updateStateOfAxisMapsOffsetAndStackGroups opts (chart_props b) (Some s) (Some e)
     (Some (chart_state b)) = Returned ub ->
   syncId (chart_props a) <> PUndefined ->
   strict_eq (syncId (chart_props b)) (syncId (chart_props a)) = true ->
   eventEmitterSymbol a <> eventEmitterSymbol b ->
   exists stA msg stB,
     handleBrushChange opts a s e = Returned (stA, [msg]) /\
     msg_data msg = windowPatch s e /\
     msg_syncId msg = syncId (chart_props a) /\
     msg_emitter msg = eventEmitterSymbol a /\
     handleReceiveSyncEvent opts b (msg_syncId msg) (msg_data msg) (msg_emitter msg)
     = Returned stB /\
     dataStartIndex stA = Some s /\ dataEndIndex stA = Some e /\
     dataStartIndex stB = Some s /\ dataEndIndex stB = Some e /\
     derived stA = coalesce ua (derived (chart_state a)) /\
     derived stB = coalesce ub (derived (chart_state b)) /\
     activeTooltipIndex stA = activeTooltipIndex (chart_state a) /\
     isTooltipActive stA = isTooltipActive (chart_state a) /\
     activeTooltipIndex stB = activeTooltipIndex (chart_state b) /\
     isTooltipActive stB = isTooltipActive (chart_state b)).
Proof.
  split.
  - intros Hs He. unfold handleBrushChange. rewrite Hs, He.
    by rewrite !bool_decide_eq_true_2.
  - intros Hchg Hua Hub Hid Heq Hne. unfold handleBrushChange.
    assert (negb (bool_decide (Some s = dataStartIndex (chart_state a)))
            || negb (bool_decide (Some e = dataEndIndex (chart_state a))) = true) as ->.
    { apply orb_true_iff. destruct Hchg as [H|H]; [left | right];
        apply negb_true_iff, bool_decide_eq_false; congruence. }
    rewrite Hua. cbn. rewrite triggerSyncEvent_emits by done.
    eexists _, _, _. split; [reflexivity|]. cbn [msg_syncId msg_data msg_emitter].
    rewrite receive_from_peer by done.
    unfold applySyncEvent. cbn [windowPatch p_dataStartIndex p_dataEndIndex
      p_activeTooltipIndex]. rewrite Hub. cbn.
    repeat split; reflexivity.
Qed.

(** X27. The default tooltip is shown only for an index that has a tick:
    without a tooltip element, without a default index, or with an index
    that is negative or past the last tick the state is left as it is. For an
    index with a tick, in a chart with a tooltip axis, a plot rectangle, a
    numeric height and no scatter series, the state gets that index, an
    active tooltip, the label of the tick, the payload of that index and a
    coordinate made of the coordinate of the tick along the tooltip axis and
    the middle of top edge plus height across it. *)
Theorem default_tooltip_shown (pointsOf : GraphicalItem -> list ScatterPoint)
    (c : Chart) :
  (tooltip (chart_props c) = None -> displayDefaultTooltip pointsOf c = Returned (chart_state c)) /\
  (forall tt,
     tooltip (chart_props c) = Some tt ->
     (tt_defaultIndex tt = None ->
      displayDefaultTooltip pointsOf c = Returned (chart_state c)) /\
     (forall i,
        tt_defaultIndex tt = Some i ->
        ((i < 0)%Z -> displayDefaultTooltip pointsOf c = Returned (chart_state c)) /\
        (forall ticks,
           tooltipTicks (chart_state c) = Some ticks ->
           ((Z.of_nat (length ticks) <= i)%Z ->
            displayDefaultTooltip pointsOf c = Returned (chart_state c)) /\
           (forall tick axis d h,
              js_get ticks i = Some tick ->
              tooltipAxis (chart_state c) = Some axis ->
              derived (chart_state c) = Some d ->
              find (fun f => bool_decide (item_name f.1 = "Scatter"))
                (d_formattedGraphicalItems d) = None ->
              p_height (chart_props c) = PNum h ->
              exists st' payload,
                displayDefaultTooltip pointsOf c = Returned st' /\
                getTooltipContent (chart_state c) (data (chart_props c)) i
                  (tick_value tick) = Returned payload /\
                activeTooltipIndex st' = Some (IInt i) /\
                isTooltipActive st' = Some true /\
                activeLabel st' = tick_value tick /\
                activePayload st' = payload /\
                activeCoordinate st'
                = Some (if bool_decide (layout (chart_props c) = Horizontal)
                        then {| cc_x := Some (tick_coordinate tick);
                                cc_y := Some ((o_top (d_offset d) + h) / 2);
                                cc_angle := None; cc_radius := None |}
                        else {| cc_x := Some ((o_top (d_offset d) + h) / 2);
                                cc_y := Some (tick_coordinate tick);
                                cc_angle := None; cc_radius := None |}) /\
                dataStartIndex st' = dataStartIndex (chart_state c) /\
                dataEndIndex st' = dataEndIndex (chart_state c) /\
                derived st' = derived (chart_state c))))).
Proof.
  unfold displayDefaultTooltip. split; [by intros ->|].
  intros tt ->. split; [by intros ->|].
  intros i ->. split.
  { intros Hi. by rewrite (proj2 (Z.ltb_lt _ _) Hi). }
  intros ticks Ht. rewrite Ht. split.
  { intros Hi. destruct (i <? 0)%Z; [done|].
    by rewrite (proj2 (Z.ltb_lt (Z.of_nat (length ticks) - 1) i)) by lia. }
  intros tick axis d h Htick Hax Hd Hfind Hh.
  assert (0 <= i < Z.of_nat (length ticks))%Z as Hrange.
  { unfold js_get in Htick. destruct (i <? 0)%Z eqn:E; [discriminate|].
    apply Z.ltb_ge in E. apply lookup_lt_Some in Htick. lia. }
  rewrite (proj2 (Z.ltb_ge _ _)) by lia.
  rewrite (proj2 (Z.ltb_ge (Z.of_nat (length ticks) - 1) i)) by lia.
  rewrite Htick.
  change (default PUndefined (tick_value <$> Some tick)) with (tick_value tick).
  destruct (getTooltipContent_returns (chart_state c) (data (chart_props c)) i
              (tick_value tick) axis Hax) as (payload & Hp & _).
  rewrite Hp. cbn [mbind outcome_bind]. unfold offset. rewrite Hd.
  cbn [fmap option_fmap option_map]. rewrite Hfind, Hh.
  eexists _, payload. split; [reflexivity|]. split; [done|].
  cbn. repeat split; try reflexivity.
  by destruct (layout (chart_props c)).
Qed.

Lemma findTickByValue_first (ticks : list TickItem) (label : prim) (i : Z) :
  (0 <= i)%Z ->
  (findTickByValue ticks label i = (-1)%Z /\
   Forall (fun t => strict_eq (tick_value t) label = false) ticks) \/
  exists n t,
    findTickByValue ticks label i = (i + Z.of_nat n)%Z /\
    ticks !! n = Some t /\
    strict_eq (tick_value t) label = true /\
    Forall (fun u => strict_eq (tick_value u) label = false) (take n ticks).
Proof.
  revert i. induction ticks as [|t ticks IH]; intros i Hi; cbn.
  - left. by split.
  - destruct (strict_eq (tick_value t) label) eqn:E.
    + right. exists 0%nat, t. cbn. repeat split; [lia | done | constructor].
    + destruct (IH (i + 1)%Z ltac:(lia)) as [[H1 H2]|(n & u & H1 & H2 & H3 & H4)].
      * left. split; [done | by constructor].
      * right. exists (S n), u. cbn. repeat split; [lia | done | done | by constructor].
Qed.

(** X28. Under the 'value' policy a receiver of a tooltip event looks for the
    broadcast label among its own ticks: if some tick has that value, the
    receiver's index is the position of the first such tick and its label
    equals the broadcast one; if none has, the index is [-1], the label is
    [undefined], the payload is [null] and the coordinate is the origin. *)
Theorem value_sync_label (opts : CategoricalChartOptions) (c : Chart)
    (syncData : Patch) (broadcast : TooltipIndex) (o : ChartOffset) (ticks : list TickItem)
    (axis : TooltipAxis) :
  syncMethod (chart_props c) = SyncValue ->
  p_dataStartIndex syncData = None ->
  p_dataEndIndex syncData = None ->
  p_activeTooltipIndex syncData = Some broadcast ->
  offset (chart_state c) = Some o ->
  tooltipTicks (chart_state c) = Some ticks ->
  tooltipAxis (chart_state c) = Some axis ->
  let label := default PUndefined (p_activeLabel syncData) in
  exists st',
    applySyncEvent opts c syncData = Returned st' /\
    ((exists t, t ∈ ticks /\ strict_eq (tick_value t) label = true) ->
     exists n t,
       activeTooltipIndex st' = Some (IInt (Z.of_nat n)) /\
       ticks !! n = Some t /\
       activeLabel st' = tick_value t /\
       strict_eq (activeLabel st') label = true /\
       Forall (fun u => strict_eq (tick_value u) label = false) (take n ticks)) /\
    ((forall t, t ∈ ticks -> strict_eq (tick_value t) label = false) ->
     activeTooltipIndex st' = Some (IInt (-1)) /\
     activeLabel st' = PUndefined /\
     activePayload st' = None /\
     activeCoordinate st' = Some originCoordinate).
Proof.
  intros Hm Hs He Hi Ho Ht Hax label.
  destruct (applySyncEvent_hover opts c syncData broadcast o ticks axis Hs He Hi Ho Ht Hax)
    as (st' & payload & Happ & Hpay & Hidx & Hp & Hl & Hc & _).
  rewrite Hm in *. cbn [syncedIndex] in *. fold label in Hpay, Hidx, Hl, Hc.
  change (toIndex (Some (IInt (findTickByValue ticks label 0))))
    with (IInt (findTickByValue ticks label 0)) in Hpay, Hl, Hc.
  change (js_at ticks (IInt (findTickByValue ticks label 0)))
    with (js_get ticks (findTickByValue ticks label 0)) in Hl.
  unfold syncedCoordinate in Hc.
  change (js_at ticks (IInt (findTickByValue ticks label 0)))
    with (js_get ticks (findTickByValue ticks label 0)) in Hc.
  exists st'. split; [done|].
  destruct (findTickByValue_first ticks label 0 ltac:(lia))
    as [[Hnone Hall]|(n & t & Hj & Hn & Hmatch & Hbefore)].
  - split.
    + intros (t & Hin & Hmatch). rewrite Forall_forall in Hall.
      rewrite (Hall t Hin) in Hmatch. discriminate.
    + intros _. rewrite Hnone in *. cbn in Hl, Hc.
      split; [done|]. split; [done|]. split; [|done].
      rewrite Hp.
      destruct (getTooltipContent_returns (chart_state c) (data (chart_props c)) (-1)
                  PUndefined axis Hax) as (payload' & Hp' & Hnull).
      rewrite Hp' in Hpay. injection Hpay as <-. apply Hnull. lia.
  - rewrite Z.add_0_l in Hj. rewrite Hj in *.
    assert (js_get ticks (Z.of_nat n) = Some t) as Hget.
    { unfold js_get. destruct (Z.of_nat n <? 0)%Z eqn:E; [lia|]. by rewrite Nat2Z.id. }
    rewrite Hget in Hl. cbn in Hl.
    split.
    + intros _. exists n, t. rewrite Hl. by repeat split.
    + intros Hno. rewrite (Hno t) in Hmatch; [discriminate|].
      by apply list_elem_of_lookup_2 in Hn.
Qed.

Lemma triggerSyncEvent_inv (c : Chart) (syncData : Patch) (msg : SyncMessage) :
  msg ∈ triggerSyncEvent c syncData ->
  syncId (chart_props c) <> PUndefined /\
  msg = {| msg_syncId := syncId (chart_props c); msg_data := syncData;
           msg_emitter := eventEmitterSymbol c |}.
Proof.
  unfold triggerSyncEvent.
  destruct (syncId (chart_props c)) eqn:E; intros H;
    try (apply list_elem_of_In in H; destruct H as [<-|[]]; by split).
  by apply elem_of_nil in H.
Qed.

(** X29. Whatever a chart broadcasts, from a mouse move, a mouse enter, a
    click, a mouse leave or a brush change, carries the chart's own sync id
    and emitter, and a chart without a sync id broadcasts nothing. A chart
    whose sync id differs from the id of a message keeps its state. *)
Theorem sync_channels_are_separate (opts : CategoricalChartOptions) (a b : Chart)
    (e : MousePointer) (s0 e0 : Z) (msg : SyncMessage) :
  (exists st msgs,
     (triggeredAfterMouseMove opts a e = Returned (st, msgs) \/
      handleMouseEnter opts a e = Returned (st, msgs) \/
      handleClick opts a e = Returned (st, msgs) \/
      handleMouseLeave a = (st, msgs) \/
      handleBrushChange opts a s0 e0 = Returned (st, msgs)) /\
     msg ∈ msgs) ->
  syncId (chart_props a) <> PUndefined /\
  msg_syncId msg = syncId (chart_props a) /\
  msg_emitter msg = eventEmitterSymbol a /\
  (strict_eq (syncId (chart_props b)) (syncId (chart_props a)) = false ->
   handleReceiveSyncEvent opts b (msg_syncId msg) (msg_data msg) (msg_emitter msg)
   = Returned (chart_state b)).
Proof.
  intros (st & msgs & Hfrom & Hin).
  assert (exists syncData, msg ∈ triggerSyncEvent a syncData) as [syncData Hmsg].
  { destruct Hfrom as [H|[H|[H|[H|H]]]].
    - unfold triggeredAfterMouseMove in H.
      destruct (getMouseInfo opts a e) as [mouse|]; cbn in H; [|discriminate].
      injection H as <- <-. eauto.
    - unfold handleMouseEnter in H.
      destruct (getMouseInfo opts a e) as [[m|]|]; cbn in H; try discriminate;
        injection H as <- <-; [eauto | by apply elem_of_nil in Hin].
    - unfold handleClick in H.
      destruct (getMouseInfo opts a e) as [[m|]|]; cbn in H; try discriminate;
        injection H as <- <-; [eauto | by apply elem_of_nil in Hin].
    - unfold handleMouseLeave in H. injection H as <- <-. eauto.
    - unfold handleBrushChange in H.
      destruct (negb _ || negb _).
      + destruct (updateStateOfAxisMapsOffsetAndStackGroups _ _ _ _ _); cbn in H;
          [|discriminate]. injection H as <- <-. eauto.
      + injection H as <- <-. by apply elem_of_nil in Hin. }
  apply triggerSyncEvent_inv in Hmsg as [Hid ->]. cbn.
  split; [done|]. split; [done|]. split; [done|].
  intros Hne. unfold handleReceiveSyncEvent. by rewrite Hne.
Qed.

(** X30. A mouse move inside the plot of a mounted cartesian chart with an
    axis-triggered tooltip resolves the pointer along the tooltip axis: when
    the tick index computed for it is not negative, the state gets the
    rounded chart coordinates, an active tooltip, that index, the label of
    the tooltip tick at the index, the payload of the index and the
    coordinate snapped to the tick; when no tick is resolved the move counts
    as one outside the plot and only deactivates the tooltip. *)
Theorem hover_inside_plot (opts : CategoricalChartOptions) (c : Chart)
    (ct : Container) (e : MousePointer) (o : ChartOffset) (axis : TooltipAxis)
    (tTicks : list TickItem) :
  container c = Some ct ->
  is_cartesian (layout (chart_props c)) = true ->
  offset (chart_state c) = Some o ->
  insidePlot o (pointerPosition ct e).1 (pointerPosition ct e).2 ->
  tooltipAxis (chart_state c) = Some axis ->
  tooltipTicks (chart_state c) = Some tTicks ->
  getTooltipEventType opts c = EvAxis ->
  let st := chart_state c in
  let range :=
    {| r_x := Some (pointerPosition ct e).1; r_y := Some (pointerPosition ct e).2;
       r_angle := None; r_radius := None; r_cx := None; r_cy := None |} in
  let j :=
    calculateActiveTickIndex (calculateTooltipPos range (layout (chart_props c)))
      (orderedTooltipTicks st) (tooltipTicks st) (tooltipAxis st) in
  exists st' msgs,
    triggeredAfterMouseMove opts c e = Returned (st', msgs) /\
    ((0 <= j)%Z ->
     exists payload ordered,
       orderedTooltipTicks st = Some ordered /\
       getTooltipContent st (data (chart_props c)) j
         (default PUndefined (tick_value <$> js_get tTicks j)) = Returned payload /\
       chartX st' = Some (round (pageX e - ct_left ct)) /\
       chartY st' = Some (round (pageY e - ct_top ct)) /\
       isTooltipActive st' = Some true /\
       activeTooltipIndex st' = Some (IInt j) /\
       activeLabel st' = default PUndefined (tick_value <$> js_get tTicks j) /\
       activePayload st' = payload /\
       activeCoordinate st'
       = Some (getActiveCoordinate (layout (chart_props c)) ordered j range)) /\
    ((j < 0)%Z ->
     st' = setState st (withActive emptyPatch false) /\
     isTooltipActive st' = Some false /\
     activeTooltipIndex st' = activeTooltipIndex st).
Proof.
  intros Hc Hcart Ho Hin Hax Ht Hev st range j. subst st.
  assert (Hr : inRange c (round (pageX e - ct_left ct)) (round (pageY e - ct_top ct))
                 (pointerScale ct) = Returned (Some range)).
  { unfold inRange. rewrite Hcart, Ho.
    unfold pointerPosition in Hin. cbn [fst snd] in Hin. unfold insidePlot in Hin.
    assert (E : Qle_bool (o_left o) (scaled (round (pageX e - ct_left ct)) (pointerScale ct))
                && Qle_bool (scaled (round (pageX e - ct_left ct)) (pointerScale ct))
                     (o_left o + o_width o)
                && Qle_bool (o_top o) (scaled (round (pageY e - ct_top ct)) (pointerScale ct))
                && Qle_bool (scaled (round (pageY e - ct_top ct)) (pointerScale ct))
                     (o_top o + o_height o) = true).
    { rewrite !andb_true_iff, !Qle_bool_true. tauto. }
    by rewrite E. }
  assert (Hord : exists ordered, orderedTooltipTicks (chart_state c) = Some ordered).
  { unfold offset in Ho. unfold orderedTooltipTicks.
    destruct (derived (chart_state c)); [by eexists | discriminate]. }
  destruct Hord as [ordered Hord].
  unfold triggeredAfterMouseMove, getMouseInfo. rewrite Hc. cbv zeta. rewrite Hr.
  cbn [mbind outcome_bind]. rewrite Hev.
  unfold getTooltipData. cbn [default]. change (id range) with range.
  fold j. clearbody j. rewrite Ht, Hord.
  destruct (0 <=? j)%Z eqn:Ejz.
  - destruct (getTooltipContent_returns (chart_state c) (data (chart_props c)) j
                (default PUndefined (tick_value <$> js_get tTicks j)) axis Hax)
      as (payload & Hp & _).
    rewrite Hp. cbn. eexists _, _. split; [reflexivity|]. split.
    + intros _. exists payload, ordered. by repeat split.
    + intros Hj. apply Z.leb_le in Ejz. lia.
  - cbn. eexists _, _. split; [reflexivity|]. split.
    + intros Hj. apply Z.leb_gt in Ejz. lia.
    + intros _. by repeat split.
Qed.

End FurtherProperties.

(** ** Runs on the example charts *)

Lemma getDisplayedData_own_data_witness :
  getDisplayedData (Some Examples.rows)
    (Some [Examples.shortSeries; Examples.longSeries]) (Some 0%Z) (Some 0%Z)
  = [Examples.row "a" 2; Examples.row "b" 3; Examples.row "c" 1].
Proof.
  apply (proj1 (getDisplayedData_own_data (Some Examples.rows)
                  [Examples.shortSeries; Examples.longSeries] (Some 0%Z) (Some 0%Z))).
  discriminate.
Defined.

Lemma getDisplayedData_window_witness :
  Z.of_nat (length (getDisplayedData (Some Examples.rows) (Some [Examples.series])
                      (Some 1%Z) (Some 2%Z)))
  = (2 - 1 + 1)%Z.
Proof.
  apply (getDisplayedData_window Examples.rows [Examples.series] 1 2);
    [reflexivity | lia | cbn; lia].
Defined.

Lemma createDefaultState_window_witness :
  getDisplayedData (Some Examples.rows) (Some [Examples.series])
    (p_dataStartIndex (createDefaultState (Examples.horizontalProps SyncIndex)))
    (p_dataEndIndex (createDefaultState (Examples.horizontalProps SyncIndex)))
  = Examples.rows.
Proof.
  apply (proj2 (proj2 (createDefaultState_window (Examples.horizontalProps SyncIndex))));
    reflexivity.
Defined.

Lemma tooltip_payload_bounded_witness :
  getTooltipContent (U := Model.modelUtils)
    (Examples.mountedState (Examples.horizontalProps SyncIndex))
    (Some Examples.rows) 7 (PStr "b")
  = Returned None.
Proof.
  apply (proj1 (tooltip_payload_bounded (U := Model.modelUtils)
                  (Examples.mountedState (Examples.horizontalProps SyncIndex))
                  (Some Examples.rows) 7 (PStr "b"))).
  right. left. vm_compute. discriminate.
Defined.

Lemma getAxisMapByAxes_first_wins_witness :
  getAxisMapByAxes (U := Model.modelUtils) (Examples.horizontalProps SyncIndex)
    [MoreExamples.axisWithId (IdNum 0) OBottom TCategory Examples.nameKey None;
     MoreExamples.axisWithId (IdStr "0") OTop TNumber None None]
    [Examples.series] XAxis None (Some 0%Z) (Some 2%Z)
  = getAxisMapByAxes (U := Model.modelUtils) (Examples.horizontalProps SyncIndex)
      [MoreExamples.axisWithId (IdNum 0) OBottom TCategory Examples.nameKey None]
      [Examples.series] XAxis None (Some 0%Z) (Some 2%Z).
Proof.
  apply (proj1 (proj2 (proj2
           (getAxisMapByAxes_first_wins (U := Model.modelUtils)
              (Examples.horizontalProps SyncIndex)
              [MoreExamples.axisWithId (IdNum 0) OBottom TCategory Examples.nameKey None;
               MoreExamples.axisWithId (IdStr "0") OTop TNumber None None]
              [Examples.series] XAxis None (Some 0%Z) (Some 2%Z) eq_refl)))
         [MoreExamples.axisWithId (IdNum 0) OBottom TCategory Examples.nameKey None]
         (MoreExamples.axisWithId (IdStr "0") OTop TNumber None None) []).
  - reflexivity.
  - eexists. split; [apply list_elem_of_here | reflexivity].
Defined.

Lemma user_domain_adopted_witness :
  ar_domain
    (axisOfElement (U := Model.modelUtils) (Examples.horizontalProps SyncIndex) XAxis
       None (Some 0%Z) (Some 2%Z) [Examples.series] Examples.userAxis)
  = [PNum 0; PNum 1; PNum 2; PNum 3].
Proof.
  apply (user_domain_adopted (U := Model.modelUtils) (Examples.horizontalProps SyncIndex)
           XAxis None (Some 0%Z) (Some 2%Z) [Examples.series] Examples.userAxis);
    [reflexivity | discriminate].
Defined.

Lemma categorical_axis_without_key_witness :
  ar_domain
    (axisOfElement (U := Model.modelUtils) (Examples.horizontalProps SyncIndex) XAxis
       None (Some 0%Z) (Some 2%Z) [Examples.series]
       (Examples.axis OBottom TCategory None None true))
  = range0 3.
Proof.
  apply (categorical_axis_without_key (U := Model.modelUtils)
           (Examples.horizontalProps SyncIndex) XAxis None (Some 0%Z) (Some 2%Z)
           [Examples.series] (Examples.axis OBottom TCategory None None true));
    reflexivity.
Defined.

Lemma blank_categories_dropped_witness :
  distinctEntries
    (ar_domain
       (axisOfElement (U := Model.modelUtils) (Examples.verticalProps SyncIndex) XAxis
          None (Some 0%Z) (Some 2%Z) [Examples.series]
          (Examples.axis OBottom TCategory Examples.nameKey None false))).
Proof.
  apply (blank_categories_dropped (U := Model.modelUtils)
           (Examples.verticalProps SyncIndex) XAxis None (Some 0%Z) (Some 2%Z)
           [Examples.series] (Examples.axis OBottom TCategory Examples.nameKey None false));
    try reflexivity. discriminate.
Defined.

Lemma implied_axes_hidden_witness :
  is_Some
    (getAxisMapByItems (U := Model.modelUtils) bareProps [Examples.series]
       (XAxis_defaultProps Examples.options) orient_x XAxis None (Some 0%Z) (Some 2%Z)
     !! "0").
Proof.
  apply (proj2 (implied_axes_hidden (U := Model.modelUtils) bareProps [Examples.series]
                  (XAxis_defaultProps Examples.options) orient_x XAxis None
                  (Some 0%Z) (Some 2%Z)) Examples.series);
    [apply list_elem_of_here | reflexivity].
Defined.

Lemma hidden_axes_take_no_room_witness :
  o_left
    (calculateOffset (U := Model.modelUtils) bareProps [Examples.series]
       (getAxisMapByItems (U := Model.modelUtils) bareProps [Examples.series]
          (XAxis_defaultProps Examples.options) orient_x XAxis None
          (Some 0%Z) (Some 2%Z))
       (getAxisMapByItems (U := Model.modelUtils) bareProps [Examples.series]
          (YAxis_defaultProps Examples.options) orient_y YAxis None
          (Some 0%Z) (Some 2%Z))
       None)
  = or0 (Some 5).
Proof.
  apply (hidden_axes_take_no_room (U := Model.modelUtils) bareProps [Examples.series]
           (getAxisMapByItems (U := Model.modelUtils) bareProps [Examples.series]
              (XAxis_defaultProps Examples.options) orient_x XAxis None
              (Some 0%Z) (Some 2%Z))
           (getAxisMapByItems (U := Model.modelUtils) bareProps [Examples.series]
              (YAxis_defaultProps Examples.options) orient_y YAxis None
              (Some 0%Z) (Some 2%Z))
           None).
  - refine (bool_decide_unpack _ _). vm_compute. exact I.
  - refine (bool_decide_unpack _ _). vm_compute. exact I.
  - by left.
Defined.

Lemma axis_id_invariant_witness :
  exists msg,
    updateStateOfAxisMapsOffsetAndStackGroups (U := Model.modelUtils) Examples.options
      MoreExamples.strayProps (Some 0%Z) (Some 2%Z) None
    = Thrown msg.
Proof.
  apply (axis_id_invariant (U := Model.modelUtils) Examples.options
           MoreExamples.strayProps (Some 0%Z) (Some 2%Z) None);
    [reflexivity | done | reflexivity |].
  exists MoreExamples.straySeries, XAxis.
  split; [apply list_elem_of_further, list_elem_of_here|].
  split; [apply list_elem_of_here|]. split; [discriminate|]. split; [discriminate|].
  cbn. intros H. apply list_elem_of_In in H. destruct H as [H|[]]. discriminate H.
Defined.

Lemma inRange_cartesian_witness :
  inRange (U := Model.modelUtils) (Examples.mounted (Examples.horizontalProps SyncIndex))
    100 100 (Finite 1)
  = Returned (Some {| r_x := Some (scaled 100 (Finite 1));
                      r_y := Some (scaled 100 (Finite 1));
                      r_angle := None; r_radius := None; r_cx := None; r_cy := None |}).
Proof.
  refine (proj1 (proj1 (inRange_cartesian (U := Model.modelUtils)
                          (Examples.mounted (Examples.horizontalProps SyncIndex))
                          100 100 (Finite 1) eq_refl)
                   {| o_brushBottom := 35; o_top := 5; o_right := 5; o_bottom := 35;
                      o_left := 65; o_width := 330; o_height := 260 |} _) _).
  - vm_compute. reflexivity.
  - vm_compute. repeat split; discriminate.
Defined.

Lemma click_outside_changes_nothing_witness :
  handleClick (U := Model.modelUtils) Examples.options
    (Examples.mounted (Examples.horizontalProps SyncIndex))
    {| pageX := 10; pageY := 100 |}
  = Returned (chart_state (Examples.mounted (Examples.horizontalProps SyncIndex)), []).
Proof.
  refine (proj1 (click_outside_changes_nothing (U := Model.modelUtils) Examples.options
                   (Examples.mounted (Examples.horizontalProps SyncIndex))
                   {| pageX := 10; pageY := 100 |} _)).
  right.
  exists {| ct_left := 10; ct_top := 20; ct_rectWidth := 400; ct_offsetWidth := 400 |}.
  split; [reflexivity|].
  exists {| o_brushBottom := 35; o_top := 5; o_right := 5; o_bottom := 35;
            o_left := 65; o_width := 330; o_height := 260 |}.
  split.
  - vm_compute. reflexivity.
  - intros [H _]. vm_compute in H. apply H. reflexivity.
Defined.

Lemma hover_reaches_peer_witness :
  exists stA msg stB,
    triggeredAfterMouseMove (U := Model.modelUtils) Examples.options
      (Examples.mounted (Examples.horizontalProps SyncIndex))
      {| pageX := 110; pageY := 120 |}
    = Returned (stA, [msg]) /\
    handleReceiveSyncEvent (U := Model.modelUtils) Examples.options
      (MoreExamples.peer (Examples.horizontalProps SyncIndex))
      (msg_syncId msg) (msg_data msg) (msg_emitter msg)
    = Returned stB /\
    isTooltipActive stB = isTooltipActive stA.
Proof.
  eassert (Hmove : triggeredAfterMouseMove (U := Model.modelUtils) Examples.options
                     (Examples.mounted (Examples.horizontalProps SyncIndex))
                     {| pageX := 110; pageY := 120 |} = Returned (_, _))
    by (vm_compute; reflexivity).
  edestruct (hover_reaches_peer (U := Model.modelUtils) Examples.options
               (Examples.mounted (Examples.horizontalProps SyncIndex))
               (MoreExamples.peer (Examples.horizontalProps SyncIndex))
               {| pageX := 110; pageY := 120 |})
    as (msg & stB & active & Hmsgs & _ & _ & HB & HA & HBa & _);
    [exact Hmove | discriminate | reflexivity | discriminate | reflexivity
     | vm_compute; reflexivity | vm_compute; reflexivity | vm_compute; reflexivity |].
  rewrite Hmsgs in Hmove.
  eexists _, msg, stB. split; [exact Hmove|]. split; [exact HB|]. congruence.
Defined.

Lemma leave_hides_peer_tooltip_witness :
  exists stA msg stB,
    handleMouseLeave (Examples.mounted (Examples.horizontalProps SyncIndex))
    = (stA, [msg]) /\
    handleReceiveSyncEvent (U := Model.modelUtils) Examples.options
      (MoreExamples.peer (Examples.horizontalProps SyncValue))
      (msg_syncId msg) (msg_data msg) (msg_emitter msg)
    = Returned stB /\
    isTooltipActive stB = Some false.
Proof.
  destruct (leave_hides_peer_tooltip (U := Model.modelUtils) Examples.options
              (Examples.mounted (Examples.horizontalProps SyncIndex))
              (MoreExamples.peer (Examples.horizontalProps SyncValue)))
    as (stA & msg & stB & HA & _ & _ & HB & _ & Hoff & _);
    [discriminate | reflexivity | discriminate |].
  exists stA, msg, stB. split; [exact HA|]. split; [exact HB | exact Hoff].
Defined.

Lemma brush_window_is_shared_witness :
  exists stA msg stB,
    handleBrushChange (U := Model.modelUtils) Examples.options
      (Examples.mounted (Examples.horizontalProps SyncIndex)) 1 2
    = Returned (stA, [msg]) /\
    handleReceiveSyncEvent (U := Model.modelUtils) Examples.options
      (MoreExamples.peer (Examples.horizontalProps SyncIndex))
      (msg_syncId msg) (msg_data msg) (msg_emitter msg)
    = Returned stB /\
    dataStartIndex stB = Some 1%Z /\ dataEndIndex stB = Some 2%Z.
Proof.
  eassert (Hua : updateStateOfAxisMapsOffsetAndStackGroups (U := Model.modelUtils)
                   Examples.options (Examples.horizontalProps SyncIndex)
                   (Some 1%Z) (Some 2%Z)
                   (Some (chart_state
                            (Examples.mounted (Examples.horizontalProps SyncIndex))))
                 = Returned _) by (vm_compute; reflexivity).
  eassert (Hub : updateStateOfAxisMapsOffsetAndStackGroups (U := Model.modelUtils)
                   Examples.options (Examples.horizontalProps SyncIndex)
                   (Some 1%Z) (Some 2%Z)
                   (Some (chart_state
                            (MoreExamples.peer (Examples.horizontalProps SyncIndex))))
                 = Returned _) by (vm_compute; reflexivity).
  edestruct (fun ua ub =>
               proj2 (brush_window_is_shared (U := Model.modelUtils) Examples.options
                        (Examples.mounted (Examples.horizontalProps SyncIndex))
                        (MoreExamples.peer (Examples.horizontalProps SyncIndex))
                        1 2 ua ub))
    as (stA & msg & stB & HA & _ & _ & _ & HB & _ & _ & Hs & He & _);
    [left; vm_compute; discriminate | exact Hua | exact Hub
     | discriminate | reflexivity | discriminate |].
  exists stA, msg, stB. split; [exact HA|]. split; [exact HB|]. split; [exact Hs | exact He].
Defined.

Lemma default_tooltip_shown_witness :
  exists st',
    displayDefaultTooltip (U := Model.modelUtils) (fun _ => [])
      (Examples.mounted MoreExamples.tooltipProps)
    = Returned st' /\
    activeTooltipIndex st' = Some (IInt 1) /\ isTooltipActive st' = Some true /\
    activeLabel st' = PStr "b".
Proof.
  destruct (proj2 (default_tooltip_shown (U := Model.modelUtils) (fun _ => [])
                     (Examples.mounted MoreExamples.tooltipProps))
              {| tt_shared := None; tt_defaultIndex := Some 1%Z |} eq_refl)
    as [_ H].
  destruct (H 1%Z eq_refl) as [_ H1].
  edestruct (H1 [{| tick_value := PStr "a"; tick_coordinate := 0; tick_index := 0 |};
                 {| tick_value := PStr "b"; tick_coordinate := 1; tick_index := 1 |};
                 {| tick_value := PStr "a"; tick_coordinate := 2; tick_index := 2 |}])
    as [_ H2]; [vm_compute; reflexivity|].
  edestruct (fun d =>
               H2 {| tick_value := PStr "b"; tick_coordinate := 1; tick_index := 1 |}
                 {| ta_axisType := XAxis; ta_dataKey := Examples.nameKey;
                    ta_allowDuplicatedCategory := true |} d 300)
    as (st' & payload & Hst & _ & Hi & Ha & Hl & _);
    [reflexivity | vm_compute; reflexivity | vm_compute; reflexivity
     | vm_compute; reflexivity | reflexivity |].
  exists st'. split; [exact Hst|]. split; [exact Hi|]. split; [exact Ha | exact Hl].
Defined.

Lemma value_sync_label_witness :
  exists st' n,
    applySyncEvent (U := Model.modelUtils) Examples.options
      (Examples.mounted MoreExamples.byValueProps) (Examples.hover 5 100 100)
    = Returned st' /\
    activeTooltipIndex st' = Some (IInt (Z.of_nat n)) /\
    strict_eq (activeLabel st') (PStr "b") = true.
Proof.
  edestruct (value_sync_label (U := Model.modelUtils) Examples.options
               (Examples.mounted MoreExamples.byValueProps) (Examples.hover 5 100 100) 5
               {| o_brushBottom := 35; o_top := 5; o_right := 5; o_bottom := 35;
                  o_left := 65; o_width := 330; o_height := 260 |}
               [{| tick_value := PStr "a"; tick_coordinate := 0; tick_index := 0 |};
                {| tick_value := PStr "b"; tick_coordinate := 1; tick_index := 1 |}]
               {| ta_axisType := XAxis; ta_dataKey := Examples.nameKey;
                  ta_allowDuplicatedCategory := false |})
    as (st' & Hst & Hfound & _); try (vm_compute; reflexivity).
  destruct Hfound as (n & t & Hi & _ & _ & Hl & _).
  { eexists. split; [apply list_elem_of_further, list_elem_of_here | reflexivity]. }
  exists st', n. split; [exact Hst|]. split; [exact Hi | exact Hl].
Defined.

Lemma sync_channels_are_separate_witness :
  handleReceiveSyncEvent (U := Model.modelUtils) Examples.options
    (MoreExamples.peer MoreExamples.otherChannelProps)
    (PStr "linked") (withActive emptyPatch false) 1
  = Returned (chart_state (MoreExamples.peer MoreExamples.otherChannelProps)).
Proof.
  refine (proj2 (proj2 (proj2
           (sync_channels_are_separate (U := Model.modelUtils) Examples.options
              (Examples.mounted (Examples.horizontalProps SyncIndex))
              (MoreExamples.peer MoreExamples.otherChannelProps)
              {| pageX := 10; pageY := 100 |} 0 2
              {| msg_syncId := PStr "linked"; msg_data := withActive emptyPatch false;
                 msg_emitter := 1 |} _))) _).
  - eexists _, _. split; [right; right; right; left; reflexivity|].
    cbn. apply list_elem_of_here.
  - reflexivity.
Defined.

Lemma hover_inside_plot_witness :
  exists st' msgs,
    triggeredAfterMouseMove (U := Model.modelUtils) Examples.options
      (Examples.mounted (Examples.horizontalProps SyncIndex))
      {| pageX := 390; pageY := 120 |}
    = Returned (st', msgs) /\
    isTooltipActive st' = Some true /\ activeTooltipIndex st' = Some (IInt 2).
Proof.
  edestruct (hover_inside_plot (U := Model.modelUtils) Examples.options
               (Examples.mounted (Examples.horizontalProps SyncIndex))
               {| ct_left := 10; ct_top := 20; ct_rectWidth := 400; ct_offsetWidth := 400 |}
               {| pageX := 390; pageY := 120 |}
               {| o_brushBottom := 35; o_top := 5; o_right := 5; o_bottom := 35;
                  o_left := 65; o_width := 330; o_height := 260 |}
               {| ta_axisType := XAxis; ta_dataKey := Examples.nameKey;
                  ta_allowDuplicatedCategory := true |}
               [{| tick_value := PStr "a"; tick_coordinate := 0; tick_index := 0 |};
                {| tick_value := PStr "b"; tick_coordinate := 1; tick_index := 1 |};
                {| tick_value := PStr "a"; tick_coordinate := 2; tick_index := 2 |}])
    as (st' & msgs & Hst & Hpos & _);
    [reflexivity | reflexivity | vm_compute; reflexivity
     | vm_compute; repeat split; discriminate
     | vm_compute; reflexivity | vm_compute; reflexivity | reflexivity |].
  destruct Hpos as (payload & ordered & _ & _ & _ & _ & Hact & Hidx & _).
  { vm_compute. discriminate. }
  vm_compute in Hidx. exists st', msgs.
  split; [exact Hst|]. split; [exact Hact | exact Hidx].
Defined.
